(** * Device activity tracker: the analytics engine

    A shallow embedding of [src/analytics/networkIntelligence.ts] and
    [src/analytics/analytics.ts], and the properties of the analytics
    engine stated over it.

    Numbers.  A JavaScript [number] that holds a measured or derived
    quantity (an RTT, a mean, a percentage) is a rational [Q]: the exact
    value the floating-point computation approximates.  Counts and array
    lengths are [nat], epoch timestamps, hours and days are [Z].  Since
    equal rationals have several representations, numeric results are
    compared with [==] ([Qeq]).

    The exact model serves the statements that survive the rounding of
    the doubles: ranges, counts, orders and the values of formulas.  A
    statement that turns on the rounding itself (a strict comparison of a
    computed variance with a threshold, the outcome of a quotient by
    zero, the order of a summation) is made over IEEE 754 doubles
    instead, in [Double] and [NetworkIntelligence64].

    Rocq's [Qdiv] is total ([x / 0 == 0]).  It is used only where the
    source's divisor cannot be zero (a length behind a length guard, a
    constant, a mean behind [mean > 0], [totalProbes] behind
    [totalProbes === 0]).  The one unguarded quotient of the source, in
    [detectLatencyTrend], goes through [js_div], which keeps JavaScript's
    non-finite results apart. *)

From Stdlib Require Import String.
From Stdlib Require Import List ZArith QArith Qround Lia Lqa Bool
  Permutation Sorted Arith.
From Stdlib Require Import Floats.SpecFloat.
Import ListNotations.
Open Scope Q_scope.

Set Implicit Arguments.

(** ** JavaScript numerics *)

Definition Qnat (n : nat) : Q := inject_Z (Z.of_nat n).

(** [a < b] and [a > b] on numbers. *)
Definition Qlt_bool (a b : Q) : bool := negb (Qle_bool b a).
Definition Qgt_bool (a b : Q) : bool := Qlt_bool b a.

Definition Math_max (a b : Q) : Q := if Qle_bool a b then b else a.
Definition Math_min (a b : Q) : Q := if Qle_bool a b then a else b.

(** [Math.floor], as an integer. *)
Definition Math_floor (x : Q) : Z := Qfloor x.

(** [Math.round] rounds half up: [floor (x + 1/2)]. *)
Definition Math_round (x : Q) : Q := inject_Z (Qfloor (x + (1 # 2))).

(** [xs.reduce((a, b) => a + b, 0)] *)
Definition sum (xs : list Q) : Q := fold_left Qplus xs 0.

(** [xs[i]] for an index the source computes with [Math.floor]; every use
    below is in range (see [quartile_indices_in_range]). *)
Definition at_index (xs : list Q) (i : Z) : Q := nth (Z.to_nat i) xs 0.

(** The result of a division the source does not guard: a finite quotient,
    or what IEEE 754 gives for a zero divisor. *)
Inductive jsnum : Type :=
| Fin (q : Q)
| PosInf
| NegInf
| NaN.

Definition js_div (a b : Q) : jsnum :=
  if Qeq_bool b 0 then
    (if Qlt_bool 0 a then PosInf else if Qlt_bool a 0 then NegInf else NaN)
  else Fin (a / b).

(** [x * k] for a finite positive constant [k]. *)
Definition js_scale (x : jsnum) (k : Q) : jsnum :=
  match x with
  | Fin q => Fin (q * k)
  | other => other
  end.

(** [x < k] and [x > k] against a finite constant; false on [NaN]. *)
Definition js_lt (x : jsnum) (k : Q) : bool :=
  match x with
  | Fin q => Qlt_bool q k
  | NegInf => true
  | PosInf | NaN => false
  end.

Definition js_gt (x : jsnum) (k : Q) : bool :=
  match x with
  | Fin q => Qgt_bool q k
  | PosInf => true
  | NegInf | NaN => false
  end.

Definition isFinite (x : jsnum) : bool :=
  match x with Fin _ => true | _ => false end.

(** ** Arrays, Maps and Sets *)

(** [Array.prototype.sort] with a comparator is a stable sort; [le x y]
    stands for [compare(x, y) <= 0].  Insertion from the right keeps equal
    elements in their original order. *)
Fixpoint insert (A : Type) (le : A -> A -> bool) (x : A) (l : list A) : list A :=
  match l with
  | [] => [x]
  | y :: t => if le x y then x :: l else y :: insert le x t
  end.

Fixpoint sort (A : Type) (le : A -> A -> bool) (l : list A) : list A :=
  match l with
  | [] => []
  | x :: t => insert le x (sort le t)
  end.

(** [[...xs].sort((a, b) => a - b)] *)
Definition sortAscending (xs : list Q) : list Q := sort Qle_bool xs.

(** A [Map<K, V[]>] in insertion order; [push] is
    [if (!map.has(k)) map.set(k, []); map.get(k).push(v)]. *)
Fixpoint push (K V : Type) (eqb : K -> K -> bool) (k : K) (v : V)
    (m : list (K * list V)) : list (K * list V) :=
  match m with
  | [] => [(k, [v])]
  | (k', vs) :: rest =>
      if eqb k k' then (k', vs ++ [v]) :: rest
      else (k', vs) :: push eqb k v rest
  end.

Definition groupBy (K V : Type) (eqb : K -> K -> bool) (key : V -> K)
    (l : list V) : list (K * list V) :=
  fold_left (fun m x => push eqb (key x) x m) l [].

(** [map.get(k) || []] *)
Fixpoint getOrEmpty (K V : Type) (eqb : K -> K -> bool) (k : K)
    (m : list (K * list V)) : list V :=
  match m with
  | [] => []
  | (k', vs) :: rest => if eqb k k' then vs else getOrEmpty eqb k rest
  end.

(** A [Set<T>] in insertion order: [set.add(x)] and [set.has(x)]. *)
Fixpoint setAdd (A : Type) (eqb : A -> A -> bool) (x : A) (s : list A) : list A :=
  match s with
  | [] => [x]
  | y :: t => if eqb x y then s else y :: setAdd eqb x t
  end.

Definition setHas (A : Type) (eqb : A -> A -> bool) (x : A) (s : list A) : bool :=
  existsb (eqb x) s.

(** [Array.from({ length: n }, (_, i) => f(i))] *)
Definition arrayFrom (A : Type) (n : nat) (f : Z -> A) : list A :=
  map (fun i => f (Z.of_nat i)) (seq 0 n).

(** ** The environment of a call

    What the engine reads from outside its arguments: the clock
    ([new Date()]) and the local time zone, which [getHours] and [getDay]
    apply to a timestamp. *)
Record Env : Type := {
  now : Z;                (* the clock, epoch milliseconds *)
  tzOffset : Z -> Z       (* local-time offset at an instant, milliseconds *)
}.

(** Modelled from the spec: [getHours] of the date-fns package, which is
    not under src/.  The spec buckets "by hour-of-day (0-23)", in local
    time. *)
Definition getHours (e : Env) (timestamp : Z) : Z :=
  (((timestamp + tzOffset e timestamp) / 3600000) mod 24)%Z.

(** Modelled from the spec: [getDay] of the date-fns package, which is not
    under src/.  The spec buckets by "day-of-week (0=Sunday...6=Saturday)";
    the epoch began on a Thursday. *)
Definition getDay (e : Env) (timestamp : Z) : Z :=
  (((timestamp + tzOffset e timestamp) / 86400000 + 4) mod 7)%Z.

(** Modelled from the spec: [differenceInMinutes] of the date-fns package,
    which is not under src/.  The spec reports the session length in
    minutes; the package counts the whole minutes from [right] to [left],
    truncated toward zero. *)
Definition differenceInMinutes (left right : Z) : Z :=
  Z.quot (left - right) 60000.

(** ** The simple-statistics package

    [analytics.ts] imports it as [stats]; the package is not under src/. *)
Module stats.

(** Modelled from the spec: [stats.min] of the simple-statistics package,
    not under src/: the least element of a non-empty sequence ("min ...
    over all RTTs in the input set"). *)
Definition min (xs : list Q) : Q :=
  match xs with
  | [] => 0
  | x :: t => fold_left Math_min t x
  end.

(** Modelled from the spec: [stats.max] of the simple-statistics package,
    not under src/: the greatest element of a non-empty sequence. *)
Definition max (xs : list Q) : Q :=
  match xs with
  | [] => 0
  | x :: t => fold_left Math_max t x
  end.

(** Modelled from the spec: [stats.mean] of the simple-statistics package,
    not under src/: the arithmetic mean of a non-empty sequence. *)
Definition mean (xs : list Q) : Q := sum xs / Qnat (length xs).

(** Modelled from the spec: the population variance of the
    simple-statistics package, not under src/ ("mean, population
    variance, standard deviation"; variance 0 for length 1). *)
Definition variance (xs : list Q) : Q :=
  sum (map (fun x => (x - mean xs) * (x - mean xs)) xs) / Qnat (length xs).

(** Modelled from the spec: [stats.quantile] of the simple-statistics
    package, not under src/, on a sorted sequence: "nearest-rank method:
    sort ascending, index = floor(length x p)".  The quantiles of the
    published package interpolate; [performStatisticalAnalysisWith]
    below takes the quantile function as a parameter. *)
Definition quantile (sorted : list Q) (p : Q) : Q :=
  at_index sorted (Math_floor (Qnat (length sorted) * p)).

(** Modelled from the spec: [stats.median] of the simple-statistics
    package, not under src/.  The spec's example fixes the median of
    [10,20,30,40] at 25: the middle element of the sorted sequence, or
    the mean of the two middle elements when the length is even. *)
Definition median (xs : list Q) : Q :=
  let sorted := sortAscending xs in
  let n := length sorted in
  if Nat.even n
  then (nth (n / 2 - 1) sorted 0 + nth (n / 2) sorted 0) / 2
  else nth (n / 2) sorted 0.

Section WithSqrt.
(** [Math.sqrt] has no rational model; the engine is stated for any. *)
Variable Math_sqrt : Q -> Q.

(** Modelled from the spec: [stats.standardDeviation] of the
    simple-statistics package, not under src/: the square root of the
    population variance. *)
Definition standardDeviation (xs : list Q) : Q := Math_sqrt (variance xs).
End WithSqrt.

End stats.

(** ** networkIntelligence.ts

    The exact model: every operation is the real-number operation the
    double operation rounds.  [NetworkIntelligence64] below gives the
    functions whose result can turn on the rounding over doubles. *)

Inductive NetworkType : Type := WiFi | Mobile | Unknown.
Inductive LatencyTrend : Type := improving | stable | degrading.

Module NetworkAnalysis.
Record t : Type := mk {
  networkType : NetworkType;
  networkQuality : Q;
  connectionStability : Q;
  latencyTrend : LatencyTrend;
  packetLossIndicator : Q;
  connectionReliability : Q
}.
End NetworkAnalysis.

Module NetworkIntelligence.

(** [private static calculateVariance] *)
Definition calculateVariance (values : list Q) : Q :=
  if Nat.eqb (length values) 0 then 0
  else
    let mean := sum values / Qnat (length values) in
    let squaredDiffs := map (fun value => (value - mean) * (value - mean)) values in
    sum squaredDiffs / Qnat (length values).

Definition detectNetworkType (rttHistory : list Q) : NetworkType :=
  if Nat.ltb (length rttHistory) 10 then Unknown
  else
    let sorted := sortAscending rttHistory in
    let median := at_index sorted (Math_floor (Qnat (length sorted) / 2)) in
    let q1 := at_index sorted (Math_floor (Qnat (length sorted) * (25 # 100))) in
    let q3 := at_index sorted (Math_floor (Qnat (length sorted) * (75 # 100))) in
    let iqr := q3 - q1 in
    let variance := calculateVariance rttHistory in
    let isLikelyWiFi :=
      Qlt_bool median 500 && Qlt_bool variance 50000 && Qlt_bool iqr 200 in
    let isLikelyMobile :=
      Qgt_bool median 800 || Qgt_bool variance 100000 || Qgt_bool iqr 400 in
    if isLikelyWiFi then WiFi
    else if isLikelyMobile then Mobile
    else Unknown.

(** The local constants of [detectLatencyTrend], which the statements
    below name. *)
Definition halves (rttHistory : list Q) : list Q * list Q :=
  let mid := Z.to_nat (Math_floor (Qnat (length rttHistory) / 2)) in
  (firstn mid rttHistory, skipn mid rttHistory).

Definition firstAvg (rttHistory : list Q) : Q :=
  let firstHalf := fst (halves rttHistory) in
  sum firstHalf / Qnat (length firstHalf).

Definition secondAvg (rttHistory : list Q) : Q :=
  let secondHalf := snd (halves rttHistory) in
  sum secondHalf / Qnat (length secondHalf).

(** [((secondAvg - firstAvg) / firstAvg) * 100], the divisor unguarded. *)
Definition change (rttHistory : list Q) : jsnum :=
  js_scale (js_div (secondAvg rttHistory - firstAvg rttHistory)
                   (firstAvg rttHistory)) 100.

Definition detectLatencyTrend (rttHistory : list Q) : LatencyTrend :=
  if Nat.ltb (length rttHistory) 20 then stable
  else
    if js_lt (change rttHistory) (-10) then improving
    else if js_gt (change rttHistory) 10 then degrading
    else stable.

Definition default_timeoutThreshold : Q := 10000.

Definition calculatePacketLossIndicator (rttHistory : list Q)
    (timeoutThreshold : Q) : Q :=
  if Nat.ltb (length rttHistory) 5 then 0
  else
    let sorted := sortAscending rttHistory in
    let q3 := at_index sorted (Math_floor (Qnat (length sorted) * (75 # 100))) in
    let iqr := q3 - at_index sorted (Math_floor (Qnat (length sorted) * (25 # 100))) in
    let upperBound := q3 + (15 # 10) * iqr in
    let outliers :=
      filter (fun rtt => Qgt_bool rtt upperBound
                         || Qgt_bool rtt (timeoutThreshold * (8 # 10)))
             rttHistory in
    let outlierRate := (Qnat (length outliers) / Qnat (length rttHistory)) * 100 in
    Math_min 100 (Math_round (outlierRate * 10)).

Section WithSqrt.
Variable Math_sqrt : Q -> Q.

Definition calculateNetworkQuality (rttHistory : list Q) : Q :=
  if Nat.ltb (length rttHistory) 5 then 50
  else
    let mean := sum rttHistory / Qnat (length rttHistory) in
    let variance := calculateVariance rttHistory in
    let stdDev := Math_sqrt variance in
    let latencyScore := Math_max 0 (Math_min 100 (100 - ((mean - 100) / 19))) in
    let stabilityScore :=
      Math_max 0 (Math_min 100 (100 - ((stdDev - 50) / (45 # 10)))) in
    Math_round ((latencyScore * (6 # 10)) + (stabilityScore * (4 # 10))).

(** The local constants [mean] and [cv] of
    [calculateConnectionStability]. *)
Definition historyMean (rttHistory : list Q) : Q :=
  sum rttHistory / Qnat (length rttHistory).

Definition cv (rttHistory : list Q) : Q :=
  let mean := historyMean rttHistory in
  let stdDev := Math_sqrt (calculateVariance rttHistory) in
  if Qgt_bool mean 0 then (stdDev / mean) * 100 else 0.

Definition calculateConnectionStability (rttHistory : list Q) : Q :=
  if Nat.ltb (length rttHistory) 10 then 50
  else
    Math_max 0 (Math_min 100 (100 - ((cv rttHistory - 10) * (25 # 10)))).

Definition calculateConnectionReliability (rttHistory : list Q)
    (totalProbes : Z) (timeoutThreshold : Q) : Q :=
  if Z.eqb totalProbes 0 then 0
  else
    let successfulProbes :=
      length (filter (fun rtt => Qlt_bool rtt timeoutThreshold) rttHistory) in
    let successRate := (Qnat successfulProbes / inject_Z totalProbes) * 100 in
    let stability := calculateConnectionStability rttHistory in
    Math_round ((successRate * (7 # 10)) + (stability * (3 # 10))).

Definition analyzeNetwork (rttHistory : list Q) (totalProbes : Z)
    : NetworkAnalysis.t :=
  let networkType := detectNetworkType rttHistory in
  let networkQuality := calculateNetworkQuality rttHistory in
  let connectionStability := calculateConnectionStability rttHistory in
  let latencyTrend := detectLatencyTrend rttHistory in
  let packetLossIndicator :=
    calculatePacketLossIndicator rttHistory default_timeoutThreshold in
  let connectionReliability :=
    calculateConnectionReliability rttHistory totalProbes
      default_timeoutThreshold in
  NetworkAnalysis.mk networkType networkQuality connectionStability
    latencyTrend packetLossIndicator connectionReliability.
End WithSqrt.

End NetworkIntelligence.

(** ** database/models.ts *)

Inductive State : Type := Online | Standby | OFFLINE | Calibrating.

Definition State_eqb (a b : State) : bool :=
  match a, b with
  | Online, Online | Standby, Standby | OFFLINE, OFFLINE
  | Calibrating, Calibrating => true
  | _, _ => false
  end.

(** An optional field is [None] when it is [undefined] or [null]. *)
Module RTTMeasurement.
Record t : Type := mk {
  id : option Z;
  sessionId : string;
  jid : string;
  deviceJid : string;
  rtt : Q;
  timestamp : Z;
  state : State;
  networkType : option NetworkType;
  networkQuality : option Q;
  avgRtt : option Q;
  medianRtt : option Q;
  threshold : option Q
}.
End RTTMeasurement.

Module StateTransition.
Record t : Type := mk {
  id : option Z;
  sessionId : string;
  jid : string;
  deviceJid : string;
  fromState : string;
  toState : string;
  timestamp : Z;
  duration : option Q
}.
End StateTransition.

(** ** analytics.ts: result records *)

Module ActivityPattern.
Record t : Type := mk {
  hour : Z;
  day : Z;
  activityLevel : Q;
  avgRTT : Q;
  measurementCount : nat
}.
End ActivityPattern.

Module DailyPattern.
Record t : Type := mk {
  hour : Z;
  avgActivity : nat;
  avgRTT : Q;
  onlinePercentage : Q
}.
End DailyPattern.

Module WeeklyPattern.
Record t : Type := mk {
  day : Z;
  avgActivity : nat;
  avgRTT : Q;
  onlinePercentage : Q
}.
End WeeklyPattern.

Module ActivityPatterns.
Record t : Type := mk {
  daily : list DailyPattern.t;
  weekly : list WeeklyPattern.t;
  heatmap : list ActivityPattern.t
}.
End ActivityPatterns.

Module RttDistribution.
Record t : Type := mk {
  min : Q; max : Q; mean : Q; median : Q;
  stdDev : Q; q1 : Q; q3 : Q; iqr : Q
}.
End RttDistribution.

Module StateDurations.
Record t : Type := mk { online : Q; standby : Q; offline : Q }.
End StateDurations.

Module TransitionFrequency.
Record t : Type := mk {
  total : nat;
  onlineToStandby : nat;
  standbyToOnline : nat;
  toOffline : nat;
  fromOffline : nat
}.
End TransitionFrequency.

Module NetworkQuality.
Record t : Type := mk {
  avgQuality : Q; avgStability : Q; avgReliability : Q
}.
End NetworkQuality.

Module StatisticalAnalysis.
Record t : Type := mk {
  rttDistribution : RttDistribution.t;
  stateDurations : StateDurations.t;
  transitionFrequency : TransitionFrequency.t;
  networkQuality : NetworkQuality.t
}.
End StatisticalAnalysis.

Module PeakActivity.
Record t : Type := mk { hour : Z; activity : nat }.
End PeakActivity.

Module SleepWakeDetection.
Record t : Type := mk {
  typicalWakeTime : option Z;
  typicalSleepTime : option Z;
  sleepPatternDetected : bool
}.
End SleepWakeDetection.

Module DeviceUsagePattern.
Record t : Type := mk {
  deviceJid : string;
  usagePercentage : Q;
  avgRTT : Q
}.
End DeviceUsagePattern.

Module MultiDeviceCoordination.
Record t : Type := mk {
  simultaneousDevices : nat;
  avgSimultaneousDevices : Q;
  coordinationScore : Q
}.
End MultiDeviceCoordination.

Module ResponseTimePatterns.
Record t : Type := mk {
  avgResponseTime : Q;
  fastestResponseTime : Q;
  slowestResponseTime : Q;
  responseTimeConsistency : Q
}.
End ResponseTimePatterns.

Module BehavioralInsights.
Record t : Type := mk {
  averageSessionLength : Z;
  peakActivityTimes : list PeakActivity.t;
  sleepWakeDetection : SleepWakeDetection.t;
  deviceUsagePatterns : list DeviceUsagePattern.t;
  multiDeviceCoordination : MultiDeviceCoordination.t;
  responseTimePatterns : ResponseTimePatterns.t
}.
End BehavioralInsights.

(** ** analytics.ts: the engine *)

Module AnalyticsEngine.

Definition isOnline (m : RTTMeasurement.t) : bool :=
  State_eqb (RTTMeasurement.state m) Online.

(** [data.reduce((sum, m) => sum + m.rtt, 0)] *)
Definition sumRtt (data : list RTTMeasurement.t) : Q :=
  fold_left (fun acc m => acc + RTTMeasurement.rtt m) data 0.

(** The heatmap key is the string [`${day}-${hour}`], read back with
    [split('-').map(Number)]; the pair [(day, hour)] stands for it. *)
Definition key_eqb (a b : Z * Z) : bool :=
  Z.eqb (fst a) (fst b) && Z.eqb (snd a) (snd b).

Definition analyzeActivityPatterns (e : Env)
    (measurements : list RTTMeasurement.t) : ActivityPatterns.t :=
  if Nat.eqb (length measurements) 0 then ActivityPatterns.mk [] [] []
  else
    let hourOf := fun m => getHours e (RTTMeasurement.timestamp m) in
    let dayOf := fun m => getDay e (RTTMeasurement.timestamp m) in
    let hourMap := groupBy Z.eqb hourOf measurements in
    let dayMap := groupBy Z.eqb dayOf measurements in
    let heatmapData := groupBy key_eqb (fun m => (dayOf m, hourOf m)) measurements in
    let daily :=
      arrayFrom 24 (fun hour =>
        let hourData := getOrEmpty Z.eqb hour hourMap in
        let onlineCount := length (filter isOnline hourData) in
        let avgRTT :=
          if Nat.ltb 0 (length hourData)
          then sumRtt hourData / Qnat (length hourData) else 0 in
        DailyPattern.mk hour (length hourData) avgRTT
          (if Nat.ltb 0 (length hourData)
           then (Qnat onlineCount / Qnat (length hourData)) * 100 else 0)) in
    let weekly :=
      arrayFrom 7 (fun day =>
        let dayData := getOrEmpty Z.eqb day dayMap in
        let onlineCount := length (filter isOnline dayData) in
        let avgRTT :=
          if Nat.ltb 0 (length dayData)
          then sumRtt dayData / Qnat (length dayData) else 0 in
        WeeklyPattern.mk day (length dayData) avgRTT
          (if Nat.ltb 0 (length dayData)
           then (Qnat onlineCount / Qnat (length dayData)) * 100 else 0)) in
    let heatmap :=
      map (fun entry : (Z * Z) * list RTTMeasurement.t =>
        let '((day, hour), data) := entry in
        let onlineCount := length (filter isOnline data) in
        let activityLevel := (Qnat onlineCount / Qnat (length data)) * 100 in
        let avgRTT := sumRtt data / Qnat (length data) in
        ActivityPattern.mk hour day activityLevel avgRTT (length data))
        heatmapData in
    ActivityPatterns.mk daily weekly heatmap.

(** [if (t.duration)]: absent, [null] and [0] are all falsy. *)
Definition truthyDuration (d : option Q) : option Q :=
  match d with
  | Some q => if Qeq_bool q 0 then None else Some q
  | None => None
  end.

Definition addDuration (durations : StateDurations.t) (t : StateTransition.t)
    : StateDurations.t :=
  match truthyDuration (StateTransition.duration t) with
  | Some duration =>
      let minutes := duration / (60 * 1000) in
      let from := StateTransition.fromState t in
      if String.eqb from "Online" then
        StateDurations.mk (StateDurations.online durations + minutes)
          (StateDurations.standby durations) (StateDurations.offline durations)
      else if String.eqb from "Standby" then
        StateDurations.mk (StateDurations.online durations)
          (StateDurations.standby durations + minutes)
          (StateDurations.offline durations)
      else if String.eqb from "OFFLINE" then
        StateDurations.mk (StateDurations.online durations)
          (StateDurations.standby durations)
          (StateDurations.offline durations + minutes)
      else durations
  | None => durations
  end.

(** [private static calculateStateDurations]; the [measurements]
    argument is not read. *)
Definition calculateStateDurations (measurements : list RTTMeasurement.t)
    (transitions : list StateTransition.t) : StateDurations.t :=
  let deviceTransitions :=
    groupBy String.eqb StateTransition.deviceJid transitions in
  fold_left
    (fun durations entry =>
       let sorted :=
         sort (fun a b => Z.leb (StateTransition.timestamp a)
                                (StateTransition.timestamp b))
              (snd entry) in
       fold_left addDuration sorted durations)
    deviceTransitions (StateDurations.mk 0 0 0).

(** [measurements.filter(m => m.networkQuality !== null &&
    m.networkQuality !== undefined).map(m => m.networkQuality!)] *)
Definition networkQualities (measurements : list RTTMeasurement.t) : list Q :=
  flat_map (fun m => match RTTMeasurement.networkQuality m with
                     | Some q => [q]
                     | None => []
                     end) measurements.

(** A [Map<number, number>] of counts in insertion order;
    [map.set(hour, (map.get(hour) || 0) + 1)]. *)
Fixpoint bump (hour : Z) (m : list (Z * nat)) : list (Z * nat) :=
  match m with
  | [] => [(hour, 1%nat)]
  | (k, c) :: rest =>
      if Z.eqb hour k then (k, S c) :: rest else (k, c) :: bump hour rest
  end.

(** [map.get(hour) || 0] *)
Fixpoint getOrZero (hour : Z) (m : list (Z * nat)) : nat :=
  match m with
  | [] => 0%nat
  | (k, c) :: rest => if Z.eqb hour k then c else getOrZero hour rest
  end.

Definition includes (hours : list Z) (hour : Z) : bool :=
  existsb (Z.eqb hour) hours.

(** [Array.from(hourActivity.values()).reduce((a, b) => a + b, 0) /
    hourActivity.size] *)
Definition avgActivity (hourActivity : list (Z * nat)) : Q :=
  Qnat (fold_left Nat.add (map snd hourActivity) 0%nat)
  / Qnat (length hourActivity).

(** [for (let hour = 0; hour < 24; hour++)], leaving at the first hit. *)
Definition hours0to23 : list Z := arrayFrom 24 (fun hour => hour).

Definition findWakeTime (hourActivity : list (Z * nat))
    (lowActivityHours : list Z) : option Z :=
  let avg := avgActivity hourActivity in
  find (fun hour =>
          if includes lowActivityHours hour then false
          else
            let activity := getOrZero hour hourActivity in
            Qgt_bool (Qnat activity) (avg * (15 # 10)))
       hours0to23.

Definition findSleepTime (hourActivity : list (Z * nat))
    (lowActivityHours : list Z) : option Z :=
  let avg := avgActivity hourActivity in
  find (fun hour =>
          if includes lowActivityHours hour then
            let activity := getOrZero hour hourActivity in
            Qlt_bool (Qnat activity) (avg * (5 # 10))
          else false)
       hours0to23.

Definition isDefined (x : option Z) : bool :=
  match x with Some _ => true | None => false end.

(** The local constants [hourActivity] and [lowActivityHours] of
    [detectSleepWakePatterns]. *)
Definition hourActivityOf (e : Env) (measurements : list RTTMeasurement.t)
    : list (Z * nat) :=
  fold_left (fun m x => bump (getHours e (RTTMeasurement.timestamp x)) m)
            measurements [].

Definition lowActivityHoursOf (hourActivity : list (Z * nat)) : list Z :=
  let sortedHours := sort (fun a b => Nat.leb (snd a) (snd b)) hourActivity in
  map fst (firstn 6 sortedHours).

Definition detectSleepWakePatterns (e : Env)
    (measurements : list RTTMeasurement.t) : SleepWakeDetection.t :=
  if Nat.ltb (length measurements) 100
  then SleepWakeDetection.mk None None false
  else
    let hourActivity := hourActivityOf e measurements in
    let lowActivityHours := lowActivityHoursOf hourActivity in
    let wakeTime := findWakeTime hourActivity lowActivityHours in
    let sleepTime := findSleepTime hourActivity lowActivityHours in
    SleepWakeDetection.mk wakeTime sleepTime
      (isDefined wakeTime || isDefined sleepTime).

(** A [Map<string, Set<number>>] in insertion order:
    [if (!map.has(k)) map.set(k, new Set()); map.get(k).add(minute)]. *)
Fixpoint addTimestamp (k : string) (minute : Z) (m : list (string * list Z))
    : list (string * list Z) :=
  match m with
  | [] => [(k, [minute])]
  | (k', s) :: rest =>
      if String.eqb k k' then (k', setAdd Z.eqb minute s) :: rest
      else (k', s) :: addTimestamp k minute rest
  end.

(** [Math.floor(m.timestamp / 60000) * 60000] *)
Definition minuteOf (m : RTTMeasurement.t) : Z :=
  (Math_floor (inject_Z (RTTMeasurement.timestamp m) / 60000) * 60000)%Z.

Definition deviceTimestampsOf (measurements : list RTTMeasurement.t)
    : list (string * list Z) :=
  fold_left
    (fun m x => addTimestamp (RTTMeasurement.deviceJid x) (minuteOf x) m)
    measurements [].

Definition allMinutesOf (deviceTimestamps : list (string * list Z)) : list Z :=
  fold_left
    (fun all entry => fold_left (fun all' minute => setAdd Z.eqb minute all')
                                (snd entry) all)
    deviceTimestamps [].

Definition activeDevices (deviceTimestamps : list (string * list Z))
    (minute : Z) : nat :=
  length (filter (fun entry => setHas Z.eqb minute (snd entry)) deviceTimestamps).

(** [sessionEndTime ? ... : ...]: [undefined] and [0] are falsy. *)
Definition truthyTime (t : option Z) : option Z :=
  match t with
  | Some z => if Z.eqb z 0 then None else Some z
  | None => None
  end.

(** [xs.map((x, i) => f(i, x))] *)
Definition mapi (A B : Type) (f : Z -> A -> B) (l : list A) : list B :=
  map (fun p => f (Z.of_nat (fst p)) (snd p)) (combine (seq 0 (length l)) l).

Section WithSqrt.
Variable Math_sqrt : Q -> Q.

(** [performStatisticalAnalysis], for whatever [stats.quantile] of the
    simple-statistics package computes. *)
Definition performStatisticalAnalysisWith (quantile : list Q -> Q -> Q)
    (measurements : list RTTMeasurement.t)
    (transitions : list StateTransition.t) : StatisticalAnalysis.t :=
  if Nat.eqb (length measurements) 0 then
    StatisticalAnalysis.mk
      (RttDistribution.mk 0 0 0 0 0 0 0 0)
      (StateDurations.mk 0 0 0)
      (TransitionFrequency.mk 0 0 0 0 0)
      (NetworkQuality.mk 0 0 0)
  else
    let rtts := map RTTMeasurement.rtt measurements in
    let sortedRtts := sortAscending rtts in
    let rttDistribution :=
      RttDistribution.mk
        (stats.min rtts) (stats.max rtts) (stats.mean rtts)
        (stats.median rtts) (stats.standardDeviation Math_sqrt rtts)
        (quantile sortedRtts (25 # 100))
        (quantile sortedRtts (75 # 100))
        (quantile sortedRtts (75 # 100) - quantile sortedRtts (25 # 100)) in
    let stateDurations := calculateStateDurations measurements transitions in
    let transitionFrequency :=
      TransitionFrequency.mk
        (length transitions)
        (length (filter (fun t =>
           String.eqb (StateTransition.fromState t) "Online"
           && String.eqb (StateTransition.toState t) "Standby") transitions))
        (length (filter (fun t =>
           String.eqb (StateTransition.fromState t) "Standby"
           && String.eqb (StateTransition.toState t) "Online") transitions))
        (length (filter (fun t =>
           String.eqb (StateTransition.toState t) "OFFLINE") transitions))
        (length (filter (fun t =>
           String.eqb (StateTransition.fromState t) "OFFLINE") transitions)) in
    let qualities := networkQualities measurements in
    let networkQuality :=
      NetworkQuality.mk
        (if Nat.ltb 0 (length qualities) then stats.mean qualities else 0)
        0 0 in
    StatisticalAnalysis.mk rttDistribution stateDurations
      transitionFrequency networkQuality.

(** [performStatisticalAnalysis] with the quantiles of the spec, by
    nearest rank. *)
Definition performStatisticalAnalysis
    (measurements : list RTTMeasurement.t)
    (transitions : list StateTransition.t) : StatisticalAnalysis.t :=
  performStatisticalAnalysisWith stats.quantile measurements transitions.

Definition generateBehavioralInsights (e : Env)
    (measurements : list RTTMeasurement.t)
    (transitions : list StateTransition.t)
    (sessionStartTime : Z) (sessionEndTime : option Z)
    : BehavioralInsights.t :=
  if Nat.eqb (length measurements) 0 then
    BehavioralInsights.mk 0 []
      (SleepWakeDetection.mk None None false) []
      (MultiDeviceCoordination.mk 0 0 0)
      (ResponseTimePatterns.mk 0 0 0 0)
  else
    let sessionDuration :=
      match truthyTime sessionEndTime with
      | Some endTime => differenceInMinutes endTime sessionStartTime
      | None => differenceInMinutes (now e) sessionStartTime
      end in
    let daily := ActivityPatterns.daily (analyzeActivityPatterns e measurements) in
    let peakActivityTimes :=
      firstn 5
        (sort (fun a b => Nat.leb (PeakActivity.activity b)
                                  (PeakActivity.activity a))
           (mapi (fun hour d =>
                    PeakActivity.mk hour (DailyPattern.avgActivity d))
                 daily)) in
    let sleepWake := detectSleepWakePatterns e measurements in
    let deviceMap := groupBy String.eqb RTTMeasurement.deviceJid measurements in
    let totalMeasurements := length measurements in
    let deviceUsagePatterns :=
      map (fun entry : string * list RTTMeasurement.t =>
             let (deviceJid, deviceMeasurements) := entry in
             let avgRTT :=
               sumRtt deviceMeasurements / Qnat (length deviceMeasurements) in
             DeviceUsagePattern.mk deviceJid
               ((Qnat (length deviceMeasurements) / Qnat totalMeasurements) * 100)
               avgRTT)
          deviceMap in
    let deviceTimestamps := deviceTimestampsOf measurements in
    let allMinutes := allMinutesOf deviceTimestamps in
    let simultaneousCount :=
      length (filter (fun minute =>
                Nat.ltb 1 (activeDevices deviceTimestamps minute))
              allMinutes) in
    let avgSimultaneousDevices :=
      if Nat.ltb 0 (length allMinutes) then
        Qnat (fold_left (fun sum minute =>
                           (sum + activeDevices deviceTimestamps minute)%nat)
                        allMinutes 0%nat)
        / Qnat (length allMinutes)
      else 1 in
    let coordinationScore :=
      if Nat.ltb 0 (length allMinutes) then
        (Qnat simultaneousCount / Qnat (length allMinutes)) * 100
      else 0 in
    let onlineMeasurements := filter isOnline measurements in
    let responseTimes := map RTTMeasurement.rtt onlineMeasurements in
    let some := Nat.ltb 0 (length responseTimes) in
    let avgResponseTime := if some then stats.mean responseTimes else 0 in
    let fastestResponseTime := if some then stats.min responseTimes else 0 in
    let slowestResponseTime := if some then stats.max responseTimes else 0 in
    let responseTimeStdDev :=
      if some then stats.standardDeviation Math_sqrt responseTimes else 0 in
    let responseTimeConsistency :=
      if Qgt_bool avgResponseTime 0 then
        Math_max 0 (Math_min 100
          (100 - ((responseTimeStdDev / avgResponseTime) * 100)))
      else 0 in
    BehavioralInsights.mk sessionDuration peakActivityTimes sleepWake
      deviceUsagePatterns
      (MultiDeviceCoordination.mk (length deviceMap) avgSimultaneousDevices
         coordinationScore)
      (ResponseTimePatterns.mk avgResponseTime fastestResponseTime
         slowestResponseTime responseTimeConsistency).
End WithSqrt.

End AnalyticsEngine.

(** ** Concrete instances

    A rational stand-in for [Math.sqrt] (the integer square root at a
    resolution of [10^-6]) and an environment on UTC, to run the engine on
    concrete inputs. *)
Definition approxSqrt (x : Q) : Q :=
  inject_Z (Z.sqrt (Qfloor (x * 1000000000000))) / 1000000.

Definition utcAt (clock : Z) : Env := {| now := clock; tzOffset := fun _ => 0%Z |}.

(** A measurement with the fields the engine reads. *)
Definition measurement (device : string) (rtt : Q) (timestamp : Z) (state : State)
    (quality : option Q) : RTTMeasurement.t :=
  RTTMeasurement.mk None "session" "peer" device rtt timestamp state None
    quality None None None.

(** ** The four analyzers behind one entry point

    The API layer exposes one endpoint per analyzer; a [Call] is an
    analyzer with its arguments and [run] performs it in an environment. *)
Inductive Call : Type :=
| CallActivityPatterns (measurements : list RTTMeasurement.t)
| CallStatisticalAnalysis (measurements : list RTTMeasurement.t)
    (transitions : list StateTransition.t)
| CallBehavioralInsights (measurements : list RTTMeasurement.t)
    (transitions : list StateTransition.t)
    (sessionStartTime : Z) (sessionEndTime : option Z)
| CallNetwork (rttHistory : list Q) (totalProbes : Z).

Inductive Output : Type :=
| OutActivityPatterns (r : ActivityPatterns.t)
| OutStatisticalAnalysis (r : StatisticalAnalysis.t)
| OutBehavioralInsights (r : BehavioralInsights.t)
| OutNetwork (r : NetworkAnalysis.t).

Definition run (Math_sqrt : Q -> Q) (e : Env) (c : Call) : Output :=
  match c with
  | CallActivityPatterns ms =>
      OutActivityPatterns (AnalyticsEngine.analyzeActivityPatterns e ms)
  | CallStatisticalAnalysis ms ts =>
      OutStatisticalAnalysis
        (AnalyticsEngine.performStatisticalAnalysis Math_sqrt ms ts)
  | CallBehavioralInsights ms ts start finish =>
      OutBehavioralInsights
        (AnalyticsEngine.generateBehavioralInsights Math_sqrt e ms ts start finish)
  | CallNetwork h n =>
      OutNetwork (NetworkIntelligence.analyzeNetwork Math_sqrt h n)
  end.

(** Whether a call reads the clock: only [generateBehavioralInsights]
    does, and only on a non-empty input with no (truthy) end time. *)
Definition readsClock (c : Call) : bool :=
  match c with
  | CallBehavioralInsights ms _ _ finish =>
      negb (Nat.eqb (length ms) 0)
      && negb (AnalyticsEngine.isDefined (AnalyticsEngine.truthyTime finish))
  | _ => false
  end.

(** ** Vocabulary of the statements *)

(** The [networkQuality] fields that are present, summed and counted. *)
Definition qualitySum (measurements : list RTTMeasurement.t) : Q :=
  fold_right (fun m acc => match RTTMeasurement.networkQuality m with
                           | Some q => q + acc
                           | None => acc
                           end) 0 measurements.

Definition qualityCount (measurements : list RTTMeasurement.t) : nat :=
  length (filter (fun m => match RTTMeasurement.networkQuality m with
                           | Some _ => true
                           | None => false
                           end) measurements).

(** Four measurements of one device with RTTs 10, 20, 30 and 40. *)
Definition fourSamples : list RTTMeasurement.t :=
  map (fun rtt => measurement "A" rtt 0 Online None) [10; 20; 30; 40].

(** The session length an output reports, if it is a behavioural one. *)
Definition sessionLengthOf (o : Output) : option Z :=
  match o with
  | OutBehavioralInsights r => Some (BehavioralInsights.averageSessionLength r)
  | _ => None
  end.

(** An open session (no end time) that began at the epoch. *)
Definition openSession : Call := CallBehavioralInsights fourSamples [] 0 None.

(** The population variance in the spec's words: the mean of the squared
    deviations from the mean. *)
Definition populationVariance (xs : list Q) : Q :=
  let mu := sum xs / Qnat (length xs) in
  sum (map (fun x => (x - mu) * (x - mu)) xs) / Qnat (length xs).

(** The spec's example history of ten WiFi-like samples. *)
Definition wifiLikeHistory : list Q :=
  [100; 105; 110; 95; 102; 98; 103; 107; 99; 101].

(** The minute a measurement falls in, counted from the epoch. *)
Definition minuteIndex (m : RTTMeasurement.t) : Z :=
  (RTTMeasurement.timestamp m / 60000)%Z.

(** Device A measured in minutes 0, 1 and 2 and device B in minutes 1 and
    2, A twice in minute 2. *)
Definition twoDevices : list RTTMeasurement.t :=
  [measurement "A" 120 0 Online None;
   measurement "B" 90 61000 Online None;
   measurement "A" 110 75000 Standby None;
   measurement "A" 130 120000 Online None;
   measurement "B" 95 130000 Online None;
   measurement "A" 105 150000 Online None].

(** The minutes in which a device has measurements are exactly those
    listed. *)
Definition measuredIn (measurements : list RTTMeasurement.t) (device : string)
    (minutes : list Z) : Prop :=
  forall minute,
    (exists m, In m measurements /\ RTTMeasurement.deviceJid m = device
               /\ minuteIndex m = minute)
    <-> In minute minutes.

(** The hourly buckets in the spec's words: the number of measurements
    that fall in an hour of the day, the number of hours that have a
    bucket (at least one measurement), and the mean count per bucket. *)
Definition hourCount (e : Env) (measurements : list RTTMeasurement.t)
    (hour : Z) : nat :=
  length (filter (fun m => Z.eqb (getHours e (RTTMeasurement.timestamp m)) hour)
                 measurements).

Definition bucketCount (e : Env) (measurements : list RTTMeasurement.t) : nat :=
  length (filter (fun hour => Nat.ltb 0 (hourCount e measurements hour))
                 AnalyticsEngine.hours0to23).

Definition meanHourlyCount (e : Env) (measurements : list RTTMeasurement.t) : Q :=
  Qnat (length measurements) / Qnat (bucketCount e measurements).

(** [low] holds the six lowest-count hours among the hours that have a
    bucket (all of them when there are fewer than six): no hour twice,
    and no bucketed hour outside [low] has a smaller count than one
    inside. *)
Definition lowestHours (count : Z -> nat) (buckets : nat) (low : list Z) : Prop :=
  NoDup low
  /\ (forall hour, In hour low -> (0 < count hour)%nat)
  /\ length low = Nat.min 6 buckets
  /\ (forall inside outside,
        In inside low -> (0 < count outside)%nat -> ~ In outside low ->
        (count inside <= count outside)%nat).

(** [result] is the first hour, in the order 0 to 23, that satisfies [P];
    it is undefined when no hour does. *)
Definition firstHour (P : Z -> Prop) (result : option Z) : Prop :=
  match result with
  | Some hour =>
      (0 <= hour < 24)%Z /\ P hour
      /\ forall earlier, (0 <= earlier < hour)%Z -> ~ P earlier
  | None => forall hour, (0 <= hour < 24)%Z -> ~ P hour
  end.

(** A day of 100 measurements: one in each of the hours 2 to 7, 40 in
    hour 8, 10 in hour 12 and 44 in hour 20. *)
Definition busyDay : list RTTMeasurement.t :=
  flat_map (fun bucket : Z * nat =>
              repeat (measurement "A" 100 (fst bucket * 3600000) Online None)
                     (snd bucket))
    [(2%Z, 1%nat); (3%Z, 1%nat); (4%Z, 1%nat); (5%Z, 1%nat); (6%Z, 1%nat);
     (7%Z, 1%nat); (8%Z, 40%nat); (12%Z, 10%nat); (20%Z, 44%nat)].

(** ** The API layer

    The endpoints of the server hand the stored records of a peer to the
    engine; the database read is replaced by its result. *)
Module Api.
Section WithSqrt.
Variable Math_sqrt : Q -> Q.

(** [GET /api/analytics/network-analysis/:jid]:
    [NetworkIntelligence.analyzeNetwork(measurements.map(m => m.rtt),
    measurements.length)] *)
Definition networkAnalysis (measurements : list RTTMeasurement.t)
    : NetworkAnalysis.t :=
  let rttHistory := map RTTMeasurement.rtt measurements in
  NetworkIntelligence.analyzeNetwork Math_sqrt rttHistory
    (Z.of_nat (length measurements)).
End WithSqrt.
End Api.

(** The number of measurements that fall on a day of the week, and in an
    hour of a day of the week. *)
Definition dayCount (e : Env) (measurements : list RTTMeasurement.t)
    (day : Z) : nat :=
  length (filter (fun m => Z.eqb (getDay e (RTTMeasurement.timestamp m)) day)
                 measurements).

Definition cellCount (e : Env) (measurements : list RTTMeasurement.t)
    (day hour : Z) : nat :=
  length (filter (fun m =>
                    Z.eqb (getDay e (RTTMeasurement.timestamp m)) day
                    && Z.eqb (getHours e (RTTMeasurement.timestamp m)) hour)
                 measurements).



(** The number of measurements of a device. *)
Definition deviceCount (measurements : list RTTMeasurement.t) (device : string)
    : nat :=
  length (filter (fun m => String.eqb device (RTTMeasurement.deviceJid m))
                 measurements).

(** A transition with the fields the engine reads. *)
Definition transition (device from to : string) (timestamp : Z)
    (duration : option Q) : StateTransition.t :=
  StateTransition.mk None "session" "peer" device from to timestamp duration.

(** Two devices going through their states; the first transition of each
    carries no duration. *)
Definition someTransitions : list StateTransition.t :=
  [transition "A" "Calibrating" "Online" 1000 None;
   transition "B" "Calibrating" "Standby" 2000 None;
   transition "A" "Online" "Standby" 61000 (Some 60000);
   transition "B" "Standby" "OFFLINE" 122000 (Some 120000);
   transition "A" "Standby" "Online" 241000 (Some 180000);
   transition "B" "OFFLINE" "Online" 302000 (Some 180000)].

(** A hundred measurements in one hour of the day. *)
Definition oneHour : list RTTMeasurement.t :=
  repeat (measurement "A" 100 0 Online None) 100.

(** Three measurements of a device that is never online. *)
Definition neverOnline : list RTTMeasurement.t :=
  [measurement "A" 900 0 Standby None;
   measurement "A" 950 60000 Standby None;
   measurement "A" 10000 120000 OFFLINE None].

(** * client/src/components: what the charts compute *)

(** [for (let i = 0; i < n; i++)]: the values the loop variable takes. *)
Definition range (n : nat) : list Z := map Z.of_nat (seq 0 n).

(** ** ActivityHeatmap.tsx *)

Module ActivityHeatmap.

(** The elements of [cells]; [HeatmapData] has the fields of the engine's
    [ActivityPattern]. *)
Module Cell.
Record t : Type := mk {
  day : Z;
  hour : Z;
  value : Q;
  data : option ActivityPattern.t
}.
End Cell.

(** [dataMap.set(key, item)] on a [Map] in insertion order: a later item
    takes the place of an earlier one with the same key.  As in the
    engine, the pair [(day, hour)] stands for the key [`${day}-${hour}`]. *)
Fixpoint mapSet (k : Z * Z) (item : ActivityPattern.t)
    (m : list ((Z * Z) * ActivityPattern.t))
    : list ((Z * Z) * ActivityPattern.t) :=
  match m with
  | [] => [(k, item)]
  | (k', v) :: rest =>
      if AnalyticsEngine.key_eqb k k' then (k', item) :: rest
      else (k', v) :: mapSet k item rest
  end.

(** [dataMap.get(key)] *)
Fixpoint mapGet (k : Z * Z) (m : list ((Z * Z) * ActivityPattern.t))
    : option ActivityPattern.t :=
  match m with
  | [] => None
  | (k', v) :: rest =>
      if AnalyticsEngine.key_eqb k k' then Some v else mapGet k rest
  end.

Definition dataMapOf (data : list ActivityPattern.t)
    : list ((Z * Z) * ActivityPattern.t) :=
  fold_left
    (fun m item =>
       mapSet (ActivityPattern.day item, ActivityPattern.hour item) item m)
    data [].

(** [item?.activityLevel || 0] *)
Definition valueOf (item : option ActivityPattern.t) : Q :=
  match item with
  | Some it =>
      if Qeq_bool (ActivityPattern.activityLevel it) 0 then 0
      else ActivityPattern.activityLevel it
  | None => 0
  end.

Definition cells (data : list ActivityPattern.t) : list Cell.t :=
  let dataMap := dataMapOf data in
  flat_map (fun day =>
    map (fun hour =>
      let item := mapGet (day, hour) dataMap in
      Cell.mk day hour (valueOf item) item)
      (range 24))
    (range 7).

(** The bar chart's rows [{ hour, activity }]. *)
Definition hourlyData (data : list ActivityPattern.t) : list (Z * Q) :=
  let cells := cells data in
  arrayFrom 24 (fun hour =>
    let hourCells := filter (fun c => Z.eqb (Cell.hour c) hour) cells in
    let avgActivity := sum (map Cell.value hourCells) / Qnat (length hourCells) in
    (hour, avgActivity)).

(** What a square of the grid shows:
    [cells.find(c => c.day === day && c.hour === hour)] and
    [cell?.value || 0]. *)
Definition findCell (data : list ActivityPattern.t) (day hour : Z)
    : option Cell.t :=
  find (fun c => Z.eqb (Cell.day c) day && Z.eqb (Cell.hour c) hour)
       (cells data).

Definition shownValue (data : list ActivityPattern.t) (day hour : Z) : Q :=
  match findCell data day hour with
  | Some cell => if Qeq_bool (Cell.value cell) 0 then 0 else Cell.value cell
  | None => 0
  end.

End ActivityHeatmap.

(** ** TimelineView.tsx *)

Module TimelineView.

(** The values of [timeWindows]. *)
Module Counts.
Record t : Type := mk {
  online : nat;
  standby : nat;
  offline : nat
}.
End Counts.

Module TimelineData.
Record t : Type := mk {
  timestamp : Z;
  online : nat;
  standby : nat;
  offline : nat
}.
End TimelineData.

(** [Math.floor(transition.timestamp / (5 * 60 * 1000)) * (5 * 60 * 1000)] *)
Definition windowTime (timestamp : Z) : Z :=
  (Math_floor (inject_Z timestamp / inject_Z (5 * 60 * 1000))
   * (5 * 60 * 1000))%Z.

(** The [if / else if] chain on [transition.toState]. *)
Definition count (transition : StateTransition.t) (window : Counts.t)
    : Counts.t :=
  if String.eqb (StateTransition.toState transition) "Online"
  then Counts.mk (S (Counts.online window)) (Counts.standby window)
                 (Counts.offline window)
  else if String.eqb (StateTransition.toState transition) "Standby"
  then Counts.mk (Counts.online window) (S (Counts.standby window))
                 (Counts.offline window)
  else if String.eqb (StateTransition.toState transition) "OFFLINE"
  then Counts.mk (Counts.online window) (Counts.standby window)
                 (S (Counts.offline window))
  else window.

(** One round of the [forEach]: the window is created with zero counts
    when [timeWindows] does not have it, then counted into. *)
Fixpoint addToWindow (windowTime : Z) (transition : StateTransition.t)
    (timeWindows : list (Z * Counts.t)) : list (Z * Counts.t) :=
  match timeWindows with
  | [] => [(windowTime, count transition (Counts.mk 0 0 0))]
  | (k, window) :: rest =>
      if Z.eqb windowTime k then (k, count transition window) :: rest
      else (k, window) :: addToWindow windowTime transition rest
  end.

Definition timeWindowsOf (sortedTransitions : list StateTransition.t)
    : list (Z * Counts.t) :=
  fold_left
    (fun timeWindows transition =>
       addToWindow (windowTime (StateTransition.timestamp transition))
                   transition timeWindows)
    sortedTransitions [].

(** [timelineData], the rows of the line chart.  The component shows a
    notice instead of the chart when [transitions] is empty. *)
Definition timelineData (transitions : list StateTransition.t)
    : list TimelineData.t :=
  let sortedTransitions :=
    sort (fun a b => Z.leb (StateTransition.timestamp a)
                           (StateTransition.timestamp b)) transitions in
  let timeWindows := timeWindowsOf sortedTransitions in
  map (fun entry : Z * Counts.t =>
         let '(timestamp, counts) := entry in
         TimelineData.mk timestamp (Counts.online counts)
                         (Counts.standby counts) (Counts.offline counts))
      (sort (fun a b => Z.leb (fst a) (fst b)) timeWindows).

End TimelineView.

(** ** Vocabulary for the charts *)

(** The measurements of one (day, hour) square. *)
Definition cellMeasurements (e : Env) (measurements : list RTTMeasurement.t)
    (day hour : Z) : list RTTMeasurement.t :=
  filter (fun m =>
            Z.eqb (getDay e (RTTMeasurement.timestamp m)) day
            && Z.eqb (getHours e (RTTMeasurement.timestamp m)) hour)
         measurements.

(** The share of Online measurements in a square, in percent; 0 for a
    square without measurements. *)
Definition cellOnlineShare (e : Env) (measurements : list RTTMeasurement.t)
    (day hour : Z) : Q :=
  let cell := cellMeasurements e measurements day hour in
  if Nat.eqb (length cell) 0 then 0
  else Qnat (length (filter AnalyticsEngine.isOnline cell))
       / Qnat (length cell) * 100.

(** The last item of [data] for a (day, hour) square. *)
Definition lastItemFor (data : list ActivityPattern.t) (day hour : Z)
    : option ActivityPattern.t :=
  find (fun it =>
          AnalyticsEngine.key_eqb
            (day, hour) (ActivityPattern.day it, ActivityPattern.hour it))
       (rev data).

(** The transitions of a five-minute window that lead to [state]. *)
Definition windowCount (transitions : list StateTransition.t)
    (window : Z) (state : string) : nat :=
  length (filter (fun t =>
                    Z.eqb (TimelineView.windowTime (StateTransition.timestamp t))
                          window
                    && String.eqb (StateTransition.toState t) state)
                 transitions).

(** The counts of a window in [timeWindows]; zero counts for a window it
    does not have. *)
Fixpoint windowAt (window : Z) (timeWindows : list (Z * TimelineView.Counts.t))
    : TimelineView.Counts.t :=
  match timeWindows with
  | [] => TimelineView.Counts.mk 0 0 0
  | (k, counts) :: rest =>
      if Z.eqb window k then counts else windowAt window rest
  end.

(** A week of heatmap items in which one square is reported twice. *)
Definition repeatedSquare : list ActivityPattern.t :=
  [ActivityPattern.mk 9 1 50 120 4;
   ActivityPattern.mk 14 3 25 300 8;
   ActivityPattern.mk 9 1 75 110 12].

(** * Numbers as IEEE 754 doubles

    Where a result turns on the rounding of the double arithmetic (a
    strict comparison with a threshold, a quotient by zero) the functions
    of [networkIntelligence.ts] are given again over binary64 numbers,
    operation for operation.  The numbers are those of the Standard
    Library's [SpecFloat] with a 53-bit significand, rounded to nearest,
    ties to even. *)
Module Double.

Definition t : Type := spec_float.
Definition prec : Z := 53.
Definition emax : Z := 1024.

(** An integer literal or an array length; exact below 2^53. *)
Definition ofZ (z : Z) : t := binary_normalize prec emax z 0 false.
Definition ofNat (n : nat) : t := ofZ (Z.of_nat n).

Definition add : t -> t -> t := SFadd prec emax.
Definition sub : t -> t -> t := SFsub prec emax.
Definition mul : t -> t -> t := SFmul prec emax.
Definition div : t -> t -> t := SFdiv prec emax.

(** [Math.sqrt] *)
Definition Math_sqrt : t -> t := SFsqrt prec emax.

(** A decimal literal such as [2.5] or [0.8] is read as the double
    nearest to it, which the correctly rounded quotient of its numerator
    and denominator is. *)
Definition decimal (numerator denominator : Z) : t :=
  div (ofZ numerator) (ofZ denominator).

(** [a < b] and [a > b]; both are false when an operand is NaN. *)
Definition ltb (a b : t) : bool := SFltb a b.
Definition gtb (a b : t) : bool := SFltb b a.

Definition isNaN (x : t) : bool :=
  match x with S754_nan => true | _ => false end.

Definition isZero (x : t) : bool :=
  match x with S754_zero _ => true | _ => false end.

(** [Number.isFinite] *)
Definition isFinite (x : t) : bool :=
  match x with
  | S754_zero _ | S754_finite _ _ _ => true
  | S754_infinity _ | S754_nan => false
  end.

(** [Math.max(a, b)] and [Math.min(a, b)]: NaN when an operand is NaN,
    and [+0] above [-0]. *)
Definition Math_max (a b : t) : t :=
  match a, b with
  | S754_nan, _ | _, S754_nan => S754_nan
  | _, _ =>
      if ltb a b then b
      else if ltb b a then a
      else match a with S754_zero true => b | _ => a end
  end.

Definition Math_min (a b : t) : t :=
  match a, b with
  | S754_nan, _ | _, S754_nan => S754_nan
  | _, _ =>
      if ltb a b then a
      else if ltb b a then b
      else match a with S754_zero false => b | _ => a end
  end.

(** [Math.pow(x, 2)], taken as the rounded product [x * x]. *)
Definition square (x : t) : t := mul x x.

(** [xs.reduce((a, b) => a + b, 0)], from the left. *)
Definition sum (xs : list t) : t := fold_left add xs (ofZ 0).

(** [[...xs].sort((a, b) => a - b)]: [a] stays before [b] unless the
    comparator is positive (a NaN result counts as 0). *)
Definition sortAscending (xs : list t) : list t :=
  sort (fun a b => negb (gtb (sub a b) (ofZ 0))) xs.

(** [xs[i]]; a read outside the array gives [undefined], which compares
    and subtracts like NaN. *)
Definition at_index (xs : list t) (i : Z) : t := nth (Z.to_nat i) xs S754_nan.

End Double.

(** ** networkIntelligence.ts over doubles

    Indices are computed on the array length as in the exact model: an
    array length is an integer far below 2^51, for which [length / 2],
    [length * 0.25] and [length * 0.75] are exact in doubles. *)
Module NetworkIntelligence64.

(** [private static calculateVariance] *)
Definition calculateVariance (values : list Double.t) : Double.t :=
  if Nat.eqb (length values) 0 then Double.ofZ 0
  else
    let mean :=
      Double.div (Double.sum values) (Double.ofNat (length values)) in
    let squaredDiffs :=
      map (fun value => Double.square (Double.sub value mean)) values in
    Double.div (Double.sum squaredDiffs) (Double.ofNat (length values)).

Definition detectNetworkType (rttHistory : list Double.t) : NetworkType :=
  if Nat.ltb (length rttHistory) 10 then Unknown
  else
    let sorted := Double.sortAscending rttHistory in
    let median :=
      Double.at_index sorted (Math_floor (Qnat (length sorted) / 2)) in
    let q1 :=
      Double.at_index sorted (Math_floor (Qnat (length sorted) * (25 # 100))) in
    let q3 :=
      Double.at_index sorted (Math_floor (Qnat (length sorted) * (75 # 100))) in
    let iqr := Double.sub q3 q1 in
    let variance := calculateVariance rttHistory in
    let isLikelyWiFi :=
      Double.ltb median (Double.ofZ 500)
      && Double.ltb variance (Double.ofZ 50000)
      && Double.ltb iqr (Double.ofZ 200) in
    let isLikelyMobile :=
      Double.gtb median (Double.ofZ 800)
      || Double.gtb variance (Double.ofZ 100000)
      || Double.gtb iqr (Double.ofZ 400) in
    if isLikelyWiFi then WiFi
    else if isLikelyMobile then Mobile
    else Unknown.

(** The local constants [mean] and [cv] of
    [calculateConnectionStability]. *)
Definition historyMean (rttHistory : list Double.t) : Double.t :=
  Double.div (Double.sum rttHistory) (Double.ofNat (length rttHistory)).

Definition cv (rttHistory : list Double.t) : Double.t :=
  let mean := historyMean rttHistory in
  let stdDev := Double.Math_sqrt (calculateVariance rttHistory) in
  if Double.gtb mean (Double.ofZ 0)
  then Double.mul (Double.div stdDev mean) (Double.ofZ 100)
  else Double.ofZ 0.

Definition calculateConnectionStability (rttHistory : list Double.t)
    : Double.t :=
  if Nat.ltb (length rttHistory) 10 then Double.ofZ 50
  else
    Double.Math_max (Double.ofZ 0)
      (Double.Math_min (Double.ofZ 100)
         (Double.sub (Double.ofZ 100)
            (Double.mul (Double.sub (cv rttHistory) (Double.ofZ 10))
                        (Double.decimal 25 10)))).

(** The local constants of [detectLatencyTrend]. *)
Definition halves (rttHistory : list Double.t)
    : list Double.t * list Double.t :=
  let mid := Z.to_nat (Math_floor (Qnat (length rttHistory) / 2)) in
  (firstn mid rttHistory, skipn mid rttHistory).

Definition firstAvg (rttHistory : list Double.t) : Double.t :=
  let firstHalf := fst (halves rttHistory) in
  Double.div (Double.sum firstHalf) (Double.ofNat (length firstHalf)).

Definition secondAvg (rttHistory : list Double.t) : Double.t :=
  let secondHalf := snd (halves rttHistory) in
  Double.div (Double.sum secondHalf) (Double.ofNat (length secondHalf)).

(** [((secondAvg - firstAvg) / firstAvg) * 100], the divisor unguarded. *)
Definition change (rttHistory : list Double.t) : Double.t :=
  Double.mul
    (Double.div (Double.sub (secondAvg rttHistory) (firstAvg rttHistory))
                (firstAvg rttHistory))
    (Double.ofZ 100).

Definition detectLatencyTrend (rttHistory : list Double.t) : LatencyTrend :=
  if Nat.ltb (length rttHistory) 20 then stable
  else
    if Double.ltb (change rttHistory) (Double.ofZ (-10)) then improving
    else if Double.gtb (change rttHistory) (Double.ofZ 10) then degrading
    else stable.

End NetworkIntelligence64.

(** ** Vocabulary for the statements over doubles *)

(** A history of whole-millisecond samples, as doubles. *)
Definition ofIntegers (samples : list Z) : list Double.t :=
  map Double.ofZ samples.

(** A number the engine can be given: a finite double in its canonical
    representation. *)
Definition finiteDouble (x : Double.t) : Prop :=
  valid_binary Double.prec Double.emax x = true /\ Double.isFinite x = true.


(** Twenty-five samples whose population variance is exactly 50000: 22 at
    100 ms and the three spikes 158, 396 and 1216, first or last. *)
Definition spikesFirst : list Z := [158; 396; 1216]%Z ++ repeat 100%Z 22.
Definition spikesLast : list Z := repeat 100%Z 22 ++ [158; 396; 1216]%Z.

(** ** The sleep/wake rule in the spec's words

    The spec counts the measurements of every hour of the day, an hour
    without measurements having the count 0, where the code keeps a
    bucket only for an hour that has a measurement. *)

(** [low] holds the six lowest-count hours of the day: six different
    hours, none with a larger count than an hour of the day outside. *)
Definition sixLowestOfDay (count : Z -> nat) (low : list Z) : Prop :=
  NoDup low
  /\ length low = 6%nat
  /\ (forall hour, In hour low -> (0 <= hour < 24)%Z)
  /\ (forall inside outside,
        In inside low -> (0 <= outside < 24)%Z -> ~ In outside low ->
        (count inside <= count outside)%nat).

(** The mean hourly count over the 24 hours of the day. *)
Definition meanOverDay (measurements : list RTTMeasurement.t) : Q :=
  Qnat (length measurements) / 24.

(** The result the spec's words describe for at least 100 measurements:
    the wake time is the first hour outside the six lowest-count hours of
    the day whose count exceeds 1.5 times the mean hourly count, the
    sleep time the first hour among them whose count is below 0.5 times
    the mean, and a pattern is reported when one of the two is defined. *)
Definition specSleepWake (e : Env) (measurements : list RTTMeasurement.t)
    (r : SleepWakeDetection.t) : Prop :=
  let count := hourCount e measurements in
  let mean := meanOverDay measurements in
  exists low,
    sixLowestOfDay count low
    /\ firstHour (fun hour => ~ In hour low
                              /\ mean * (15 # 10) < Qnat (count hour))
         (SleepWakeDetection.typicalWakeTime r)
    /\ firstHour (fun hour => In hour low
                              /\ Qnat (count hour) < mean * (5 # 10))
         (SleepWakeDetection.typicalSleepTime r)
    /\ (SleepWakeDetection.sleepPatternDetected r = true
        <-> SleepWakeDetection.typicalWakeTime r <> None
            \/ SleepWakeDetection.typicalSleepTime r <> None).

(** ** The range of the samples *)

(** [Number.MAX_SAFE_INTEGER] *)
Definition MAX_SAFE_INTEGER : Q := 9007199254740991.

(** Samples whose sums and squares stay far from the largest double, so
    that no sum of the engine overflows to [Infinity]. *)
Definition safeSamples (rttHistory : list Q) : Prop :=
  forall rtt, In rtt rttHistory ->
    - MAX_SAFE_INTEGER <= rtt <= MAX_SAFE_INTEGER.

(** The transitions of device A among [someTransitions]. *)
Definition transitionsOfA : list StateTransition.t :=
  filter (fun t => String.eqb (StateTransition.deviceJid t) "A") someTransitions.

(** The doubles [2e307] and [0.1]. *)
Definition sample_2e307 : Double.t := Double.decimal (2 * 10 ^ 307) 1.
Definition sample_0_1 : Double.t := Double.decimal 1 10.


(** * Properties *)

(** ** Numerics *)

Lemma Qlt_bool_iff (a b : Q) : Qlt_bool a b = true <-> a < b.
Proof.
  unfold Qlt_bool. rewrite negb_true_iff.
  destruct (Qle_bool b a) eqn:E.
  - apply Qle_bool_iff in E. split; [discriminate | intro H; exfalso; lra].
  - split; [intros _ | reflexivity].
    destruct (Qlt_le_dec a b) as [H | H]; [exact H |].
    apply Qle_bool_iff in H. congruence.
Qed.

Lemma Qlt_bool_false_iff (a b : Q) : Qlt_bool a b = false <-> b <= a.
Proof.
  unfold Qlt_bool. rewrite negb_false_iff. apply Qle_bool_iff.
Qed.

Lemma Qgt_bool_iff (a b : Q) : Qgt_bool a b = true <-> b < a.
Proof. apply Qlt_bool_iff. Qed.

Lemma Math_max_lower (a b : Q) : a <= Math_max a b.
Proof.
  unfold Math_max. destruct (Qle_bool a b) eqn:E; [| lra].
  now apply Qle_bool_iff.
Qed.

Lemma Math_max_upper (a b c : Q) : a <= c -> b <= c -> Math_max a b <= c.
Proof. unfold Math_max. now destruct (Qle_bool a b). Qed.

Lemma Math_min_upper (a b : Q) : Math_min a b <= a.
Proof.
  unfold Math_min. destruct (Qle_bool a b) eqn:E; [lra |].
  assert (H : Qlt_bool b a = true) by (unfold Qlt_bool; now rewrite E).
  apply Qlt_bool_iff in H. lra.
Qed.

Lemma Math_min_lower (a b c : Q) : c <= a -> c <= b -> c <= Math_min a b.
Proof. unfold Math_min. now destruct (Qle_bool a b). Qed.

(** A value clamped with [Math.max(0, Math.min(100, x))] lies in [0,100]. *)
Lemma clamp_bounds (x : Q) : 0 <= Math_max 0 (Math_min 100 x) <= 100.
Proof.
  split; [apply Math_max_lower |].
  apply Math_max_upper; [lra | apply Math_min_upper].
Qed.

Lemma Math_round_bounds (lo hi : Z) (x : Q) :
  inject_Z lo <= x <= inject_Z hi ->
  inject_Z lo <= Math_round x <= inject_Z hi.
Proof.
  intros [Hlo Hhi]. unfold Math_round.
  rewrite <- !Zle_Qle. split.
  - rewrite <- (Qfloor_Z lo). apply Qfloor_resp_le. lra.
  - assert (H : (Qfloor (x + (1 # 2)) < hi + 1)%Z); [| lia].
    rewrite Zlt_Qlt. eapply Qle_lt_trans; [apply Qfloor_le |].
    rewrite inject_Z_plus. change (inject_Z 1) with 1. lra.
Qed.

Lemma Math_round_range (x : Q) : 0 <= x <= 100 -> 0 <= Math_round x <= 100.
Proof. exact (@Math_round_bounds 0 100 x). Qed.

Lemma Math_round_nonneg (x : Q) : 0 <= x -> 0 <= Math_round x.
Proof.
  intro H. unfold Math_round.
  assert (Hz : (0 <= Qfloor (x + (1 # 2)))%Z).
  { rewrite <- (Qfloor_Z 0). apply Qfloor_resp_le.
    change (inject_Z 0) with 0. lra. }
  rewrite Zle_Qle in Hz. exact Hz.
Qed.

Lemma Qnat_nonneg (n : nat) : 0 <= Qnat n.
Proof. unfold Qnat. change 0 with (inject_Z 0). rewrite <- Zle_Qle. lia. Qed.

Lemma Qnat_pos (n : nat) : (0 < n)%nat -> 0 < Qnat n.
Proof. intro H. unfold Qnat. change 0 with (inject_Z 0). rewrite <- Zlt_Qlt. lia. Qed.

Lemma Qnat_le (n m : nat) : (n <= m)%nat -> Qnat n <= Qnat m.
Proof. intro H. unfold Qnat. rewrite <- Zle_Qle. lia. Qed.

(** ** Score ranges of the network classifier *)

Section ScoreRanges.
Variable Math_sqrt : Q -> Q.

Lemma calculateNetworkQuality_range (h : list Q) :
  0 <= NetworkIntelligence.calculateNetworkQuality Math_sqrt h <= 100.
Proof.
  unfold NetworkIntelligence.calculateNetworkQuality.
  destruct (Nat.ltb (length h) 5); [lra |].
  cbv zeta.
  set (latency := Math_max 0 (Math_min 100 _)).
  set (stability := Math_max 0 (Math_min 100 _)).
  pose proof (clamp_bounds (100 - (sum h / Qnat (length h) - 100) / 19)) as Hl.
  pose proof (clamp_bounds
    (100 - (Math_sqrt (NetworkIntelligence.calculateVariance h) - 50) / (45 # 10)))
    as Hs.
  fold latency in Hl. fold stability in Hs.
  apply Math_round_range. lra.
Qed.

Lemma calculateConnectionStability_range (h : list Q) :
  0 <= NetworkIntelligence.calculateConnectionStability Math_sqrt h <= 100.
Proof.
  unfold NetworkIntelligence.calculateConnectionStability.
  destruct (Nat.ltb (length h) 10); [lra | apply clamp_bounds].
Qed.

Lemma calculatePacketLossIndicator_range (h : list Q) (timeoutThreshold : Q) :
  0 <= NetworkIntelligence.calculatePacketLossIndicator h timeoutThreshold <= 100.
Proof.
  unfold NetworkIntelligence.calculatePacketLossIndicator.
  destruct (Nat.ltb (length h) 5) eqn:E; [lra |].
  apply Nat.ltb_ge in E. cbv zeta.
  set (outliers := filter _ h).
  split; [| apply Math_min_upper].
  apply Math_min_lower; [lra |].
  assert (Hrate : 0 <= Qnat (length outliers) / Qnat (length h) * 100 * 10).
  { assert (H0 : 0 <= Qnat (length outliers) / Qnat (length h)).
    { apply Qle_shift_div_l; [apply Qnat_pos; lia |].
      rewrite Qmult_0_l. apply Qnat_nonneg. }
    nra. }
  now apply Math_round_nonneg.
Qed.

(** Within range as long as the probes are at least as many as the
    samples under the timeout, which is how the API layer calls it
    ([totalProbes = measurements.length]). *)
Lemma calculateConnectionReliability_range (h : list Q) (totalProbes : Z)
    (timeoutThreshold : Q) :
  (Z.of_nat (length (filter (fun rtt => Qlt_bool rtt timeoutThreshold) h))
     <= totalProbes)%Z ->
  0 <= NetworkIntelligence.calculateConnectionReliability Math_sqrt h totalProbes
         timeoutThreshold <= 100.
Proof.
  intro Hle. unfold NetworkIntelligence.calculateConnectionReliability.
  destruct (Z.eqb totalProbes 0) eqn:E; [lra |].
  apply Z.eqb_neq in E. cbv zeta.
  set (ok := length (filter _ h)) in *.
  pose proof (calculateConnectionStability_range h) as Hs.
  assert (Hpos : 0 < inject_Z totalProbes).
  { change 0 with (inject_Z 0). rewrite <- Zlt_Qlt. lia. }
  assert (Hrate : 0 <= Qnat ok / inject_Z totalProbes <= 1).
  { split.
    - apply Qle_shift_div_l; [exact Hpos |].
      rewrite Qmult_0_l. apply Qnat_nonneg.
    - apply Qle_shift_div_r; [exact Hpos |].
      rewrite Qmult_1_l. unfold Qnat. now rewrite <- Zle_Qle. }
  apply Math_round_range. lra.
Qed.
End ScoreRanges.

(** C3.  [calculateNetworkQuality], [calculateConnectionStability] and
    [calculatePacketLossIndicator] stay in [0,100] on every history (the
    three lemmas above), and so does [calculateConnectionReliability] when
    the probes cover the samples.  It is documented as a 0-100 score but
    does not clamp: with two samples under the timeout and one probe the
    success rate is 200 per cent and the result is
    [round (200 * 0.7 + 50 * 0.3) = 155]. *)
Theorem calculateConnectionReliability_exceeds_100 (Math_sqrt : Q -> Q) :
  NetworkIntelligence.calculateConnectionReliability Math_sqrt [100; 100] 1
    NetworkIntelligence.default_timeoutThreshold == 155.
Proof. reflexivity. Qed.

(** ** Sums *)

Lemma fold_left_Qplus (xs : list Q) (a : Q) : fold_left Qplus xs a == a + sum xs.
Proof.
  unfold sum. revert a. induction xs as [| x xs IH]; intro a; simpl.
  - lra.
  - rewrite (IH (a + x)), (IH (0 + x)). lra.
Qed.

Lemma sum_cons (x : Q) (xs : list Q) : sum (x :: xs) == x + sum xs.
Proof. unfold sum at 1. simpl. rewrite fold_left_Qplus. lra. Qed.


(** ** The statistical rollup *)

Section StatisticalRollup.
Variable Math_sqrt : Q -> Q.

(** C8.  On an empty measurement list [performStatisticalAnalysis]
    returns the all-zero record, whatever the transitions: a zero RTT
    distribution, zero state durations, zero network quality, and a
    transition frequency whose total and four sub-counts are 0. *)
Theorem performStatisticalAnalysis_empty (transitions : list StateTransition.t) :
  AnalyticsEngine.performStatisticalAnalysis Math_sqrt [] transitions =
  StatisticalAnalysis.mk
    (RttDistribution.mk 0 0 0 0 0 0 0 0)
    (StateDurations.mk 0 0 0)
    (TransitionFrequency.mk 0 0 0 0 0)
    (NetworkQuality.mk 0 0 0).
Proof. reflexivity. Qed.

Lemma networkQualities_sum (ms : list RTTMeasurement.t) :
  sum (AnalyticsEngine.networkQualities ms) == qualitySum ms.
Proof.
  unfold AnalyticsEngine.networkQualities.
  induction ms as [| m ms IH]; simpl; [reflexivity |].
  destruct (RTTMeasurement.networkQuality m) as [q |]; simpl.
  - rewrite sum_cons, IH. reflexivity.
  - exact IH.
Qed.

Lemma networkQualities_length (ms : list RTTMeasurement.t) :
  length (AnalyticsEngine.networkQualities ms) = qualityCount ms.
Proof.
  unfold AnalyticsEngine.networkQualities, qualityCount.
  induction ms as [| m ms IH]; simpl; [reflexivity |].
  destruct (RTTMeasurement.networkQuality m); simpl; congruence.
Qed.

(** C9.  In the [networkQuality] rollup of [performStatisticalAnalysis]
    the stability and reliability averages are 0 on every input, and
    [avgQuality] is the sum of the [networkQuality] fields that are
    present divided by their number, or 0 when none is present. *)
Theorem performStatisticalAnalysis_networkQuality
    (measurements : list RTTMeasurement.t)
    (transitions : list StateTransition.t) :
  let rollup :=
    StatisticalAnalysis.networkQuality
      (AnalyticsEngine.performStatisticalAnalysis Math_sqrt measurements
         transitions) in
  NetworkQuality.avgStability rollup = 0
  /\ NetworkQuality.avgReliability rollup = 0
  /\ NetworkQuality.avgQuality rollup ==
     (if Nat.eqb (qualityCount measurements) 0 then 0
      else qualitySum measurements / Qnat (qualityCount measurements)).
Proof.
  unfold AnalyticsEngine.performStatisticalAnalysis,
    AnalyticsEngine.performStatisticalAnalysisWith.
  destruct measurements as [| m ms]; [now repeat split |].
  cbn [length Nat.eqb]. cbv zeta.
  set (all := m :: ms).
  cbn [StatisticalAnalysis.networkQuality NetworkQuality.avgStability
       NetworkQuality.avgReliability NetworkQuality.avgQuality].
  repeat split.
  rewrite networkQualities_length.
  destruct (qualityCount all) as [| n] eqn:E; [reflexivity |].
  cbn [Nat.ltb Nat.leb Nat.eqb]. unfold stats.mean.
  now rewrite networkQualities_sum, networkQualities_length, E.
Qed.

End StatisticalRollup.



(** ** Activity patterns *)

Lemma arrayFrom_length (A : Type) (n : nat) (f : Z -> A) :
  length (arrayFrom n f) = n.
Proof. unfold arrayFrom. now rewrite length_map, length_seq. Qed.

Lemma arrayFrom_map (A B : Type) (g : A -> B) (n : nat) (f : Z -> A) :
  map g (arrayFrom n f) = arrayFrom n (fun i => g (f i)).
Proof. unfold arrayFrom. now rewrite map_map. Qed.

(** C1, as amended.  On the empty list [analyzeActivityPatterns] returns
    empty daily, weekly and heatmap lists; on every non-empty input the
    daily list has exactly 24 entries, for the hours 0 to 23 in order, and
    the weekly list exactly 7, for the days 0 to 6 in order. *)
Theorem analyzeActivityPatterns_lengths (e : Env)
    (measurements : list RTTMeasurement.t) :
  let r := AnalyticsEngine.analyzeActivityPatterns e measurements in
  (measurements = [] -> r = ActivityPatterns.mk [] [] [])
  /\ (measurements <> [] ->
      length (ActivityPatterns.daily r) = 24%nat
      /\ length (ActivityPatterns.weekly r) = 7%nat
      /\ map DailyPattern.hour (ActivityPatterns.daily r)
         = arrayFrom 24 (fun hour => hour)
      /\ map WeeklyPattern.day (ActivityPatterns.weekly r)
         = arrayFrom 7 (fun day => day)).
Proof.
  cbv zeta. split.
  - now intros ->.
  - intro Hne. destruct measurements as [| m ms]; [contradiction |].
    unfold AnalyticsEngine.analyzeActivityPatterns.
    cbn [length Nat.eqb]. cbv zeta.
    cbn [ActivityPatterns.daily ActivityPatterns.weekly].
    rewrite !arrayFrom_length, !arrayFrom_map.
    cbn [DailyPattern.hour WeeklyPattern.day]. repeat split.
Qed.

(** C1, the stated lengths refuted on the empty list: both lists come back
    empty. *)
Lemma analyzeActivityPatterns_empty_has_no_entries :
  let r := AnalyticsEngine.analyzeActivityPatterns (utcAt 0) [] in
  length (ActivityPatterns.daily r) = 0%nat
  /\ length (ActivityPatterns.weekly r) = 0%nat
  /\ length (ActivityPatterns.daily r) <> 24%nat
  /\ length (ActivityPatterns.weekly r) <> 7%nat.
Proof. repeat split; discriminate. Qed.

Lemma analyzeActivityPatterns_lengths_witness :
  fourSamples <> []
  /\ length (ActivityPatterns.daily
               (AnalyticsEngine.analyzeActivityPatterns (utcAt 0) fourSamples))
     = 24%nat
  /\ AnalyticsEngine.analyzeActivityPatterns (utcAt 0) []
     = ActivityPatterns.mk [] [] [].
Proof.
  pose proof (analyzeActivityPatterns_lengths (utcAt 0) fourSamples) as [_ Hfull].
  pose proof (analyzeActivityPatterns_lengths (utcAt 0) []) as [Hempty _].
  assert (Hne : fourSamples <> []) by discriminate.
  split; [exact Hne |].
  split; [exact (proj1 (Hfull Hne)) | exact (Hempty eq_refl)].
Defined.

(** ** Dependence on the clock *)

Lemma analyzeActivityPatterns_tz (e1 e2 : Env) (ms : list RTTMeasurement.t) :
  tzOffset e1 = tzOffset e2 ->
  AnalyticsEngine.analyzeActivityPatterns e1 ms
  = AnalyticsEngine.analyzeActivityPatterns e2 ms.
Proof.
  destruct e1 as [n1 tz1], e2 as [n2 tz2]. cbn [tzOffset]. intros ->.
  reflexivity.
Qed.

Lemma detectSleepWakePatterns_tz (e1 e2 : Env) (ms : list RTTMeasurement.t) :
  tzOffset e1 = tzOffset e2 ->
  AnalyticsEngine.detectSleepWakePatterns e1 ms
  = AnalyticsEngine.detectSleepWakePatterns e2 ms.
Proof.
  destruct e1 as [n1 tz1], e2 as [n2 tz2]. cbn [tzOffset]. intros ->.
  reflexivity.
Qed.

(** C5, as amended.  Two calls of an analyzer on the same input, in
    environments that differ at most in the clock, return the same output,
    for [analyzeActivityPatterns], [performStatisticalAnalysis] and
    [analyzeNetwork] always, and for [generateBehavioralInsights] when the
    input is empty or a (non-zero) session end time is supplied. *)
Theorem analyzers_deterministic (Math_sqrt : Q -> Q) (e1 e2 : Env) (c : Call) :
  tzOffset e1 = tzOffset e2 ->
  readsClock c = false ->
  run Math_sqrt e1 c = run Math_sqrt e2 c.
Proof.
  intros Htz Hclock.
  destruct c as [ms | ms ts | ms ts start finish | h n]; cbn [run].
  - now rewrite (analyzeActivityPatterns_tz e1 e2 ms Htz).
  - reflexivity.
  - apply (f_equal OutBehavioralInsights).
    unfold AnalyticsEngine.generateBehavioralInsights.
    cbn [readsClock] in Hclock.
    destruct (Nat.eqb (length ms) 0); [reflexivity |].
    cbn [negb andb] in Hclock. apply negb_false_iff in Hclock.
    destruct (AnalyticsEngine.truthyTime finish) as [endTime |];
      [| discriminate].
    cbv zeta.
    rewrite (analyzeActivityPatterns_tz e1 e2 ms Htz),
            (detectSleepWakePatterns_tz e1 e2 ms Htz).
    reflexivity.
  - reflexivity.
Qed.

(** C5, determinism refuted: the same call for an open session, made one
    minute and two minutes after the session began, reports two session
    lengths. *)
Lemma openSession_depends_on_clock :
  tzOffset (utcAt 60000) = tzOffset (utcAt 120000)
  /\ sessionLengthOf (run approxSqrt (utcAt 60000) openSession) = Some 1%Z
  /\ sessionLengthOf (run approxSqrt (utcAt 120000) openSession) = Some 2%Z
  /\ run approxSqrt (utcAt 60000) openSession
     <> run approxSqrt (utcAt 120000) openSession.
Proof.
  assert (H1 : sessionLengthOf (run approxSqrt (utcAt 60000) openSession) = Some 1%Z)
    by (vm_compute; reflexivity).
  assert (H2 : sessionLengthOf (run approxSqrt (utcAt 120000) openSession) = Some 2%Z)
    by (vm_compute; reflexivity).
  split; [reflexivity |]. split; [exact H1 |]. split; [exact H2 |].
  intro H. apply (f_equal sessionLengthOf) in H.
  rewrite H1, H2 in H. discriminate H.
Qed.

Lemma analyzers_deterministic_witness :
  run approxSqrt (utcAt 60000) (CallBehavioralInsights fourSamples [] 0 (Some 180000%Z))
  = run approxSqrt (utcAt 120000) (CallBehavioralInsights fourSamples [] 0 (Some 180000%Z)).
Proof.
  apply (@analyzers_deterministic approxSqrt (utcAt 60000) (utcAt 120000)
           (CallBehavioralInsights fourSamples [] 0 (Some 180000%Z)));
    vm_compute; reflexivity.
Defined.

(** ** Divisions by a mean *)



(** ** Sorting *)

Section Sorting.
Variable A : Type.
Variable le : A -> A -> bool.

Lemma insert_perm (x : A) (l : list A) : Permutation (insert le x l) (x :: l).
Proof.
  induction l as [| y t IH]; simpl; [reflexivity |].
  destruct (le x y); [reflexivity |].
  rewrite IH. apply perm_swap.
Qed.

Lemma sort_perm (l : list A) : Permutation (sort le l) l.
Proof.
  induction l as [| x t IH]; simpl; [reflexivity |].
  now rewrite insert_perm, IH.
Qed.

Lemma sort_length (l : list A) : length (sort le l) = length l.
Proof. apply Permutation_length, sort_perm. Qed.

Hypothesis le_total : forall x y, le x y = false -> le y x = true.

Lemma insert_hd (x a : A) (l : list A) :
  le a x = true -> HdRel (fun u v => le u v = true) a l ->
  HdRel (fun u v => le u v = true) a (insert le x l).
Proof.
  intros Hax Hhd. destruct l as [| y t]; simpl.
  - now constructor.
  - destruct (le x y); constructor; [exact Hax |].
    now inversion Hhd.
Qed.

Lemma insert_sorted (x : A) (l : list A) :
  Sorted (fun u v => le u v = true) l ->
  Sorted (fun u v => le u v = true) (insert le x l).
Proof.
  induction 1 as [| y t Hs IH Hhd]; simpl.
  - repeat constructor.
  - destruct (le x y) eqn:E.
    + repeat constructor; assumption.
    + constructor; [exact IH |].
      apply insert_hd; [now apply le_total | exact Hhd].
Qed.

Lemma sort_sorted (l : list A) : Sorted (fun u v => le u v = true) (sort le l).
Proof.
  induction l as [| x t IH]; simpl; [constructor |].
  now apply insert_sorted.
Qed.

Hypothesis le_trans : forall x y z, le x y = true -> le y z = true -> le x z = true.

Lemma sort_strongly_sorted (l : list A) :
  StronglySorted (fun u v => le u v = true) (sort le l).
Proof.
  apply Sorted_StronglySorted; [| apply sort_sorted].
  intros x y z. apply le_trans.
Qed.
End Sorting.

Lemma sortAscending_sorted (xs : list Q) : Sorted Qle (sortAscending xs).
Proof.
  unfold sortAscending.
  assert (H : Sorted (fun u v => Qle_bool u v = true) (sort Qle_bool xs)).
  { apply sort_sorted. intros x y Hxy.
    apply Qle_bool_iff.
    assert (Hlt : Qlt_bool y x = true) by (unfold Qlt_bool; now rewrite Hxy).
    apply Qlt_bool_iff in Hlt. lra. }
  induction H as [| y t Hs IH Hhd]; constructor; [exact IH |].
  destruct Hhd; constructor. now apply Qle_bool_iff.
Qed.

Lemma sortAscending_perm (xs : list Q) : Permutation (sortAscending xs) xs.
Proof. apply sort_perm. Qed.

Lemma sortAscending_length (xs : list Q) : length (sortAscending xs) = length xs.
Proof. apply sort_length. Qed.

(** ** Quantile indices *)

Lemma to_nat_div (n k : nat) :
  Z.to_nat (Z.of_nat n / Z.of_nat k) = (n / k)%nat.
Proof. now rewrite <- Nat2Z.inj_div, Nat2Z.id. Qed.

Lemma floor_half (n : nat) :
  Z.to_nat (Math_floor (Qnat n / 2)) = (n / 2)%nat.
Proof.
  unfold Math_floor, Qnat, Qdiv, Qmult, Qinv, inject_Z, Qfloor.
  cbn [Qnum Qden Z.mul Pos.mul].
  rewrite Z.mul_1_r. apply (to_nat_div n 2).
Qed.

Lemma floor_quarter (n : nat) :
  Z.to_nat (Math_floor (Qnat n * (25 # 100))) = (n / 4)%nat.
Proof.
  unfold Math_floor, Qnat, Qmult, inject_Z, Qfloor.
  cbn [Qnum Qden Pos.mul].
  change 100%Z with (4 * 25)%Z.
  rewrite Z.div_mul_cancel_r by lia. apply (to_nat_div n 4).
Qed.

Lemma floor_three_quarters (n : nat) :
  Z.to_nat (Math_floor (Qnat n * (75 # 100))) = (3 * n / 4)%nat.
Proof.
  unfold Math_floor, Qnat, Qmult, inject_Z, Qfloor.
  cbn [Qnum Qden Pos.mul].
  change 100%Z with (4 * 25)%Z.
  replace (Z.of_nat n * 75)%Z with (Z.of_nat (3 * n) * 25)%Z by lia.
  rewrite Z.div_mul_cancel_r by lia. apply (to_nat_div (3 * n) 4).
Qed.

(** The three indices fall inside a non-empty array. *)
Lemma quartile_indices_in_range (n : nat) :
  (0 < n)%nat -> (n / 2 < n)%nat /\ (n / 4 < n)%nat /\ (3 * n / 4 < n)%nat.
Proof.
  intro Hn. repeat split.
  - apply Nat.div_lt; lia.
  - apply Nat.div_lt; lia.
  - apply Nat.Div0.div_lt_upper_bound. lia.
Qed.

(** ** Insertion-ordered sets and maps *)

Section OrderedSets.
Variable A : Type.
Variable eqb : A -> A -> bool.
Hypothesis eqb_eq : forall x y, eqb x y = true <-> x = y.

Lemma setAdd_In (x y : A) (s : list A) :
  In y (setAdd eqb x s) <-> y = x \/ In y s.
Proof.
  induction s as [| z t IH]; simpl; [intuition |].
  destruct (eqb x z) eqn:E; simpl.
  - apply eqb_eq in E. subst z. intuition.
  - rewrite IH. intuition.
Qed.

Lemma setAdd_NoDup (x : A) (s : list A) : NoDup s -> NoDup (setAdd eqb x s).
Proof.
  induction 1 as [| z t Hz Ht IH]; simpl.
  - constructor; [intros [] | constructor].
  - destruct (eqb x z) eqn:E; [now constructor |].
    constructor; [| exact IH].
    rewrite setAdd_In. intros [-> | Hin]; [| contradiction].
    assert (Hxx : eqb x x = true) by now apply eqb_eq.
    congruence.
Qed.

Lemma setHas_In (x : A) (s : list A) : setHas eqb x s = true <-> In x s.
Proof.
  unfold setHas. rewrite existsb_exists. split.
  - intros [y [Hy E]]. apply eqb_eq in E. now subst.
  - intro Hx. exists x. split; [exact Hx | now apply eqb_eq].
Qed.

Lemma setHas_false (x : A) (s : list A) : setHas eqb x s = false <-> ~ In x s.
Proof.
  rewrite <- setHas_In. destruct (setHas eqb x s); split; congruence.
Qed.

Lemma fold_setAdd_In (y : A) (l init : list A) :
  In y (fold_left (fun acc x => setAdd eqb x acc) l init) <-> In y init \/ In y l.
Proof.
  revert init. induction l as [| x t IH]; intro init; simpl; [intuition |].
  rewrite IH, setAdd_In. intuition.
Qed.

Lemma fold_setAdd_NoDup (l init : list A) :
  NoDup init -> NoDup (fold_left (fun acc x => setAdd eqb x acc) l init).
Proof.
  revert init. induction l as [| x t IH]; intros init Hinit; simpl;
    [exact Hinit |].
  apply IH. now apply setAdd_NoDup.
Qed.

(** The keys of a map filled with [push] are the distinct keys in order of
    first appearance. *)
Lemma push_keys (V : Type) (k : A) (v : V) (m : list (A * list V)) :
  map fst (push eqb k v m) = setAdd eqb k (map fst m).
Proof.
  induction m as [| [k' vs] rest IH]; simpl; [reflexivity |].
  destruct (eqb k k'); simpl; [reflexivity | now rewrite IH].
Qed.

Lemma groupBy_keys (V : Type) (key : V -> A) (l : list V) :
  map fst (groupBy eqb key l)
  = fold_left (fun acc k => setAdd eqb k acc) (map key l) [].
Proof.
  unfold groupBy. change (@nil A) with (map fst (@nil (A * list V))).
  generalize (@nil (A * list V)) as m.
  induction l as [| x t IH]; intro m; simpl; [reflexivity |].
  now rewrite IH, push_keys.
Qed.

(** Under distinct keys, an entry holds what a lookup of its key finds. *)
Lemma getOrEmpty_In (V : Type) (k : A) (vs : list V) (m : list (A * list V)) :
  NoDup (map fst m) -> In (k, vs) m -> getOrEmpty eqb k m = vs.
Proof.
  induction m as [| [k' vs'] rest IH]; simpl; [intros _ [] |].
  intros Hnd [Heq | Hin].
  - injection Heq as -> ->.
    assert (E : eqb k k = true) by now apply eqb_eq.
    now rewrite E.
  - inversion Hnd as [| ? ? Hk' Hrest]; subst.
    destruct (eqb k k') eqn:E; [| now apply IH].
    apply eqb_eq in E. subst k'.
    exfalso. apply Hk'. now apply (in_map fst) in Hin.
Qed.

Lemma filter_by_lookup_in (V : Type) (p : list V -> bool)
    (whole m : list (A * list V)) :
  (forall entry, In entry m ->
     p (snd entry) = p (getOrEmpty eqb (fst entry) whole)) ->
  length (filter (fun entry => p (snd entry)) m)
  = length (filter (fun k => p (getOrEmpty eqb k whole)) (map fst m)).
Proof.
  induction m as [| entry rest IH]; intro H; simpl; [reflexivity |].
  rewrite <- (H entry (or_introl eq_refl)).
  assert (Hrest : forall e, In e rest ->
            p (snd e) = p (getOrEmpty eqb (fst e) whole))
    by (intros e He; apply H; now right).
  destruct (p (snd entry)); simpl; now rewrite (IH Hrest).
Qed.

Lemma filter_by_lookup (V : Type) (p : list V -> bool) (m : list (A * list V)) :
  NoDup (map fst m) ->
  length (filter (fun entry => p (snd entry)) m)
  = length (filter (fun k => p (getOrEmpty eqb k m)) (map fst m)).
Proof.
  intro Hnd. apply filter_by_lookup_in.
  intros [k vs] Hin. simpl. f_equal. symmetry. now apply getOrEmpty_In.
Qed.
End OrderedSets.

Lemma filter_length_perm (A : Type) (p : A -> bool) (l l' : list A) :
  Permutation l l' -> length (filter p l) = length (filter p l').
Proof.
  induction 1 as [| x l l' _ IH | x y l | l l' l'' _ IH1 _ IH2]; simpl.
  - reflexivity.
  - destruct (p x); simpl; congruence.
  - destruct (p x), (p y); reflexivity.
  - congruence.
Qed.


(** ** Multi-device coordination *)

Lemma minuteOf_index (m : RTTMeasurement.t) :
  AnalyticsEngine.minuteOf m = (minuteIndex m * 60000)%Z.
Proof.
  unfold AnalyticsEngine.minuteOf, minuteIndex, Math_floor, Qdiv, Qmult, Qinv,
    inject_Z, Qfloor.
  cbn [Qnum Qden Z.mul Pos.mul]. now rewrite Z.mul_1_r.
Qed.

Lemma addTimestamp_keys (k : string) (minute : Z) (dt : list (string * list Z)) :
  map fst (AnalyticsEngine.addTimestamp k minute dt)
  = setAdd String.eqb k (map fst dt).
Proof.
  induction dt as [| [k' s] rest IH]; simpl; [reflexivity |].
  destruct (String.eqb k k'); simpl; [reflexivity | now rewrite IH].
Qed.

Lemma deviceTimestampsOf_snoc (ms : list RTTMeasurement.t) (x : RTTMeasurement.t) :
  AnalyticsEngine.deviceTimestampsOf (ms ++ [x])
  = AnalyticsEngine.addTimestamp (RTTMeasurement.deviceJid x)
      (AnalyticsEngine.minuteOf x) (AnalyticsEngine.deviceTimestampsOf ms).
Proof. unfold AnalyticsEngine.deviceTimestampsOf. now rewrite fold_left_app. Qed.

Lemma fold_setAdd_snoc (A : Type) (eqb : A -> A -> bool) (l : list A) (x : A) :
  fold_left (fun acc k => setAdd eqb k acc) (l ++ [x]) []
  = setAdd eqb x (fold_left (fun acc k => setAdd eqb k acc) l []).
Proof. now rewrite fold_left_app. Qed.

Lemma deviceTimestamps_keys (ms : list RTTMeasurement.t) :
  map fst (AnalyticsEngine.deviceTimestampsOf ms)
  = fold_left (fun acc k => setAdd String.eqb k acc)
      (map RTTMeasurement.deviceJid ms) [].
Proof.
  induction ms as [| x ms IH] using rev_ind; [reflexivity |].
  rewrite deviceTimestampsOf_snoc, addTimestamp_keys, IH, map_app.
  cbn [map]. now rewrite fold_setAdd_snoc.
Qed.

Lemma getOrEmpty_addTimestamp (k k' : string) (minute : Z)
    (dt : list (string * list Z)) :
  getOrEmpty String.eqb k' (AnalyticsEngine.addTimestamp k minute dt)
  = if String.eqb k' k
    then setAdd Z.eqb minute (getOrEmpty String.eqb k dt)
    else getOrEmpty String.eqb k' dt.
Proof.
  induction dt as [| [k0 s0] rest IH]; simpl.
  - now destruct (String.eqb k' k).
  - destruct (String.eqb_spec k k0) as [-> | Hk]; simpl.
    + destruct (String.eqb_spec k' k0) as [-> | Hk']; reflexivity.
    + rewrite IH.
      destruct (String.eqb_spec k' k0) as [E1 | E1];
        destruct (String.eqb_spec k k0) as [E2 | E2];
        destruct (String.eqb_spec k' k) as [E3 | E3]; congruence.
Qed.

Lemma deviceTimestamps_lookup (ms : list RTTMeasurement.t) (k : string)
    (minute : Z) :
  In minute (getOrEmpty String.eqb k (AnalyticsEngine.deviceTimestampsOf ms))
  <-> exists x, In x ms /\ RTTMeasurement.deviceJid x = k
                /\ AnalyticsEngine.minuteOf x = minute.
Proof.
  induction ms as [| y ms IH] using rev_ind.
  - simpl. split; [intros [] | intros [x [[] _]]].
  - rewrite deviceTimestampsOf_snoc, getOrEmpty_addTimestamp.
    destruct (String.eqb_spec k (RTTMeasurement.deviceJid y)) as [Hk | Hk].
    + rewrite (setAdd_In Z.eqb Z.eqb_eq), <- Hk, IH. split.
      * intros [-> | [x [Hx Hrest]]].
        -- exists y. rewrite in_app_iff. simpl. auto.
        -- exists x. rewrite in_app_iff. auto.
      * intros [x [Hx [Hd Hm]]]. apply in_app_iff in Hx.
        destruct Hx as [Hx | [<- | []]]; [right; exists x |]; auto.
    + rewrite IH. split.
      * intros [x [Hx Hrest]]. exists x. rewrite in_app_iff. auto.
      * intros [x [Hx [Hd Hm]]]. apply in_app_iff in Hx.
        destruct Hx as [Hx | [<- | []]]; [exists x; auto | congruence].
Qed.

Lemma allMinutes_fold_In (dt : list (string * list Z)) (init : list Z) (m : Z) :
  In m (fold_left
          (fun all entry =>
             fold_left (fun all' minute => setAdd Z.eqb minute all')
                       (snd entry) all) dt init)
  <-> In m init \/ exists entry, In entry dt /\ In m (snd entry).
Proof.
  revert init. induction dt as [| e rest IH]; intro init; simpl.
  - split; [auto | intros [H | [e [[] _]]]; exact H].
  - rewrite IH, (fold_setAdd_In Z.eqb Z.eqb_eq). split.
    + intros [[H | H] | [e' [He' H]]]; eauto.
    + intros [H | [e' [[<- | He'] H]]]; eauto.
Qed.

Lemma allMinutes_In (dt : list (string * list Z)) (m : Z) :
  In m (AnalyticsEngine.allMinutesOf dt)
  <-> exists entry, In entry dt /\ In m (snd entry).
Proof.
  unfold AnalyticsEngine.allMinutesOf. rewrite allMinutes_fold_In.
  split; [intros [[] | H]; exact H | auto].
Qed.

Lemma allMinutes_NoDup (dt : list (string * list Z)) :
  NoDup (AnalyticsEngine.allMinutesOf dt).
Proof.
  unfold AnalyticsEngine.allMinutesOf.
  assert (H : NoDup (@nil Z)) by constructor. revert H.
  generalize (@nil Z) as init.
  induction dt as [| e rest IH]; intros init Hinit; simpl; [exact Hinit |].
  apply IH. now apply (fold_setAdd_NoDup Z.eqb Z.eqb_eq).
Qed.

Lemma deviceKeys_NoDup (ms : list RTTMeasurement.t) :
  NoDup (map fst (AnalyticsEngine.deviceTimestampsOf ms)).
Proof.
  rewrite deviceTimestamps_keys.
  apply (fold_setAdd_NoDup String.eqb String.eqb_eq). constructor.
Qed.

Lemma deviceKeys_In (ms : list RTTMeasurement.t) (k : string) :
  In k (map fst (AnalyticsEngine.deviceTimestampsOf ms))
  <-> exists x, In x ms /\ RTTMeasurement.deviceJid x = k.
Proof.
  rewrite deviceTimestamps_keys, (fold_setAdd_In String.eqb String.eqb_eq),
    in_map_iff.
  split.
  - intros [[] | [x [Hd Hx]]]. eauto.
  - intros [x [Hx Hd]]. right. eauto.
Qed.

Lemma allMinutes_measured (ms : list RTTMeasurement.t) (minute : Z) :
  In minute (AnalyticsEngine.allMinutesOf (AnalyticsEngine.deviceTimestampsOf ms))
  <-> exists x, In x ms /\ AnalyticsEngine.minuteOf x = minute.
Proof.
  rewrite allMinutes_In. split.
  - intros [[k s] [Hentry Hin]]. simpl in Hin.
    rewrite <- (getOrEmpty_In String.eqb String.eqb_eq k s _
                  (deviceKeys_NoDup ms) Hentry) in Hin.
    apply deviceTimestamps_lookup in Hin as [x [Hx [_ Hm]]]. eauto.
  - intros [x [Hx Hm]].
    assert (Hk : In (RTTMeasurement.deviceJid x)
                    (map fst (AnalyticsEngine.deviceTimestampsOf ms)))
      by (apply deviceKeys_In; eauto).
    apply in_map_iff in Hk as [[k s] [Hfst Hentry]]. simpl in Hfst. subst k.
    exists (RTTMeasurement.deviceJid x, s). split; [exact Hentry |]. simpl.
    rewrite <- (getOrEmpty_In String.eqb String.eqb_eq _ s _
                  (deviceKeys_NoDup ms) Hentry).
    apply deviceTimestamps_lookup. eauto.
Qed.

Lemma measuredIn_lookup (ms : list RTTMeasurement.t) (device : string)
    (minutes : list Z) (minute : Z) :
  measuredIn ms device minutes ->
  (In minute (getOrEmpty String.eqb device (AnalyticsEngine.deviceTimestampsOf ms))
   <-> In minute (map (fun i => (i * 60000)%Z) minutes)).
Proof.
  intro Hm. rewrite deviceTimestamps_lookup, in_map_iff. split.
  - intros [x [Hx [Hd Hmin]]]. exists (minuteIndex x).
    rewrite <- minuteOf_index. split; [exact Hmin |].
    apply Hm. eauto.
  - intros [i [Hi Hin]]. apply Hm in Hin as [x [Hx [Hd Hidx]]].
    exists x. rewrite minuteOf_index, Hidx. auto.
Qed.

Section TwoDevices.
Variable ms : list RTTMeasurement.t.
Variables a b : string.
Variables m0 m1 m2 : Z.
Hypothesis distinct_devices : a <> b.
Hypothesis distinct_minutes : NoDup [m0; m1; m2].
Hypothesis only_two : forall x, In x ms ->
  RTTMeasurement.deviceJid x = a \/ RTTMeasurement.deviceJid x = b.
Hypothesis minutes_a : measuredIn ms a [m0; m1; m2].
Hypothesis minutes_b : measuredIn ms b [m1; m2].

Let dt := AnalyticsEngine.deviceTimestampsOf ms.
Let scaled := map (fun i => (i * 60000)%Z) [m0; m1; m2].

Lemma two_keys : Permutation (map fst dt) [a; b].
Proof.
  apply NoDup_Permutation.
  - apply deviceKeys_NoDup.
  - constructor; [simpl; intuition | constructor; [intros [] | constructor]].
  - intro k. unfold dt. rewrite deviceKeys_In. simpl. split.
    + intros [x [Hx Hd]]. destruct (only_two x Hx); intuition congruence.
    + intros [<- | [<- | []]].
      * destruct (proj2 (minutes_a m0)) as [x [Hx [Hd _]]]; simpl; eauto.
      * destruct (proj2 (minutes_b m1)) as [x [Hx [Hd _]]]; simpl; eauto.
Qed.

Lemma three_minutes : Permutation (AnalyticsEngine.allMinutesOf dt) scaled.
Proof.
  apply NoDup_Permutation.
  - apply allMinutes_NoDup.
  - unfold scaled. simpl.
    inversion distinct_minutes as [| ? ? H0 H12]; subst.
    inversion H12 as [| ? ? H1 H2]; subst. simpl in H0, H1.
    constructor; [simpl; lia |].
    constructor; [simpl; lia |].
    constructor; [intros [] | constructor].
  - intro m. unfold dt. rewrite allMinutes_measured. unfold scaled. split.
    + intros [x [Hx Hm]]. rewrite minuteOf_index in Hm. subst m.
      apply in_map_iff. exists (minuteIndex x). split; [reflexivity |].
      destruct (only_two x Hx) as [Hd | Hd].
      * apply minutes_a. eauto.
      * assert (H : In (minuteIndex x) [m1; m2]) by (apply minutes_b; eauto).
        now right.
    + intro Hin. apply in_map_iff in Hin as [i [Hi Hin]].
      apply minutes_a in Hin as [x [Hx [_ Hidx]]].
      exists x. rewrite minuteOf_index, Hidx. auto.
Qed.

Lemma active_count (minute : Z) :
  AnalyticsEngine.activeDevices dt minute
  = ((if setHas Z.eqb minute (getOrEmpty String.eqb a dt) then 1 else 0)
     + (if setHas Z.eqb minute (getOrEmpty String.eqb b dt) then 1 else 0))%nat.
Proof.
  unfold AnalyticsEngine.activeDevices, dt.
  rewrite (filter_by_lookup String.eqb String.eqb_eq
             (setHas Z.eqb minute) _ (deviceKeys_NoDup ms)).
  fold dt. rewrite (filter_length_perm _ two_keys). simpl.
  now destruct (setHas Z.eqb minute (getOrEmpty String.eqb a dt)),
               (setHas Z.eqb minute (getOrEmpty String.eqb b dt)).
Qed.

Lemma has_a (i : Z) :
  setHas Z.eqb (i * 60000)%Z (getOrEmpty String.eqb a dt)
  = existsb (Z.eqb i) [m0; m1; m2].
Proof.
  apply eq_true_iff_eq. unfold dt.
  rewrite (setHas_In Z.eqb Z.eqb_eq), (measuredIn_lookup _ minutes_a),
    in_map_iff, existsb_exists.
  split.
  - intros [j [Hj Hin]]. exists j. split; [exact Hin | apply Z.eqb_eq; lia].
  - intros [j [Hin Hj]]. apply Z.eqb_eq in Hj. subst j. eauto.
Qed.

Lemma has_b (i : Z) :
  setHas Z.eqb (i * 60000)%Z (getOrEmpty String.eqb b dt)
  = existsb (Z.eqb i) [m1; m2].
Proof.
  apply eq_true_iff_eq. unfold dt.
  rewrite (setHas_In Z.eqb Z.eqb_eq), (measuredIn_lookup _ minutes_b),
    in_map_iff, existsb_exists.
  split.
  - intros [j [Hj Hin]]. exists j. split; [exact Hin | apply Z.eqb_eq; lia].
  - intros [j [Hin Hj]]. apply Z.eqb_eq in Hj. subst j. eauto.
Qed.

(** Two devices, three active minutes, two of them shared. *)
Lemma coordination_counts :
  length (groupBy String.eqb RTTMeasurement.deviceJid ms) = 2%nat
  /\ length (AnalyticsEngine.allMinutesOf dt) = 3%nat
  /\ length (filter (fun minute =>
               Nat.ltb 1 (AnalyticsEngine.activeDevices dt minute))
             (AnalyticsEngine.allMinutesOf dt)) = 2%nat.
Proof.
  split; [| split].
  - rewrite <- (length_map fst), (groupBy_keys String.eqb),
      <- deviceTimestamps_keys.
    apply (Permutation_length two_keys).
  - apply (Permutation_length three_minutes).
  - rewrite (filter_length_perm _ three_minutes). unfold scaled.
    cbn [map filter]. rewrite !active_count, !has_a, !has_b.
    inversion distinct_minutes as [| ? ? H0 H12]; subst.
    inversion H12 as [| ? ? H1 H2]; subst. simpl in H0, H1.
    cbn [existsb].
    rewrite !Z.eqb_refl.
    assert (E01 : Z.eqb m0 m1 = false) by (apply Z.eqb_neq; lia).
    assert (E02 : Z.eqb m0 m2 = false) by (apply Z.eqb_neq; lia).
    rewrite E01, E02. cbn [orb]. 
    destruct (Z.eqb m1 m0), (Z.eqb m1 m2), (Z.eqb m2 m0), (Z.eqb m2 m1);
      reflexivity.
Qed.

End TwoDevices.

Lemma measuredIn_nonempty (ms : list RTTMeasurement.t) (device : string)
    (minute : Z) (minutes : list Z) :
  measuredIn ms device (minute :: minutes) -> Nat.eqb (length ms) 0 = false.
Proof.
  intro H. destruct (proj2 (H minute) (or_introl eq_refl)) as [x [Hx _]].
  now destruct ms.
Qed.

(** C6, as amended.  When the input has exactly two devices, one with
    measurements in exactly three minutes and the other in exactly two of
    those (A in minutes 0, 1, 2 and B in minutes 1, 2),
    [generateBehavioralInsights] reports [simultaneousDevices = 2] and
    [coordinationScore = (2/3) * 100 = 200/3], the percentage of active
    minutes with more than one device, unrounded; rounded to one decimal
    it is 66.7. *)
Theorem coordination_of_two_devices (Math_sqrt : Q -> Q) (e : Env)
    (measurements : list RTTMeasurement.t)
    (transitions : list StateTransition.t)
    (sessionStartTime : Z) (sessionEndTime : option Z)
    (a b : string) (m0 m1 m2 : Z) :
  a <> b ->
  NoDup [m0; m1; m2] ->
  (forall m, In m measurements ->
     RTTMeasurement.deviceJid m = a \/ RTTMeasurement.deviceJid m = b) ->
  measuredIn measurements a [m0; m1; m2] ->
  measuredIn measurements b [m1; m2] ->
  let c :=
    BehavioralInsights.multiDeviceCoordination
      (AnalyticsEngine.generateBehavioralInsights Math_sqrt e measurements
         transitions sessionStartTime sessionEndTime) in
  MultiDeviceCoordination.simultaneousDevices c = 2%nat
  /\ MultiDeviceCoordination.coordinationScore c == 200 # 3
  /\ Math_round (MultiDeviceCoordination.coordinationScore c * 10) / 10
     == 667 # 10.
Proof.
  intros Hab Hminutes Honly Ha Hb.
  destruct (coordination_counts Hab Hminutes Honly Ha Hb)
    as [Hdevices [Hall Hshared]].
  pose proof (measuredIn_nonempty Ha) as Hsome.
  unfold AnalyticsEngine.generateBehavioralInsights.
  rewrite Hsome. cbv zeta.
  cbn [BehavioralInsights.multiDeviceCoordination
       MultiDeviceCoordination.simultaneousDevices
       MultiDeviceCoordination.coordinationScore].
  rewrite Hdevices, Hall, Hshared.
  split; [reflexivity | split; reflexivity].
Qed.

(** C6, the stated score refuted: with device A in minutes 0, 1, 2 and
    device B in minutes 1, 2 the score is 200/3, which is not 66.7. *)
Lemma coordinationScore_is_not_rounded :
  let c :=
    BehavioralInsights.multiDeviceCoordination
      (AnalyticsEngine.generateBehavioralInsights approxSqrt (utcAt 0)
         twoDevices [] 0 None) in
  MultiDeviceCoordination.simultaneousDevices c = 2%nat
  /\ MultiDeviceCoordination.coordinationScore c == 200 # 3
  /\ ~ MultiDeviceCoordination.coordinationScore c == 667 # 10.
Proof.
  assert (H :
    MultiDeviceCoordination.coordinationScore
      (BehavioralInsights.multiDeviceCoordination
         (AnalyticsEngine.generateBehavioralInsights approxSqrt (utcAt 0)
            twoDevices [] 0 None)) = 200 # 3)
    by (vm_compute; reflexivity).
  cbv zeta. rewrite H.
  split; [vm_compute; reflexivity | split; [reflexivity | discriminate]].
Qed.

Lemma twoDevices_A : measuredIn twoDevices "A" [0; 1; 2]%Z.
Proof.
  intro minute. split.
  - intros [x [Hin [Hd Hm]]]. subst minute. simpl in Hin.
    repeat (destruct Hin as [<- | Hin];
            [try discriminate Hd; vm_compute; tauto |]).
    contradiction.
  - intros [<- | [<- | [<- | []]]].
    + exists (measurement "A" 120 0 Online None).
      simpl; repeat split; auto.
    + exists (measurement "A" 110 75000 Standby None).
      simpl; repeat split; auto.
    + exists (measurement "A" 130 120000 Online None).
      simpl; repeat split; auto 10.
Qed.

Lemma twoDevices_B : measuredIn twoDevices "B" [1; 2]%Z.
Proof.
  intro minute. split.
  - intros [x [Hin [Hd Hm]]]. subst minute. simpl in Hin.
    repeat (destruct Hin as [<- | Hin];
            [try discriminate Hd; vm_compute; tauto |]).
    contradiction.
  - intros [<- | [<- | []]].
    + exists (measurement "B" 90 61000 Online None).
      simpl; repeat split; auto.
    + exists (measurement "B" 95 130000 Online None).
      simpl; repeat split; auto 10.
Qed.

Lemma coordination_of_two_devices_witness :
  "A"%string <> "B"%string
  /\ measuredIn twoDevices "A" [0; 1; 2]%Z
  /\ measuredIn twoDevices "B" [1; 2]%Z
  /\ MultiDeviceCoordination.coordinationScore
       (BehavioralInsights.multiDeviceCoordination
          (AnalyticsEngine.generateBehavioralInsights approxSqrt (utcAt 0)
             twoDevices [] 0 None)) == 200 # 3.
Proof.
  assert (Hab : "A"%string <> "B"%string) by discriminate.
  assert (Hminutes : NoDup [0; 1; 2]%Z).
  { repeat constructor; simpl; intuition discriminate. }
  assert (Honly : forall m, In m twoDevices ->
            RTTMeasurement.deviceJid m = "A"%string
            \/ RTTMeasurement.deviceJid m = "B"%string).
  { intros m Hin. simpl in Hin.
    repeat (destruct Hin as [<- | Hin]; [simpl; auto |]). contradiction. }
  split; [exact Hab |]. split; [exact twoDevices_A |].
  split; [exact twoDevices_B |].
  exact (proj1 (proj2
    (@coordination_of_two_devices approxSqrt (utcAt 0) twoDevices [] 0%Z None
       "A" "B" 0%Z 1%Z 2%Z Hab Hminutes Honly twoDevices_A twoDevices_B))).
Defined.

(** ** Hourly buckets *)

Lemma getHours_range (e : Env) (timestamp : Z) : (0 <= getHours e timestamp < 24)%Z.
Proof. unfold getHours. apply Z.mod_pos_bound. lia. Qed.

Lemma bump_keys (hour : Z) (m : list (Z * nat)) :
  map fst (AnalyticsEngine.bump hour m) = setAdd Z.eqb hour (map fst m).
Proof.
  induction m as [| [k c] rest IH]; simpl; [reflexivity |].
  destruct (Z.eqb hour k); simpl; [reflexivity | now rewrite IH].
Qed.

Lemma getOrZero_bump (hour hour' : Z) (m : list (Z * nat)) :
  AnalyticsEngine.getOrZero hour' (AnalyticsEngine.bump hour m)
  = if Z.eqb hour' hour then S (AnalyticsEngine.getOrZero hour m)
    else AnalyticsEngine.getOrZero hour' m.
Proof.
  induction m as [| [k c] rest IH]; simpl.
  - now destruct (Z.eqb hour' hour).
  - destruct (Z.eqb_spec hour k) as [E1 | E1]; simpl.
    + destruct (Z.eqb_spec hour' k) as [E2 | E2];
        destruct (Z.eqb_spec hour' hour) as [E3 | E3]; congruence.
    + rewrite IH.
      destruct (Z.eqb_spec hour' k) as [E2 | E2];
        destruct (Z.eqb_spec hour' hour) as [E3 | E3]; congruence.
Qed.

Lemma fold_add_from (l : list nat) (a : nat) :
  fold_left Nat.add l a = (a + fold_left Nat.add l 0)%nat.
Proof.
  revert a. induction l as [| x t IH]; intro a; simpl; [lia |].
  rewrite (IH (a + x)%nat), (IH x). lia.
Qed.

Lemma bump_total (hour : Z) (m : list (Z * nat)) :
  fold_left Nat.add (map snd (AnalyticsEngine.bump hour m)) 0%nat
  = S (fold_left Nat.add (map snd m) 0%nat).
Proof.
  induction m as [| [k c] rest IH]; simpl; [reflexivity |].
  destruct (Z.eqb hour k); simpl.
  - rewrite (fold_add_from _ (S c)), (fold_add_from _ c). lia.
  - rewrite (fold_add_from _ c), IH, (fold_add_from (map snd rest) c). lia.
Qed.

Lemma getOrZero_In (hour : Z) (c : nat) (m : list (Z * nat)) :
  NoDup (map fst m) -> In (hour, c) m -> AnalyticsEngine.getOrZero hour m = c.
Proof.
  induction m as [| [k c'] rest IH]; simpl; [intros _ [] |].
  intros Hnd [Heq | Hin].
  - injection Heq as -> ->. now rewrite Z.eqb_refl.
  - inversion Hnd as [| ? ? Hk Hrest]; subst.
    destruct (Z.eqb_spec hour k) as [-> | _]; [| now apply IH].
    exfalso. apply Hk. now apply (in_map fst) in Hin.
Qed.

Section HourActivity.
Variable e : Env.

Let hourOf (m : RTTMeasurement.t) : Z := getHours e (RTTMeasurement.timestamp m).

Lemma hourActivityOf_snoc (ms : list RTTMeasurement.t) (x : RTTMeasurement.t) :
  AnalyticsEngine.hourActivityOf e (ms ++ [x])
  = AnalyticsEngine.bump (hourOf x) (AnalyticsEngine.hourActivityOf e ms).
Proof. unfold AnalyticsEngine.hourActivityOf. now rewrite fold_left_app. Qed.

Lemma hourCount_snoc (ms : list RTTMeasurement.t) (x : RTTMeasurement.t)
    (hour : Z) :
  hourCount e (ms ++ [x]) hour
  = (hourCount e ms hour + if Z.eqb (hourOf x) hour then 1 else 0)%nat.
Proof.
  unfold hourCount. rewrite filter_app, length_app. simpl. fold (hourOf x).
  now destruct (Z.eqb (hourOf x) hour).
Qed.

(** The map holds, for each hour, the number of measurements in it. *)
Lemma hourActivity_count (ms : list RTTMeasurement.t) (hour : Z) :
  AnalyticsEngine.getOrZero hour (AnalyticsEngine.hourActivityOf e ms)
  = hourCount e ms hour.
Proof.
  induction ms as [| x ms IH] using rev_ind; [reflexivity |].
  rewrite hourActivityOf_snoc, getOrZero_bump, hourCount_snoc.
  rewrite (Z.eqb_sym (hourOf x) hour).
  destruct (Z.eqb_spec hour (hourOf x)) as [<- | _]; rewrite IH; lia.
Qed.

Lemma hourActivity_keys (ms : list RTTMeasurement.t) :
  map fst (AnalyticsEngine.hourActivityOf e ms)
  = fold_left (fun acc k => setAdd Z.eqb k acc) (map hourOf ms) [].
Proof.
  induction ms as [| x ms IH] using rev_ind; [reflexivity |].
  rewrite hourActivityOf_snoc, bump_keys, IH, map_app.
  cbn [map]. now rewrite fold_setAdd_snoc.
Qed.

Lemma hourActivity_keys_NoDup (ms : list RTTMeasurement.t) :
  NoDup (map fst (AnalyticsEngine.hourActivityOf e ms)).
Proof.
  rewrite hourActivity_keys.
  apply (fold_setAdd_NoDup Z.eqb Z.eqb_eq). constructor.
Qed.

Lemma hourCount_pos (ms : list RTTMeasurement.t) (hour : Z) :
  (0 < hourCount e ms hour)%nat <-> exists x, In x ms /\ hourOf x = hour.
Proof.
  unfold hourCount. split.
  - intro Hpos.
    destruct (filter (fun m => Z.eqb (getHours e (RTTMeasurement.timestamp m)) hour) ms)
      as [| x rest] eqn:E; [simpl in Hpos; lia |].
    assert (Hx : In x (x :: rest)) by now left.
    rewrite <- E in Hx. apply filter_In in Hx as [Hx Hh].
    apply Z.eqb_eq in Hh. eauto.
  - intros [x [Hx Hh]].
    assert (Hin : In x (filter (fun m =>
                      Z.eqb (getHours e (RTTMeasurement.timestamp m)) hour) ms)).
    { apply filter_In. split; [exact Hx | now apply Z.eqb_eq]. }
    destruct (filter _ ms); [contradiction | simpl; lia].
Qed.

(** An hour has a bucket exactly when some measurement falls in it. *)
Lemma hourActivity_keys_In (ms : list RTTMeasurement.t) (hour : Z) :
  In hour (map fst (AnalyticsEngine.hourActivityOf e ms))
  <-> (0 < hourCount e ms hour)%nat.
Proof.
  rewrite hourActivity_keys, (fold_setAdd_In Z.eqb Z.eqb_eq), in_map_iff,
    hourCount_pos.
  split.
  - intros [[] | [x [Hh Hx]]]. eauto.
  - intros [x [Hx Hh]]. right. eauto.
Qed.

Lemma hourActivity_total (ms : list RTTMeasurement.t) :
  fold_left Nat.add (map snd (AnalyticsEngine.hourActivityOf e ms)) 0%nat
  = length ms.
Proof.
  induction ms as [| x ms IH] using rev_ind; [reflexivity |].
  rewrite hourActivityOf_snoc, bump_total, IH, length_app. simpl. lia.
Qed.

Lemma hours0to23_In (hour : Z) :
  In hour AnalyticsEngine.hours0to23 <-> (0 <= hour < 24)%Z.
Proof.
  unfold AnalyticsEngine.hours0to23, arrayFrom. rewrite in_map_iff. split.
  - intros [i [<- Hi]]. apply in_seq in Hi. lia.
  - intro Hh. exists (Z.to_nat hour). split; [lia |]. apply in_seq. lia.
Qed.

Lemma hours0to23_NoDup : NoDup AnalyticsEngine.hours0to23.
Proof.
  unfold AnalyticsEngine.hours0to23, arrayFrom.
  apply Finite.Injective_map_NoDup; [| apply seq_NoDup].
  intros i j Hij. lia.
Qed.

(** The map has one entry per hour that has a measurement. *)
Lemma hourActivity_size (ms : list RTTMeasurement.t) :
  length (AnalyticsEngine.hourActivityOf e ms) = bucketCount e ms.
Proof.
  rewrite <- (length_map fst). unfold bucketCount.
  apply Permutation_length, NoDup_Permutation.
  - apply hourActivity_keys_NoDup.
  - apply NoDup_filter, hours0to23_NoDup.
  - intro hour. rewrite hourActivity_keys_In, filter_In, hours0to23_In,
      Nat.ltb_lt.
    split; [| tauto]. intro Hpos. split; [| exact Hpos].
    apply hourCount_pos in Hpos as [x [_ <-]]. apply getHours_range.
Qed.

Lemma avgActivity_mean (ms : list RTTMeasurement.t) :
  AnalyticsEngine.avgActivity (AnalyticsEngine.hourActivityOf e ms)
  = meanHourlyCount e ms.
Proof.
  unfold AnalyticsEngine.avgActivity, meanHourlyCount.
  now rewrite hourActivity_total, hourActivity_size.
Qed.
End HourActivity.

(** ** Sleep and wake detection *)

Lemma StronglySorted_app_le (A : Type) (R : A -> A -> Prop) (l1 l2 : list A) :
  StronglySorted R (l1 ++ l2) ->
  forall x y, In x l1 -> In y l2 -> R x y.
Proof.
  induction l1 as [| a l1 IH]; simpl; intros Hs x y Hx Hy; [contradiction |].
  apply StronglySorted_inv in Hs as [Hs Hall].
  destruct Hx as [<- | Hx]; [| now apply IH].
  rewrite Forall_forall in Hall. apply Hall, in_or_app. now right.
Qed.

Lemma lowActivityHours_lowest (e : Env) (ms : list RTTMeasurement.t) :
  lowestHours (hourCount e ms) (bucketCount e ms)
    (AnalyticsEngine.lowActivityHoursOf (AnalyticsEngine.hourActivityOf e ms)).
Proof.
  unfold AnalyticsEngine.lowActivityHoursOf. cbv zeta.
  set (ha := AnalyticsEngine.hourActivityOf e ms).
  set (le := fun a b : Z * nat => Nat.leb (snd a) (snd b)).
  set (sorted := sort le ha).
  assert (Hperm : Permutation sorted ha) by apply sort_perm.
  assert (Hss : StronglySorted (fun u v => le u v = true) sorted).
  { apply sort_strongly_sorted; unfold le.
    - intros x y H. apply Nat.leb_gt in H. apply Nat.leb_le. lia.
    - intros x y z H1 H2. apply Nat.leb_le in H1, H2. apply Nat.leb_le. lia. }
  assert (Hsplit : sorted = firstn 6 sorted ++ skipn 6 sorted)
    by (symmetry; apply firstn_skipn).
  assert (Hnd : NoDup (map fst sorted)).
  { apply (Permutation_NoDup (l := map fst ha)).
    - symmetry. now apply Permutation_map.
    - apply hourActivity_keys_NoDup. }
  assert (Hentry : forall hour c, In (hour, c) sorted ->
            c = hourCount e ms hour /\ (0 < hourCount e ms hour)%nat).
  { intros hour c Hin.
    assert (Hin' : In (hour, c) ha) by now apply (Permutation_in _ Hperm).
    split.
    - rewrite <- hourActivity_count. symmetry.
      apply getOrZero_In; [apply hourActivity_keys_NoDup | exact Hin'].
    - apply hourActivity_keys_In. now apply (in_map fst) in Hin'. }
  assert (Hfirst : forall x, In x (firstn 6 sorted) -> In x sorted).
  { intros x Hx. rewrite Hsplit. apply in_or_app. now left. }
  repeat split.
  - rewrite Hsplit, map_app in Hnd. now apply NoDup_app_remove_r in Hnd.
  - intros hour Hin. apply in_map_iff in Hin as [[h c] [Hh Hin]].
    simpl in Hh. subst h. now apply (Hentry hour c), Hfirst.
  - rewrite length_map, length_firstn. unfold sorted, ha.
    now rewrite sort_length, hourActivity_size.
  - intros inside outside Hin Hpos Hout.
    apply in_map_iff in Hin as [[h c] [Hh Hin]]. simpl in Hh. subst h.
    apply hourActivity_keys_In in Hpos.
    apply in_map_iff in Hpos as [[h c'] [Hh Hin']]. simpl in Hh. subst h.
    apply (Permutation_in _ (Permutation_sym Hperm)) in Hin'.
    destruct (Hentry inside c (Hfirst _ Hin)) as [-> _].
    destruct (Hentry outside c' Hin') as [Hc' _].
    rewrite Hsplit in Hin'. apply in_app_or in Hin' as [Hin' | Hin'].
    + exfalso. apply Hout. now apply (in_map fst) in Hin'.
    + rewrite Hsplit in Hss.
      pose proof (@StronglySorted_app_le _ _ _ _ Hss _ _ Hin Hin') as Hle.
      unfold le in Hle. simpl in Hle. apply Nat.leb_le in Hle. lia.
Qed.

Lemma find_from (p : Z -> bool) (n a : nat) :
  match find p (map Z.of_nat (seq a n)) with
  | Some hour =>
      (Z.of_nat a <= hour < Z.of_nat (a + n))%Z /\ p hour = true
      /\ forall earlier, (Z.of_nat a <= earlier < hour)%Z -> p earlier <> true
  | None =>
      forall hour, (Z.of_nat a <= hour < Z.of_nat (a + n))%Z -> p hour <> true
  end.
Proof.
  revert a. induction n as [| n IH]; intro a; simpl.
  - intros hour Hh. lia.
  - destruct (p (Z.of_nat a)) eqn:E.
    + split; [lia |]. split; [exact E |]. intros earlier He. lia.
    + specialize (IH (S a)).
      destruct (find p (map Z.of_nat (seq (S a) n))) as [hour |].
      * destruct IH as [Hr [Hp Hbefore]]. split; [lia |]. split; [exact Hp |].
        intros earlier He.
        destruct (Z.eq_dec earlier (Z.of_nat a)) as [-> | Hne];
          [congruence | apply Hbefore; lia].
      * intros hour Hh.
        destruct (Z.eq_dec hour (Z.of_nat a)) as [-> | Hne];
          [congruence | apply IH; lia].
Qed.

Lemma find_hours (p : Z -> bool) :
  firstHour (fun hour => p hour = true) (find p AnalyticsEngine.hours0to23).
Proof.
  pose proof (find_from p 24 0) as H.
  change (map Z.of_nat (seq 0 24)) with AnalyticsEngine.hours0to23 in H.
  unfold firstHour.
  destruct (find p AnalyticsEngine.hours0to23) as [hour |].
  - destruct H as [Hr [Hp Hbefore]]. split; [lia |]. split; [exact Hp |].
    intros earlier He. apply Hbefore. lia.
  - intros hour Hh. apply H. lia.
Qed.

Lemma firstHour_ext (P P' : Z -> Prop) (result : option Z) :
  (forall hour, P hour <-> P' hour) -> firstHour P result -> firstHour P' result.
Proof.
  intro Hext. unfold firstHour. destruct result as [hour |].
  - intros [Hr [Hp Hbefore]]. split; [exact Hr |]. split; [now apply Hext |].
    intros earlier He Hp'. apply (Hbefore earlier He). now apply Hext.
  - intros Hnone hour Hh Hp'. apply (Hnone hour Hh). now apply Hext.
Qed.

Lemma includes_In (hours : list Z) (hour : Z) :
  AnalyticsEngine.includes hours hour = true <-> In hour hours.
Proof. apply (setHas_In Z.eqb Z.eqb_eq). Qed.

(** C7.  With fewer than 100 measurements sleep/wake detection returns
    [{sleepPatternDetected: false}] with neither time defined.  With at
    least 100, the measurements are counted per hour of the day, an hour
    having a bucket when it has a measurement; the low-activity set is the
    six lowest-count bucketed hours; the wake time is the first hour from
    0 to 23 outside that set whose count exceeds 1.5 times the mean count
    per bucket; the sleep time is the first hour from 0 to 23 inside that
    set whose count is below 0.5 times the mean; and a pattern is reported
    exactly when one of the two is defined. *)
Theorem sleepWake_detection (e : Env) (measurements : list RTTMeasurement.t) :
  let r := AnalyticsEngine.detectSleepWakePatterns e measurements in
  let count := hourCount e measurements in
  let mean := meanHourlyCount e measurements in
  let low :=
    AnalyticsEngine.lowActivityHoursOf
      (AnalyticsEngine.hourActivityOf e measurements) in
  ((length measurements < 100)%nat ->
   r = SleepWakeDetection.mk None None false)
  /\ ((100 <= length measurements)%nat ->
      lowestHours count (bucketCount e measurements) low
      /\ firstHour (fun hour => ~ In hour low
                                /\ mean * (15 # 10) < Qnat (count hour))
           (SleepWakeDetection.typicalWakeTime r)
      /\ firstHour (fun hour => In hour low
                                /\ Qnat (count hour) < mean * (5 # 10))
           (SleepWakeDetection.typicalSleepTime r)
      /\ (SleepWakeDetection.sleepPatternDetected r = true
          <-> SleepWakeDetection.typicalWakeTime r <> None
              \/ SleepWakeDetection.typicalSleepTime r <> None)).
Proof.
  intros r count mean low. subst r.
  unfold AnalyticsEngine.detectSleepWakePatterns. split.
  - intro Hlt. apply Nat.ltb_lt in Hlt. now rewrite Hlt.
  - intro Hge. apply Nat.ltb_ge in Hge. rewrite Hge. cbv zeta. fold low.
    cbn [SleepWakeDetection.typicalWakeTime SleepWakeDetection.typicalSleepTime
         SleepWakeDetection.sleepPatternDetected].
    split; [apply lowActivityHours_lowest |].
    split; [| split].
    + unfold AnalyticsEngine.findWakeTime. cbv zeta.
      eapply firstHour_ext; [| apply find_hours].
      intro hour. cbv beta.
      rewrite hourActivity_count, avgActivity_mean. fold mean count.
      destruct (AnalyticsEngine.includes low hour) eqn:E.
      * apply includes_In in E. split; [discriminate | tauto].
      * assert (Hout : ~ In hour low)
          by (intro Hin; apply includes_In in Hin; congruence).
        rewrite Qgt_bool_iff. tauto.
    + unfold AnalyticsEngine.findSleepTime. cbv zeta.
      eapply firstHour_ext; [| apply find_hours].
      intro hour. cbv beta.
      rewrite hourActivity_count, avgActivity_mean. fold mean count.
      destruct (AnalyticsEngine.includes low hour) eqn:E.
      * apply includes_In in E. rewrite Qlt_bool_iff. tauto.
      * assert (Hout : ~ In hour low)
          by (intro Hin; apply includes_In in Hin; congruence).
        split; [discriminate | tauto].
    + destruct (AnalyticsEngine.findWakeTime _ low),
               (AnalyticsEngine.findSleepTime _ low); simpl; split;
        try discriminate; try tauto; intros _;
        [left | left | right]; discriminate.
Qed.

(** On the sample day the six single-measurement hours 2 to 7 are the
    low-activity set, the mean is 100/9, hour 8 is the wake time and hour
    2 the sleep time. *)
Example detectSleepWakePatterns_busyDay :
  AnalyticsEngine.detectSleepWakePatterns (utcAt 0) busyDay
  = SleepWakeDetection.mk (Some 8%Z) (Some 2%Z) true.
Proof. vm_compute. reflexivity. Qed.

Lemma sleepWake_detection_witness :
  ((100 <= length busyDay)%nat
   /\ lowestHours (hourCount (utcAt 0) busyDay) (bucketCount (utcAt 0) busyDay)
        (AnalyticsEngine.lowActivityHoursOf
           (AnalyticsEngine.hourActivityOf (utcAt 0) busyDay)))
  /\ ((length fourSamples < 100)%nat
      /\ AnalyticsEngine.detectSleepWakePatterns (utcAt 0) fourSamples
         = SleepWakeDetection.mk None None false).
Proof.
  assert (Hlong : (100 <= length busyDay)%nat) by (vm_compute; lia).
  assert (Hshort : (length fourSamples < 100)%nat) by (vm_compute; lia).
  split.
  - split; [exact Hlong |].
    exact (proj1 (proj2 (sleepWake_detection (utcAt 0) busyDay) Hlong)).
  - split; [exact Hshort |].
    exact (proj1 (sleepWake_detection (utcAt 0) fourSamples) Hshort).
Defined.

(** C7, the claim as worded.  On the sample day fifteen hours have no
    measurement, so the six lowest-count hours of the day are six of
    those, and the sleep time would be one of them; the code keeps no
    bucket for them, takes the single-measurement hours 2 to 7 as the
    low-activity set and returns hour 2. *)
Lemma sleepWake_not_over_all_hours :
  (100 <= length busyDay)%nat
  /\ ~ specSleepWake (utcAt 0) busyDay
        (AnalyticsEngine.detectSleepWakePatterns (utcAt 0) busyDay).
Proof.
  split; [vm_compute; lia |].
  rewrite detectSleepWakePatterns_busyDay.
  intros [low [[Hnd [Hlen [_ Hlowest]]] [_ [Hsleep _]]]].
  cbn [SleepWakeDetection.typicalSleepTime firstHour] in Hsleep.
  destruct Hsleep as [_ [[Hin2 _] _]].
  assert (Hempty : forall hour,
            In hour [0; 1; 9; 10; 11; 13]%Z -> In hour low).
  { intros hour Hhour.
    destruct (in_dec Z.eq_dec hour low) as [Hin | Hout]; [exact Hin |].
    exfalso.
    assert (Hrange : (0 <= hour < 24)%Z)
      by (cbn [In] in Hhour; lia).
    pose proof (Hlowest 2%Z hour Hin2 Hrange Hout) as Hle.
    cbn [In] in Hhour.
    destruct Hhour as [<- | [<- | [<- | [<- | [<- | [<- | []]]]]]];
      vm_compute in Hle; lia. }
  assert (Hincl : incl [2; 0; 1; 9; 10; 11; 13]%Z low).
  { intros hour [<- | Hhour]; [exact Hin2 | now apply Hempty]. }
  assert (Hseven : NoDup [2; 0; 1; 9; 10; 11; 13]%Z).
  { repeat constructor; cbn [In]; lia. }
  pose proof (NoDup_incl_length Hseven Hincl) as Hle.
  rewrite Hlen in Hle. cbn [length] in Hle. lia.
Qed.

(** ** Grouping *)

Section Grouping.
Variables K V : Type.
Variable eqb : K -> K -> bool.
Hypothesis eqb_eq : forall x y, eqb x y = true <-> x = y.
Variable key : V -> K.

Lemma groupBy_snoc (l : list V) (x : V) :
  groupBy eqb key (l ++ [x]) = push eqb (key x) x (groupBy eqb key l).
Proof. unfold groupBy. now rewrite fold_left_app. Qed.

Lemma eqb_refl_true (k : K) : eqb k k = true.
Proof. now apply eqb_eq. Qed.

Lemma eqb_trans_false (a b c : K) :
  eqb a b = true -> eqb c b = eqb c a.
Proof.
  intro Hab. apply eqb_eq in Hab. now subst.
Qed.

Lemma getOrEmpty_push (k k0 : K) (v : V) (m : list (K * list V)) :
  getOrEmpty eqb k (push eqb k0 v m)
  = if eqb k k0 then getOrEmpty eqb k0 m ++ [v] else getOrEmpty eqb k m.
Proof.
  induction m as [| [k' vs] rest IH]; simpl.
  - now destruct (eqb k k0).
  - destruct (eqb k0 k') eqn:E0; simpl.
    + rewrite (eqb_trans_false k E0).
      now destruct (eqb k k0).
    + rewrite IH.
      destruct (eqb k k') eqn:E1; [| reflexivity].
      destruct (eqb k k0) eqn:E2; [| reflexivity].
      apply eqb_eq in E1, E2. subst. rewrite eqb_refl_true in E0. discriminate.
Qed.

(** A lookup in the grouped map finds the elements with that key, in
    their original order. *)
Lemma getOrEmpty_groupBy (k : K) (l : list V) :
  getOrEmpty eqb k (groupBy eqb key l) = filter (fun x => eqb k (key x)) l.
Proof.
  induction l as [| x l IH] using rev_ind; [reflexivity |].
  rewrite groupBy_snoc, getOrEmpty_push, filter_app. simpl.
  destruct (eqb k (key x)) eqn:E.
  - apply eqb_eq in E. subst k. now rewrite IH.
  - now rewrite IH, app_nil_r.
Qed.

Lemma groupBy_keys_NoDup (l : list V) : NoDup (map fst (groupBy eqb key l)).
Proof.
  rewrite groupBy_keys. apply (fold_setAdd_NoDup eqb eqb_eq). constructor.
Qed.

Lemma groupBy_keys_In (k : K) (l : list V) :
  In k (map fst (groupBy eqb key l)) <-> exists x, In x l /\ key x = k.
Proof.
  rewrite groupBy_keys, (fold_setAdd_In eqb eqb_eq), in_map_iff. split.
  - intros [[] | [x [Hk Hx]]]. eauto.
  - intros [x [Hx Hk]]. right. eauto.
Qed.

(** Every group is the non-empty list of the elements with its key. *)
Lemma groupBy_entry (k : K) (vs : list V) (l : list V) :
  In (k, vs) (groupBy eqb key l) ->
  vs = filter (fun x => eqb k (key x)) l /\ vs <> [].
Proof.
  intro Hin.
  assert (Hvs : vs = filter (fun x => eqb k (key x)) l).
  { rewrite <- getOrEmpty_groupBy. symmetry.
    apply (@getOrEmpty_In K eqb eqb_eq V k vs _ (groupBy_keys_NoDup l) Hin). }
  split; [exact Hvs |].
  assert (Hk : In k (map fst (groupBy eqb key l)))
    by now apply (in_map fst) in Hin.
  apply groupBy_keys_In in Hk as [x [Hx Hkx]].
  assert (Hf : In x (filter (fun y => eqb k (key y)) l)).
  { apply filter_In. split; [exact Hx |]. apply eqb_eq. now symmetry. }
  rewrite <- Hvs in Hf. intros ->. contradiction.
Qed.

Lemma push_concat (k : K) (v : V) (m : list (K * list V)) :
  Permutation (concat (map snd (push eqb k v m))) (v :: concat (map snd m)).
Proof.
  induction m as [| [k' vs] rest IH]; simpl; [reflexivity |].
  destruct (eqb k k'); simpl.
  - rewrite <- app_assoc. simpl.
    symmetry. rewrite app_comm_cons. apply Permutation_sym.
    rewrite <- Permutation_middle. reflexivity.
  - rewrite IH. symmetry. apply Permutation_middle.
Qed.

(** The groups partition the input. *)
Lemma groupBy_concat (l : list V) :
  Permutation (concat (map snd (groupBy eqb key l))) l.
Proof.
  induction l as [| x l IH] using rev_ind; [reflexivity |].
  rewrite groupBy_snoc, push_concat, IH.
  apply Permutation_cons_append.
Qed.
End Grouping.

(** ** Further properties of the network classifier *)

Lemma sum_nonneg (xs : list Q) : (forall x, In x xs -> 0 <= x) -> 0 <= sum xs.
Proof.
  induction xs as [| x t IH]; intro H.
  - unfold sum. simpl. lra.
  - rewrite sum_cons.
    assert (0 <= x) by (apply H; now left).
    assert (0 <= sum t) by (apply IH; intros y Hy; apply H; now right).
    lra.
Qed.


Lemma sorted_nth_le (s : list Q) (i j : nat) :
  StronglySorted Qle s -> (i <= j)%nat -> (j < length s)%nat ->
  nth i s 0 <= nth j s 0.
Proof.
  intro Hs. revert i j.
  induction Hs as [| x t Hs IH Hall]; intros i j Hij Hj; simpl in Hj; [lia |].
  destruct i as [| i], j as [| j]; simpl; try lia.
  - lra.
  - rewrite Forall_forall in Hall. apply Hall, nth_In. lia.
  - apply IH; lia.
Qed.

Lemma sortAscending_strongly_sorted (xs : list Q) :
  StronglySorted Qle (sortAscending xs).
Proof.
  apply Sorted_StronglySorted; [| apply sortAscending_sorted].
  intros x y z. apply Qle_trans.
Qed.

(** X1.  In every non-empty history the three order statistics that
    [detectNetworkType] and [calculatePacketLossIndicator] read off the
    ascending sort are ordered: Q1 (index [n/4]) is at most the median
    (index [n/2]), which is at most Q3 (index [3n/4]); so the IQR is never
    negative. *)
Theorem quartiles_ordered (h : list Q) :
  h <> [] ->
  let n := length h in
  let sorted := sortAscending h in
  nth (n / 4) sorted 0 <= nth (n / 2) sorted 0
  /\ nth (n / 2) sorted 0 <= nth (3 * n / 4) sorted 0
  /\ 0 <= at_index sorted (Math_floor (Qnat (length sorted) * (75 # 100)))
          - at_index sorted (Math_floor (Qnat (length sorted) * (25 # 100))).
Proof.
  intros Hne n sorted.
  assert (Hn : (0 < n)%nat)
    by (subst n; destruct h; [contradiction | simpl; lia]).
  pose proof (sortAscending_strongly_sorted h) as Hs. fold sorted in Hs.
  assert (Hlen : length sorted = n) by apply sortAscending_length.
  destruct (quartile_indices_in_range Hn) as [H2 [H4 H34]].
  pose proof (Nat.div_mod_eq n 4) as E4.
  pose proof (Nat.mod_upper_bound n 4) as B4.
  pose proof (Nat.div_mod_eq n 2) as E2.
  pose proof (Nat.mod_upper_bound n 2) as B2.
  pose proof (Nat.div_mod_eq (3 * n) 4) as E34.
  pose proof (Nat.mod_upper_bound (3 * n) 4) as B34.
  assert (H12 : (n / 4 <= n / 2)%nat) by lia.
  assert (H23 : (n / 2 <= 3 * n / 4)%nat) by lia.
  assert (A : nth (n / 4) sorted 0 <= nth (n / 2) sorted 0)
    by (apply sorted_nth_le; [exact Hs | exact H12 | lia]).
  assert (B : nth (n / 2) sorted 0 <= nth (3 * n / 4) sorted 0)
    by (apply sorted_nth_le; [exact Hs | exact H23 | lia]).
  split; [exact A |]. split; [exact B |].
  unfold at_index. rewrite floor_quarter, floor_three_quarters, Hlen.
  lra.
Qed.

Lemma quartiles_ordered_witness :
  wifiLikeHistory <> []
  /\ nth (length wifiLikeHistory / 4) (sortAscending wifiLikeHistory) 0
     <= nth (length wifiLikeHistory / 2) (sortAscending wifiLikeHistory) 0.
Proof.
  assert (Hne : wifiLikeHistory <> []) by discriminate.
  split; [exact Hne |].
  exact (proj1 (@quartiles_ordered wifiLikeHistory Hne)).
Defined.

Section ClassifierScores.
Variable Math_sqrt : Q -> Q.

(** X2.  On samples within the safe range, [calculateNetworkQuality],
    [calculateConnectionStability] and [calculatePacketLossIndicator]
    return a value in [0,100], for a history of any length and any
    timeout threshold, whatever [Math.sqrt] returns: each one clamps.
    (Beyond that range a sum of doubles can overflow and the clamp of
    [calculateConnectionStability] can return NaN.) *)
Theorem clamped_scores_in_range (h : list Q) (timeoutThreshold : Q) :
  safeSamples h ->
  0 <= NetworkIntelligence.calculateNetworkQuality Math_sqrt h <= 100
  /\ 0 <= NetworkIntelligence.calculateConnectionStability Math_sqrt h <= 100
  /\ 0 <= NetworkIntelligence.calculatePacketLossIndicator h timeoutThreshold
     <= 100.
Proof.
  intros _.
  split; [apply calculateNetworkQuality_range |].
  split; [apply calculateConnectionStability_range
         | apply calculatePacketLossIndicator_range].
Qed.

(** X3.  As the network-analysis endpoint calls it, with [totalProbes]
    the number of measurements, [analyzeNetwork] returns all four scores
    (quality, stability, packet loss, reliability) in [0,100] when the
    RTTs of the measurements are within the safe range. *)
Theorem networkAnalysis_scores_in_range (measurements : list RTTMeasurement.t) :
  safeSamples (map RTTMeasurement.rtt measurements) ->
  let r := Api.networkAnalysis Math_sqrt measurements in
  0 <= NetworkAnalysis.networkQuality r <= 100
  /\ 0 <= NetworkAnalysis.connectionStability r <= 100
  /\ 0 <= NetworkAnalysis.packetLossIndicator r <= 100
  /\ 0 <= NetworkAnalysis.connectionReliability r <= 100.
Proof.
  intros _.
  cbv zeta. unfold Api.networkAnalysis, NetworkIntelligence.analyzeNetwork.
  cbv zeta.
  cbn [NetworkAnalysis.networkQuality NetworkAnalysis.connectionStability
       NetworkAnalysis.packetLossIndicator NetworkAnalysis.connectionReliability].
  split; [apply calculateNetworkQuality_range |].
  split; [apply calculateConnectionStability_range |].
  split; [apply calculatePacketLossIndicator_range |].
  apply calculateConnectionReliability_range.
  apply Nat2Z.inj_le.
  etransitivity; [apply filter_length_le | now rewrite length_map].
Qed.

End ClassifierScores.

Lemma wifiLikeHistory_safe : safeSamples wifiLikeHistory.
Proof.
  intros rtt Hin. unfold wifiLikeHistory in Hin. cbn [In] in Hin.
  repeat (destruct Hin as [<- | Hin]; [split; vm_compute; discriminate |]).
  contradiction.
Defined.

Lemma clamped_scores_in_range_witness :
  safeSamples wifiLikeHistory
  /\ 0 <= NetworkIntelligence.calculateConnectionStability approxSqrt
            wifiLikeHistory <= 100.
Proof.
  split; [exact wifiLikeHistory_safe |].
  exact (proj1 (proj2 (@clamped_scores_in_range approxSqrt wifiLikeHistory
                         NetworkIntelligence.default_timeoutThreshold
                         wifiLikeHistory_safe))).
Defined.

Lemma fourSamples_safe : safeSamples (map RTTMeasurement.rtt fourSamples).
Proof.
  intros rtt Hin. vm_compute in Hin.
  repeat (destruct Hin as [<- | Hin]; [split; vm_compute; discriminate |]).
  contradiction.
Defined.

Lemma networkAnalysis_scores_in_range_witness :
  safeSamples (map RTTMeasurement.rtt fourSamples)
  /\ 0 <= NetworkAnalysis.connectionReliability
            (Api.networkAnalysis approxSqrt fourSamples) <= 100.
Proof.
  split; [exact fourSamples_safe |].
  exact (proj2 (proj2 (proj2
    (@networkAnalysis_scores_in_range approxSqrt fourSamples
       fourSamples_safe)))).
Defined.


Lemma Math_min_upper_r (a b : Q) : Math_min a b <= b.
Proof.
  unfold Math_min. destruct (Qle_bool a b) eqn:E; [| lra].
  now apply Qle_bool_iff.
Qed.

Lemma sum_all_zero (xs : list Q) : (forall x, In x xs -> x == 0) -> sum xs == 0.
Proof.
  induction xs as [| x t IH]; intro H; [reflexivity |].
  rewrite sum_cons, (H x (or_introl eq_refl)), IH; [lra |].
  intros y Hy. apply H. now right.
Qed.

Lemma Qnat_S (n : nat) : Qnat (S n) == Qnat n + 1.
Proof.
  unfold Qnat. rewrite Nat2Z.inj_succ, <- Z.add_1_r, inject_Z_plus.
  reflexivity.
Qed.

(** X5.  [calculateVariance] is never negative: it is a mean of squares
    (0 on the empty history). *)
Theorem calculateVariance_nonneg (h : list Q) :
  0 <= NetworkIntelligence.calculateVariance h.
Proof.
  unfold NetworkIntelligence.calculateVariance.
  destruct (Nat.eqb_spec (length h) 0) as [_ | Hlen]; [lra |]. cbv zeta.
  apply Qle_shift_div_l; [apply Qnat_pos; lia |]. rewrite Qmult_0_l.
  apply sum_nonneg. intros x Hx. apply in_map_iff in Hx as [v [<- _]].
  generalize (v - sum h / Qnat (length h)). intro d. nra.
Qed.

Lemma filter_all (A : Type) (p : A -> bool) (l : list A) :
  (forall x, In x l -> p x = true) -> filter p l = l.
Proof.
  induction l as [| x t IH]; intro H; [reflexivity |]. simpl.
  rewrite (H x (or_introl eq_refl)), IH; [reflexivity |].
  intros y Hy. apply H. now right.
Qed.

Lemma filter_none (A : Type) (p : A -> bool) (l : list A) :
  (forall x, In x l -> p x = false) -> filter p l = [].
Proof.
  induction l as [| x t IH]; intro H; [reflexivity |]. simpl.
  rewrite (H x (or_introl eq_refl)). apply IH.
  intros y Hy. apply H. now right.
Qed.

(** X7.  [calculatePacketLossIndicator] saturates: on a history of at
    least 5 samples that all exceed the timeout threshold (a threshold
    that is not negative) every sample is an outlier and the indicator is
    100. *)
Theorem packetLoss_saturates (h : list Q) (timeoutThreshold : Q) :
  (5 <= length h)%nat ->
  0 <= timeoutThreshold ->
  (forall rtt, In rtt h -> timeoutThreshold < rtt) ->
  NetworkIntelligence.calculatePacketLossIndicator h timeoutThreshold == 100.
Proof.
  intros Hlen Hpositive Habove.
  assert (Hall : forall rtt, In rtt h -> timeoutThreshold * (8 # 10) < rtt).
  { intros rtt Hin. pose proof (Habove rtt Hin). lra. }
  unfold NetworkIntelligence.calculatePacketLossIndicator.
  pose proof Hlen as Hge. apply Nat.ltb_ge in Hge. rewrite Hge. cbv zeta.
  rewrite filter_all.
  2:{ intros x Hx. apply orb_true_iff. right. apply Qgt_bool_iff. now apply Hall. }
  assert (Hpos : 0 < Qnat (length h)) by (apply Qnat_pos; lia).
  assert (Hrate : Qnat (length h) / Qnat (length h) * 100 * 10 == 1000)
    by (field; lra).
  pose proof (@Math_round_bounds 1000 1000
                (Qnat (length h) / Qnat (length h) * 100 * 10)) as Hr.
  change (inject_Z 1000) with 1000 in Hr.
  assert (Hround : 1000 <= Math_round
                     (Qnat (length h) / Qnat (length h) * 100 * 10) <= 1000)
    by (apply Hr; rewrite Hrate; lra).
  unfold Math_min.
  destruct (Qle_bool 100 (Math_round _)) eqn:E; [reflexivity |].
  assert (Hlt : Qlt_bool (Math_round
                 (Qnat (length h) / Qnat (length h) * 100 * 10)) 100 = true)
    by (unfold Qlt_bool; now rewrite E).
  apply Qlt_bool_iff in Hlt. lra.
Qed.

Lemma packetLoss_saturates_witness :
  (5 <= length (repeat (12000 : Q) 5))%nat
  /\ 0 <= NetworkIntelligence.default_timeoutThreshold
  /\ NetworkIntelligence.calculatePacketLossIndicator (repeat 12000 5)
       NetworkIntelligence.default_timeoutThreshold == 100.
Proof.
  assert (Hlen : (5 <= length (repeat (12000 : Q) 5))%nat) by (vm_compute; lia).
  assert (Hpositive : 0 <= NetworkIntelligence.default_timeoutThreshold)
    by discriminate.
  split; [exact Hlen |]. split; [exact Hpositive |].
  apply (@packetLoss_saturates (repeat 12000 5)
           NetworkIntelligence.default_timeoutThreshold Hlen Hpositive).
  intros rtt Hin. apply repeat_spec in Hin. subst rtt. reflexivity.
Defined.

(** X8.  On a steady history, at least 5 samples that are all the same
    value, no higher than 0.8 times the timeout threshold, the upper
    fence is that value and [calculatePacketLossIndicator] returns 0. *)
Theorem packetLoss_zero_on_steady (h : list Q) (timeoutThreshold c : Q) :
  (5 <= length h)%nat ->
  (forall rtt, In rtt h -> rtt == c) ->
  c <= timeoutThreshold * (8 # 10) ->
  NetworkIntelligence.calculatePacketLossIndicator h timeoutThreshold == 0.
Proof.
  intros Hlen Hall Hc.
  unfold NetworkIntelligence.calculatePacketLossIndicator.
  pose proof Hlen as Hge. apply Nat.ltb_ge in Hge. rewrite Hge. cbv zeta.
  unfold at_index.
  rewrite sortAscending_length, floor_quarter, floor_three_quarters.
  assert (Hn : (0 < length h)%nat) by lia.
  destruct (quartile_indices_in_range Hn) as [_ [H4 H34]].
  assert (Hnth : forall i, (i < length h)%nat ->
            nth i (sortAscending h) 0 == c).
  { intros i Hi. apply Hall.
    apply (Permutation_in _ (sortAscending_perm h)), nth_In.
    now rewrite sortAscending_length. }
  pose proof (Hnth _ H4) as Hq1. pose proof (Hnth _ H34) as Hq3.
  rewrite filter_none.
  2:{ intros x Hx. pose proof (Hall x Hx) as Hxc.
      apply orb_false_iff. split; apply Qlt_bool_false_iff; lra. }
  set (y := Qnat (length []) / Qnat (length h) * 100 * 10).
  assert (Hy : y == 0).
  { unfold y. change (Qnat (length (@nil Q))) with 0. unfold Qdiv. ring. }
  pose proof (@Math_round_bounds 0 0 y) as Hr.
  change (inject_Z 0) with 0 in Hr.
  assert (Hround : 0 <= Math_round y <= 0) by (apply Hr; rewrite Hy; lra).
  pose proof (Math_min_upper_r 100 (Math_round y)).
  assert (0 <= Math_min 100 (Math_round y)) by (apply Math_min_lower; lra).
  lra.
Qed.

Lemma packetLoss_zero_on_steady_witness :
  (5 <= length (repeat (120 : Q) 8))%nat
  /\ NetworkIntelligence.calculatePacketLossIndicator (repeat 120 8)
       NetworkIntelligence.default_timeoutThreshold == 0.
Proof.
  assert (Hlen : (5 <= length (repeat (120 : Q) 8))%nat) by (vm_compute; lia).
  split; [exact Hlen |].
  apply (@packetLoss_zero_on_steady (repeat 120 8)
           NetworkIntelligence.default_timeoutThreshold 120 Hlen).
  - intros rtt Hin. apply repeat_spec in Hin. now subst rtt.
  - discriminate.
Defined.




(** ** Further properties of the activity patterns *)

Lemma getDay_range (e : Env) (timestamp : Z) : (0 <= getDay e timestamp < 7)%Z.
Proof. unfold getDay. apply Z.mod_pos_bound. lia. Qed.

Lemma list_sum_map_add (A : Type) (f g : A -> nat) (l : list A) :
  list_sum (map (fun x => (f x + g x)%nat) l)
  = (list_sum (map f l) + list_sum (map g l))%nat.
Proof. induction l as [| x t IH]; simpl; lia. Qed.

Lemma indicator_sum_from (a : Z) (n start : nat) :
  list_sum (map (fun i => if Z.eqb (Z.of_nat i) a then 1 else 0)%nat (seq start n))
  = if ((Z.of_nat start <=? a) && (a <? Z.of_nat (start + n)))%Z then 1%nat
    else 0%nat.
Proof.
  revert start. induction n as [| n IH]; intro start; simpl.
  - destruct (Z.leb_spec (Z.of_nat start) a), (Z.ltb_spec a (Z.of_nat (start + 0)));
      simpl; try reflexivity; lia.
  - rewrite IH.
    destruct (Z.eqb_spec (Z.of_nat start) a),
             (Z.leb_spec (Z.of_nat (S start)) a),
             (Z.ltb_spec a (Z.of_nat (S start + n))),
             (Z.leb_spec (Z.of_nat start) a),
             (Z.ltb_spec a (Z.of_nat (start + S n))); simpl; try reflexivity; lia.
Qed.

(** Counting a list by a key that ranges over [0, n) loses nothing. *)
Lemma bucket_counts_total (V : Type) (k : V -> Z) (n : nat) (l : list V) :
  (forall x, In x l -> (0 <= k x < Z.of_nat n)%Z) ->
  list_sum (map (fun i => length (filter (fun x => Z.eqb i (k x)) l))
                (arrayFrom n (fun i => i)))
  = length l.
Proof.
  unfold arrayFrom. rewrite map_map.
  induction l as [| x t IH]; intro Hrange; simpl.
  - induction (seq 0 n) as [| i r IHr]; simpl; [reflexivity | exact IHr].
  - rewrite <- IH by (intros y Hy; apply Hrange; now right).
    rewrite (map_ext
      (fun i => length (if Z.eqb (Z.of_nat i) (k x)
                        then x :: filter (fun y => Z.eqb (Z.of_nat i) (k y)) t
                        else filter (fun y => Z.eqb (Z.of_nat i) (k y)) t))
      (fun i => ((if Z.eqb (Z.of_nat i) (k x) then 1 else 0)
                 + length (filter (fun y => Z.eqb (Z.of_nat i) (k y)) t))%nat)).
    2:{ intro i. now destruct (Z.eqb (Z.of_nat i) (k x)). }
    rewrite list_sum_map_add, indicator_sum_from.
    pose proof (Hrange x (or_introl eq_refl)) as Hx.
    destruct (Z.leb_spec (Z.of_nat 0) (k x)), (Z.ltb_spec (k x) (Z.of_nat (0 + n)));
      simpl; try reflexivity; lia.
Qed.

Lemma hourCount_filter (e : Env) (ms : list RTTMeasurement.t) (hour : Z) :
  length (filter (fun m => Z.eqb hour (getHours e (RTTMeasurement.timestamp m))) ms)
  = hourCount e ms hour.
Proof.
  unfold hourCount. f_equal. apply filter_ext. intro m. apply Z.eqb_sym.
Qed.

Lemma dayCount_filter (e : Env) (ms : list RTTMeasurement.t) (day : Z) :
  length (filter (fun m => Z.eqb day (getDay e (RTTMeasurement.timestamp m))) ms)
  = dayCount e ms day.
Proof.
  unfold dayCount. f_equal. apply filter_ext. intro m. apply Z.eqb_sym.
Qed.

(** X10.  On a non-empty input the daily pattern carries, for each hour 0
    to 23, the number of measurements in that hour, and the weekly
    pattern, for each day 0 to 6, the number on that day; each of the two
    lists of counts adds up to the number of measurements: every
    measurement is counted once per view. *)
Theorem pattern_counts (e : Env) (measurements : list RTTMeasurement.t) :
  measurements <> [] ->
  let r := AnalyticsEngine.analyzeActivityPatterns e measurements in
  map DailyPattern.avgActivity (ActivityPatterns.daily r)
  = arrayFrom 24 (hourCount e measurements)
  /\ map WeeklyPattern.avgActivity (ActivityPatterns.weekly r)
     = arrayFrom 7 (dayCount e measurements)
  /\ list_sum (map DailyPattern.avgActivity (ActivityPatterns.daily r))
     = length measurements
  /\ list_sum (map WeeklyPattern.avgActivity (ActivityPatterns.weekly r))
     = length measurements.
Proof.
  intros Hne r. subst r.
  unfold AnalyticsEngine.analyzeActivityPatterns.
  destruct measurements as [| m0 ms0] eqn:E; [contradiction |].
  rewrite <- E. clear Hne.
  replace (Nat.eqb (length measurements) 0) with false by (now rewrite E).
  cbv zeta. cbn [ActivityPatterns.daily ActivityPatterns.weekly].
  rewrite !arrayFrom_map. cbn [DailyPattern.avgActivity WeeklyPattern.avgActivity].
  assert (Hd : arrayFrom 24 (fun i =>
             length (getOrEmpty Z.eqb i
               (groupBy Z.eqb (fun m => getHours e (RTTMeasurement.timestamp m))
                  measurements)))
           = arrayFrom 24 (hourCount e measurements)).
  { unfold arrayFrom. apply map_ext. intro i.
    now rewrite (getOrEmpty_groupBy Z.eqb Z.eqb_eq), hourCount_filter. }
  assert (Hw : arrayFrom 7 (fun i =>
             length (getOrEmpty Z.eqb i
               (groupBy Z.eqb (fun m => getDay e (RTTMeasurement.timestamp m))
                  measurements)))
           = arrayFrom 7 (dayCount e measurements)).
  { unfold arrayFrom. apply map_ext. intro i.
    now rewrite (getOrEmpty_groupBy Z.eqb Z.eqb_eq), dayCount_filter. }
  rewrite Hd, Hw. split; [reflexivity |]. split; [reflexivity |]. split.
  - rewrite <- (bucket_counts_total
                  (fun m => getHours e (RTTMeasurement.timestamp m)) 24
                  measurements)
      by (intros x _; apply getHours_range).
    unfold arrayFrom. rewrite !map_map. f_equal. apply map_ext. intro i.
    symmetry. apply hourCount_filter.
  - rewrite <- (bucket_counts_total
                  (fun m => getDay e (RTTMeasurement.timestamp m)) 7
                  measurements)
      by (intros x _; apply getDay_range).
    unfold arrayFrom. rewrite !map_map. f_equal. apply map_ext. intro i.
    symmetry. apply dayCount_filter.
Qed.

Lemma pattern_counts_witness :
  busyDay <> []
  /\ list_sum (map DailyPattern.avgActivity
                (ActivityPatterns.daily
                   (AnalyticsEngine.analyzeActivityPatterns (utcAt 0) busyDay)))
     = length busyDay.
Proof.
  assert (Hne : busyDay <> []) by discriminate.
  split; [exact Hne |].
  exact (proj1 (proj2 (proj2 (@pattern_counts (utcAt 0) busyDay Hne)))).
Defined.

Lemma percent_range (a b : nat) :
  (a <= b)%nat -> (0 < b)%nat -> 0 <= Qnat a / Qnat b * 100 <= 100.
Proof.
  intros Hab Hb.
  pose proof (Qnat_pos Hb) as Hpos. pose proof (Qnat_nonneg a) as Ha.
  pose proof (Qnat_le Hab) as Hle.
  assert (H : 0 <= Qnat a / Qnat b <= 1).
  { split.
    - apply Qle_shift_div_l; [exact Hpos | lra].
    - apply Qle_shift_div_r; [exact Hpos | lra]. }
  lra.
Qed.

Lemma guarded_percent_range (online all : nat) :
  (online <= all)%nat ->
  0 <= (if Nat.ltb 0 all then Qnat online / Qnat all * 100 else 0) <= 100.
Proof.
  intro H. destruct (Nat.ltb_spec 0 all); [now apply percent_range | lra].
Qed.

Lemma key_eqb_eq (a b : Z * Z) : AnalyticsEngine.key_eqb a b = true <-> a = b.
Proof.
  unfold AnalyticsEngine.key_eqb. destruct a as [a1 a2], b as [b1 b2]. simpl.
  rewrite andb_true_iff, !Z.eqb_eq. split; [intros [-> ->] | intros [= -> ->]]; auto.
Qed.

(** X11.  Every percentage the activity patterns report lies in [0,100]:
    the online percentage of each daily and weekly entry and the activity
    level of each heatmap entry, on every input. *)
Theorem pattern_percentages_in_range (e : Env)
    (measurements : list RTTMeasurement.t) :
  let r := AnalyticsEngine.analyzeActivityPatterns e measurements in
  (forall d, In d (ActivityPatterns.daily r) ->
     0 <= DailyPattern.onlinePercentage d <= 100)
  /\ (forall w, In w (ActivityPatterns.weekly r) ->
        0 <= WeeklyPattern.onlinePercentage w <= 100)
  /\ (forall a, In a (ActivityPatterns.heatmap r) ->
        0 <= ActivityPattern.activityLevel a <= 100).
Proof.
  cbv zeta. unfold AnalyticsEngine.analyzeActivityPatterns.
  destruct (Nat.eqb (length measurements) 0).
  { simpl. repeat split; contradiction. }
  cbv zeta.
  cbn [ActivityPatterns.daily ActivityPatterns.weekly ActivityPatterns.heatmap].
  split; [| split].
  - intros d Hd. unfold arrayFrom in Hd.
    apply in_map_iff in Hd as [i [<- _]]. cbn [DailyPattern.onlinePercentage].
    apply guarded_percent_range, filter_length_le.
  - intros w Hw. unfold arrayFrom in Hw.
    apply in_map_iff in Hw as [i [<- _]]. cbn [WeeklyPattern.onlinePercentage].
    apply guarded_percent_range, filter_length_le.
  - intros a Ha. apply in_map_iff in Ha as [[[day hour] data] [<- Hin]].
    cbn [ActivityPattern.activityLevel].
    apply (groupBy_entry AnalyticsEngine.key_eqb key_eqb_eq) in Hin
      as [_ Hdata].
    apply percent_range; [apply filter_length_le |].
    destruct data; [contradiction | simpl; lia].
Qed.

(** X12.  The heatmap is sparse and exact: it has one entry per (day,
    hour) pair in which a measurement falls, no pair twice; an entry's
    day is in 0..6, its hour in 0..23 and its [measurementCount] is the
    (positive) number of measurements in that pair; and the counts add up
    to the number of measurements. *)
Theorem heatmap_entries (e : Env) (measurements : list RTTMeasurement.t) :
  let heatmap :=
    ActivityPatterns.heatmap
      (AnalyticsEngine.analyzeActivityPatterns e measurements) in
  NoDup (map (fun a => (ActivityPattern.day a, ActivityPattern.hour a)) heatmap)
  /\ (forall a, In a heatmap ->
        (0 <= ActivityPattern.day a < 7)%Z
        /\ (0 <= ActivityPattern.hour a < 24)%Z
        /\ (0 < ActivityPattern.measurementCount a)%nat
        /\ ActivityPattern.measurementCount a
           = cellCount e measurements (ActivityPattern.day a)
               (ActivityPattern.hour a))
  /\ (forall day hour,
        (0 < cellCount e measurements day hour)%nat ->
        exists a, In a heatmap /\ ActivityPattern.day a = day
                  /\ ActivityPattern.hour a = hour)
  /\ list_sum (map ActivityPattern.measurementCount heatmap)
     = length measurements.
Proof.
  cbv zeta. unfold AnalyticsEngine.analyzeActivityPatterns.
  destruct (Nat.eqb_spec (length measurements) 0) as [Hemp | Hne].
  { apply length_zero_iff_nil in Hemp. subst. simpl.
    split; [constructor |]. split; [contradiction |].
    split; [| reflexivity]. intros day hour H. unfold cellCount in H.
    simpl in H. lia. }
  cbv zeta. cbn [ActivityPatterns.heatmap].
  set (keyOf := fun m : RTTMeasurement.t =>
                  (getDay e (RTTMeasurement.timestamp m),
                   getHours e (RTTMeasurement.timestamp m))).
  set (groups := groupBy AnalyticsEngine.key_eqb keyOf measurements).
  set (entryOf := fun entry : Z * Z * list RTTMeasurement.t => _).
  assert (Hkey : forall entry,
            (ActivityPattern.day (entryOf entry),
             ActivityPattern.hour (entryOf entry)) = fst entry).
  { now intros [[day hour] data]. }
  assert (Hcount : forall entry,
            ActivityPattern.measurementCount (entryOf entry)
            = length (snd entry)).
  { now intros [[day hour] data]. }
  assert (Hcell : forall day hour,
            length (filter (fun m => AnalyticsEngine.key_eqb (day, hour) (keyOf m))
                           measurements)
            = cellCount e measurements day hour).
  { intros day hour. unfold cellCount. f_equal. apply filter_ext. intro m.
    unfold AnalyticsEngine.key_eqb, keyOf. simpl.
    now rewrite (Z.eqb_sym day), (Z.eqb_sym hour). }
  split; [| split; [| split]].
  - rewrite map_map.
    rewrite (map_ext _ fst Hkey).
    apply (groupBy_keys_NoDup AnalyticsEngine.key_eqb key_eqb_eq).
  - intros a Ha. apply in_map_iff in Ha as [[[day hour] data] [<- Hin]].
    cbn [entryOf ActivityPattern.day ActivityPattern.hour
         ActivityPattern.measurementCount].
    pose proof (in_map fst _ _ Hin) as Hk. simpl in Hk.
    apply (groupBy_keys_In AnalyticsEngine.key_eqb key_eqb_eq) in Hk
      as [x [_ Hx]].
    unfold keyOf in Hx. injection Hx as <- <-.
    apply (groupBy_entry AnalyticsEngine.key_eqb key_eqb_eq) in Hin
      as [Hdata Hnonempty].
    split; [apply getDay_range |]. split; [apply getHours_range |].
    split; [destruct data; [contradiction | simpl; lia] |].
    now rewrite Hdata, Hcell.
  - intros day hour Hpos. rewrite <- Hcell in Hpos.
    destruct (filter (fun m => AnalyticsEngine.key_eqb (day, hour) (keyOf m))
                     measurements) as [| x rest] eqn:Ef; [simpl in Hpos; lia |].
    assert (Hx : In x (x :: rest)) by now left.
    rewrite <- Ef in Hx. apply filter_In in Hx as [Hx Hkx].
    apply key_eqb_eq in Hkx.
    assert (Hk : In (day, hour) (map fst groups)).
    { apply (groupBy_keys_In AnalyticsEngine.key_eqb key_eqb_eq). eauto. }
    apply in_map_iff in Hk as [[[d h] data] [Hfst Hin]]. simpl in Hfst.
    injection Hfst as -> ->.
    exists (entryOf ((day, hour), data)). split; [| split; reflexivity].
    now apply in_map.
  - rewrite map_map. rewrite (map_ext _ (fun entry => length (snd entry)) Hcount).
    rewrite <- (Permutation_length
                  (groupBy_concat AnalyticsEngine.key_eqb keyOf measurements)).
    fold groups. clearbody groups. clear.
    induction groups as [| g rest IH]; simpl; [reflexivity |].
    now rewrite length_app, IH.
Qed.

(** ** State durations and transition counts *)








Section StateDurationTotals.
Variable Math_sqrt : Q -> Q.

End StateDurationTotals.


(** Sorting by a key without duplicates gives one result for every
    arrangement of the same elements. *)
Lemma same_key_same_element (A : Type) (key : A -> Z) (l : list A) (x y : A) :
  NoDup (map key l) -> In x l -> In y l -> key x = key y -> x = y.
Proof.
  induction l as [| a l IH]; [intros _ [] |].
  cbn [map]. intros Hnd Hx Hy Hk. inversion Hnd as [| ? ? Ha Hl]; subst.
  destruct Hx as [-> | Hx], Hy as [-> | Hy].
  - reflexivity.
  - exfalso. apply Ha. rewrite Hk. now apply in_map.
  - exfalso. apply Ha. rewrite <- Hk. now apply in_map.
  - now apply IH.
Qed.

Lemma sorted_by_key_unique (A : Type) (key : A -> Z) (s s' : list A) :
  StronglySorted (fun a b => Z.leb (key a) (key b) = true) s ->
  StronglySorted (fun a b => Z.leb (key a) (key b) = true) s' ->
  NoDup (map key s) -> Permutation s s' -> s = s'.
Proof.
  intros Hs. revert s'.
  induction Hs as [| x t Ht IH Hx]; intros s' Hs' Hnd Hperm.
  - now apply Permutation_nil in Hperm.
  - destruct Hs' as [| y t' Ht' Hy].
    + apply Permutation_sym, Permutation_nil in Hperm. discriminate.
    + assert (Hxy : x = y).
      { assert (Hinx : In x (y :: t'))
          by (apply (Permutation_in _ Hperm); now left).
        assert (Hiny : In y (x :: t))
          by (apply (Permutation_in _ (Permutation_sym Hperm)); now left).
        destruct Hinx as [<- | Hinx]; [reflexivity |].
        destruct Hiny as [-> | Hiny]; [reflexivity |].
        rewrite Forall_forall in Hx, Hy.
        pose proof (Hx y Hiny) as H1. pose proof (Hy x Hinx) as H2.
        apply Z.leb_le in H1, H2.
        apply (@same_key_same_element _ key (x :: t) x y Hnd);
          [now left | now right | lia]. }
      subst y. f_equal.
      apply IH; [exact Ht' | now inversion Hnd |].
      now apply Permutation_cons_inv in Hperm.
Qed.

Lemma sort_by_key_perm (A : Type) (key : A -> Z) (l l' : list A) :
  NoDup (map key l) -> Permutation l l' ->
  sort (fun a b => Z.leb (key a) (key b)) l
  = sort (fun a b => Z.leb (key a) (key b)) l'.
Proof.
  intros Hnd Hperm. apply (sorted_by_key_unique key).
  - apply sort_strongly_sorted.
    + intros x y H. apply Z.leb_le. apply Z.leb_gt in H. lia.
    + intros x y z H1 H2. apply Z.leb_le. apply Z.leb_le in H1, H2. lia.
  - apply sort_strongly_sorted.
    + intros x y H. apply Z.leb_le. apply Z.leb_gt in H. lia.
    + intros x y z H1 H2. apply Z.leb_le. apply Z.leb_le in H1, H2. lia.
  - apply (@Permutation_NoDup _ (map key l)); [| exact Hnd].
    apply Permutation_map, Permutation_sym, sort_perm.
  - rewrite sort_perm. rewrite Hperm. symmetry. apply sort_perm.
Qed.

(** The transitions of one device form one group. *)
Lemma groupBy_one_device (device : string) (l : list StateTransition.t) :
  (forall t, In t l -> StateTransition.deviceJid t = device) -> l <> [] ->
  groupBy String.eqb StateTransition.deviceJid l = [(device, l)].
Proof.
  induction l as [| x l IH] using rev_ind; [contradiction |].
  intros Hall _. rewrite groupBy_snoc.
  rewrite (Hall x) by (apply in_or_app; right; now left).
  destruct l as [| y l'].
  - reflexivity.
  - rewrite IH; [| intros t Ht; apply Hall, in_or_app; now left | discriminate].
    cbn [push]. now rewrite String.eqb_refl.
Qed.

(** X14.  For the transitions of one device, with no timestamp twice,
    the state durations do not depend on the order in which the
    transitions are supplied: the sort by timestamp restores one
    sequence, so the same sums are formed in the same order and the
    results are identical. *)
Theorem stateDurations_order_independent (measurements : list RTTMeasurement.t)
    (transitions reordered : list StateTransition.t) (device : string) :
  Permutation transitions reordered ->
  (forall t, In t transitions -> StateTransition.deviceJid t = device) ->
  NoDup (map StateTransition.timestamp transitions) ->
  AnalyticsEngine.calculateStateDurations measurements transitions
  = AnalyticsEngine.calculateStateDurations measurements reordered.
Proof.
  intros Hperm Hdevice Hnd.
  destruct transitions as [| t0 rest] eqn:E.
  { apply Permutation_nil in Hperm. now subst. }
  rewrite <- E in *.
  assert (Hne : transitions <> []) by (rewrite E; discriminate).
  assert (Hne' : reordered <> []).
  { intros ->. apply Permutation_sym, Permutation_nil in Hperm.
    contradiction. }
  assert (Hdevice' : forall t, In t reordered ->
                       StateTransition.deviceJid t = device).
  { intros t Ht. apply Hdevice.
    now apply (Permutation_in _ (Permutation_sym Hperm)). }
  unfold AnalyticsEngine.calculateStateDurations. cbv zeta.
  rewrite (groupBy_one_device Hdevice Hne),
          (groupBy_one_device Hdevice' Hne').
  cbn [fold_left snd].
  now rewrite (sort_by_key_perm StateTransition.timestamp Hnd Hperm).
Qed.

Lemma stateDurations_order_independent_witness :
  Permutation transitionsOfA (rev transitionsOfA)
  /\ AnalyticsEngine.calculateStateDurations fourSamples transitionsOfA
     = AnalyticsEngine.calculateStateDurations fourSamples
         (rev transitionsOfA).
Proof.
  assert (Hperm : Permutation transitionsOfA (rev transitionsOfA))
    by apply Permutation_rev.
  assert (Hdevice : forall t, In t transitionsOfA ->
                      StateTransition.deviceJid t = "A"%string).
  { intros t Ht. apply filter_In in Ht as [_ Ht]. now apply String.eqb_eq. }
  assert (Hnd : NoDup (map StateTransition.timestamp transitionsOfA)).
  { vm_compute. repeat constructor; cbn [In]; lia. }
  split; [exact Hperm |].
  exact (@stateDurations_order_independent fourSamples transitionsOfA
           (rev transitionsOfA) "A" Hperm Hdevice Hnd).
Defined.

Lemma exclusive_filters (A : Type) (p1 p2 p3 : A -> bool) (l : list A) :
  (forall x, p1 x && p2 x = false /\ p1 x && p3 x = false
             /\ p2 x && p3 x = false) ->
  (length (filter p1 l) + length (filter p2 l) + length (filter p3 l)
   <= length l)%nat.
Proof.
  intro Hex. induction l as [| x t IH]; simpl; [lia |].
  destruct (Hex x) as [H12 [H13 H23]].
  destruct (p1 x), (p2 x), (p3 x); simpl in *; try discriminate; lia.
Qed.

Section TransitionCounts.
Variable Math_sqrt : Q -> Q.

(** X15.  In the transition frequency of [performStatisticalAnalysis] the
    total is the number of transitions (0 when there is no measurement),
    and the sub-counts never overcount: Online-to-Standby,
    Standby-to-Online and to-OFFLINE transitions are disjoint, as are
    Online-to-Standby, Standby-to-Online and from-OFFLINE ones, so either
    triple adds up to at most the total. *)
Theorem transitionFrequency_counts (measurements : list RTTMeasurement.t)
    (transitions : list StateTransition.t) :
  let f := StatisticalAnalysis.transitionFrequency
             (AnalyticsEngine.performStatisticalAnalysis Math_sqrt measurements
                transitions) in
  TransitionFrequency.total f
  = (if Nat.eqb (length measurements) 0 then 0 else length transitions)%nat
  /\ (TransitionFrequency.onlineToStandby f
      + TransitionFrequency.standbyToOnline f
      + TransitionFrequency.toOffline f <= TransitionFrequency.total f)%nat
  /\ (TransitionFrequency.onlineToStandby f
      + TransitionFrequency.standbyToOnline f
      + TransitionFrequency.fromOffline f <= TransitionFrequency.total f)%nat.
Proof.
  cbv zeta. unfold AnalyticsEngine.performStatisticalAnalysis,
    AnalyticsEngine.performStatisticalAnalysisWith.
  destruct (Nat.eqb (length measurements) 0); [simpl; lia |].
  cbv zeta.
  cbn [StatisticalAnalysis.transitionFrequency TransitionFrequency.total
       TransitionFrequency.onlineToStandby TransitionFrequency.standbyToOnline
       TransitionFrequency.toOffline TransitionFrequency.fromOffline].
  split; [reflexivity |]. split; apply exclusive_filters; intro t;
    destruct (String.eqb_spec (StateTransition.fromState t) "Online") as [F1 | F1];
    destruct (String.eqb_spec (StateTransition.fromState t) "Standby") as [F2 | F2];
    destruct (String.eqb_spec (StateTransition.fromState t) "OFFLINE") as [F3 | F3];
    destruct (String.eqb_spec (StateTransition.toState t) "Online") as [T1 | T1];
    destruct (String.eqb_spec (StateTransition.toState t) "Standby") as [T2 | T2];
    destruct (String.eqb_spec (StateTransition.toState t) "OFFLINE") as [T3 | T3];
    simpl; repeat split; try reflexivity; congruence.
Qed.
End TransitionCounts.

(** ** Further properties of the behavioural insights *)

Lemma combine_map_r (A B : Type) (h : A -> B) (l : list A) :
  combine l (map h l) = map (fun i => (i, h i)) l.
Proof. induction l as [| x t IH]; simpl; [reflexivity | now rewrite IH]. Qed.

Lemma mapi_arrayFrom (A B : Type) (f : Z -> A -> B) (n : nat) (g : Z -> A) :
  AnalyticsEngine.mapi f (arrayFrom n g) = arrayFrom n (fun i => f i (g i)).
Proof.
  unfold AnalyticsEngine.mapi. rewrite arrayFrom_length. unfold arrayFrom.
  now rewrite combine_map_r, map_map.
Qed.

Lemma StronglySorted_app_l (A : Type) (R : A -> A -> Prop) (l1 l2 : list A) :
  StronglySorted R (l1 ++ l2) -> StronglySorted R l1.
Proof.
  induction l1 as [| a l1 IH]; simpl; intro Hs; [constructor |].
  apply StronglySorted_inv in Hs as [Hs Hall]. constructor; [now apply IH |].
  rewrite Forall_forall in *. intros x Hx. apply Hall, in_or_app. now left.
Qed.

(** The candidates the peak hours are chosen from: every hour with its
    count. *)
Lemma peak_candidates (e : Env) (ms : list RTTMeasurement.t) :
  ms <> [] ->
  AnalyticsEngine.mapi
    (fun hour d => PeakActivity.mk hour (DailyPattern.avgActivity d))
    (ActivityPatterns.daily (AnalyticsEngine.analyzeActivityPatterns e ms))
  = arrayFrom 24 (fun hour => PeakActivity.mk hour (hourCount e ms hour)).
Proof.
  intro Hne. unfold AnalyticsEngine.analyzeActivityPatterns.
  destruct ms as [| m0 ms0] eqn:E; [contradiction |]. rewrite <- E.
  replace (Nat.eqb (length ms) 0) with false by (now rewrite E).
  cbv zeta. cbn [ActivityPatterns.daily]. rewrite mapi_arrayFrom.
  cbn [DailyPattern.avgActivity]. unfold arrayFrom. apply map_ext. intro i.
  now rewrite (getOrEmpty_groupBy Z.eqb Z.eqb_eq), hourCount_filter.
Qed.

Section PeakHours.
Variable Math_sqrt : Q -> Q.

(** X16.  On a non-empty input [peakActivityTimes] has exactly five
    entries, for five different hours of the day, each with the number of
    measurements in its hour as activity, in descending order of
    activity; and no hour that is left out has more measurements than one
    that is listed. *)
Theorem peakActivityTimes_top_five (e : Env)
    (measurements : list RTTMeasurement.t)
    (transitions : list StateTransition.t)
    (sessionStartTime : Z) (sessionEndTime : option Z) :
  measurements <> [] ->
  let peaks :=
    BehavioralInsights.peakActivityTimes
      (AnalyticsEngine.generateBehavioralInsights Math_sqrt e measurements
         transitions sessionStartTime sessionEndTime) in
  length peaks = 5%nat
  /\ NoDup (map PeakActivity.hour peaks)
  /\ (forall p, In p peaks ->
        (0 <= PeakActivity.hour p < 24)%Z
        /\ PeakActivity.activity p = hourCount e measurements (PeakActivity.hour p))
  /\ StronglySorted
       (fun a b => (PeakActivity.activity b <= PeakActivity.activity a)%nat)
       peaks
  /\ (forall p hour, In p peaks -> (0 <= hour < 24)%Z ->
        ~ In hour (map PeakActivity.hour peaks) ->
        (hourCount e measurements hour <= PeakActivity.activity p)%nat).
Proof.
  intros Hne. cbv zeta.
  unfold AnalyticsEngine.generateBehavioralInsights.
  replace (Nat.eqb (length measurements) 0) with false
    by (destruct measurements; [contradiction | reflexivity]).
  cbv zeta. cbn [BehavioralInsights.peakActivityTimes].
  rewrite (peak_candidates e Hne).
  set (candidates := arrayFrom 24
         (fun hour => PeakActivity.mk hour (hourCount e measurements hour))).
  set (le := fun a b : PeakActivity.t =>
         Nat.leb (PeakActivity.activity b) (PeakActivity.activity a)).
  set (sorted := sort le candidates).
  assert (Hperm : Permutation sorted candidates) by apply sort_perm.
  assert (Hss : StronglySorted (fun u v => le u v = true) sorted).
  { apply sort_strongly_sorted; unfold le.
    - intros x y H. apply Nat.leb_gt in H. apply Nat.leb_le. lia.
    - intros x y z H1 H2. apply Nat.leb_le in H1, H2. apply Nat.leb_le. lia. }
  assert (Hlen : length sorted = 24%nat).
  { unfold sorted, candidates. now rewrite sort_length, arrayFrom_length. }
  clearbody sorted.
  assert (Hhours : map PeakActivity.hour candidates = AnalyticsEngine.hours0to23).
  { unfold candidates. now rewrite arrayFrom_map. }
  assert (Hall : forall p, In p candidates <->
            (0 <= PeakActivity.hour p < 24)%Z
            /\ PeakActivity.activity p
               = hourCount e measurements (PeakActivity.hour p)).
  { intro p. unfold candidates, arrayFrom. rewrite in_map_iff. split.
    - intros [i [<- Hi]]. apply in_seq in Hi. cbn [PeakActivity.hour
        PeakActivity.activity]. split; [lia | reflexivity].
    - intros [Hr Ha]. exists (Z.to_nat (PeakActivity.hour p)).
      rewrite Z2Nat.id by lia. split; [| apply in_seq; lia].
      destruct p as [hour activity]. cbn [PeakActivity.hour
        PeakActivity.activity] in *. now subst activity. }
  clearbody candidates.
  assert (Hsplit : sorted = firstn 5 sorted ++ skipn 5 sorted)
    by (symmetry; apply firstn_skipn).
  assert (Hnd : NoDup (map PeakActivity.hour sorted)).
  { apply (Permutation_NoDup (l := map PeakActivity.hour candidates)).
    - symmetry. apply Permutation_map. exact Hperm.
    - rewrite Hhours. apply hours0to23_NoDup. }
  assert (Hfirst : forall p, In p (firstn 5 sorted) -> In p sorted).
  { intros p Hp. rewrite Hsplit. apply in_or_app. left. exact Hp. }
  split; [| split; [| split; [| split]]].
  - rewrite length_firstn, Hlen. reflexivity.
  - rewrite Hsplit, map_app in Hnd. apply NoDup_app_remove_r in Hnd. exact Hnd.
  - intros p Hp. apply Hall. apply (Permutation_in _ Hperm). apply Hfirst.
    exact Hp.
  - rewrite Hsplit in Hss. apply StronglySorted_app_l in Hss.
    clear - Hss. induction Hss as [| a l Hs IH Hall]; constructor;
      [exact IH |].
    rewrite Forall_forall in *. intros x Hx. specialize (Hall x Hx).
    unfold le in Hall. apply Nat.leb_le in Hall. exact Hall.
  - intros p hour Hp Hrange Hout.
    assert (Hin : In (PeakActivity.mk hour (hourCount e measurements hour)) sorted).
    { apply (Permutation_in _ (Permutation_sym Hperm)). apply Hall.
      cbn [PeakActivity.hour PeakActivity.activity]. split; [exact Hrange |].
      reflexivity. }
    rewrite Hsplit in Hin. apply in_app_or in Hin as [Hin | Hin].
    + exfalso. apply Hout. apply (in_map PeakActivity.hour) in Hin. exact Hin.
    + rewrite Hsplit in Hss.
      pose proof (@StronglySorted_app_le _ _ _ _ Hss _ _ Hp Hin) as Hle.
      unfold le in Hle. cbn [PeakActivity.activity] in Hle.
      apply Nat.leb_le in Hle. exact Hle.
Qed.
End PeakHours.

Lemma peakActivityTimes_top_five_witness :
  busyDay <> []
  /\ length (BehavioralInsights.peakActivityTimes
               (AnalyticsEngine.generateBehavioralInsights approxSqrt (utcAt 0)
                  busyDay [] 0 None)) = 5%nat.
Proof.
  assert (Hne : busyDay <> []) by discriminate.
  split; [exact Hne |].
  exact (proj1 (@peakActivityTimes_top_five approxSqrt (utcAt 0) busyDay []
                  0%Z None Hne)).
Defined.

Lemma sum_map_ext (A : Type) (f g : A -> Q) (l : list A) :
  (forall x, f x == g x) -> sum (map f l) == sum (map g l).
Proof.
  intro H. induction l as [| x t IH]; simpl; [reflexivity |].
  now rewrite !sum_cons, IH, H.
Qed.

Section DeviceUsage.
Variable Math_sqrt : Q -> Q.

(** X17.  On a non-empty input [deviceUsagePatterns] has one entry per
    device that has a measurement, no device twice; an entry's usage
    percentage is the device's share of the measurements, more than 0 and
    at most 100; and the devices' measurement counts, the numerators of
    the shares, add up to the number of measurements. *)
Theorem deviceUsagePatterns_shares (e : Env)
    (measurements : list RTTMeasurement.t)
    (transitions : list StateTransition.t)
    (sessionStartTime : Z) (sessionEndTime : option Z) :
  measurements <> [] ->
  let patterns :=
    BehavioralInsights.deviceUsagePatterns
      (AnalyticsEngine.generateBehavioralInsights Math_sqrt e measurements
         transitions sessionStartTime sessionEndTime) in
  NoDup (map DeviceUsagePattern.deviceJid patterns)
  /\ (forall device,
        In device (map DeviceUsagePattern.deviceJid patterns)
        <-> exists m, In m measurements /\ RTTMeasurement.deviceJid m = device)
  /\ (forall p, In p patterns ->
        DeviceUsagePattern.usagePercentage p
        = Qnat (deviceCount measurements (DeviceUsagePattern.deviceJid p))
          / Qnat (length measurements) * 100
        /\ 0 < DeviceUsagePattern.usagePercentage p <= 100)
  /\ list_sum (map (fun p => deviceCount measurements
                               (DeviceUsagePattern.deviceJid p)) patterns)
     = length measurements.
Proof.
  intros Hne. cbv zeta.
  unfold AnalyticsEngine.generateBehavioralInsights.
  replace (Nat.eqb (length measurements) 0) with false
    by (destruct measurements; [contradiction | reflexivity]).
  cbv zeta. cbn [BehavioralInsights.deviceUsagePatterns].
  assert (Htotal : (0 < length measurements)%nat)
    by (destruct measurements; [contradiction | simpl; lia]).
  pose proof (Qnat_pos Htotal) as Hpos.
  set (groups := groupBy String.eqb RTTMeasurement.deviceJid measurements).
  set (patternOf := fun entry : string * list RTTMeasurement.t => _).
  assert (Hdev : forall entry,
            DeviceUsagePattern.deviceJid (patternOf entry) = fst entry)
    by now intros [device dms].
  assert (Huse : forall entry,
            DeviceUsagePattern.usagePercentage (patternOf entry)
            = Qnat (length (snd entry)) / Qnat (length measurements) * 100)
    by now intros [device dms].
  split; [| split; [| split]].
  - rewrite map_map, (map_ext _ fst Hdev).
    apply (groupBy_keys_NoDup String.eqb String.eqb_eq).
  - intro device. rewrite map_map, (map_ext _ fst Hdev).
    apply (groupBy_keys_In String.eqb String.eqb_eq).
  - intros p Hp. apply in_map_iff in Hp as [[device dms] [<- Hin]].
    rewrite Huse, Hdev. cbn [fst snd].
    apply (groupBy_entry String.eqb String.eqb_eq) in Hin as [Hdms Hnonempty].
    assert (Hcount : length dms = deviceCount measurements device)
      by (unfold deviceCount; now rewrite Hdms).
    rewrite Hcount. split; [reflexivity |].
    assert (Hle : (deviceCount measurements device <= length measurements)%nat)
      by apply filter_length_le.
    assert (Hgt : (0 < deviceCount measurements device)%nat)
      by (rewrite <- Hcount; destruct dms; [contradiction | simpl; lia]).
    pose proof (percent_range Hle Htotal) as [_ Hupper].
    split; [| exact Hupper].
    pose proof (Qnat_pos Hgt) as Hc.
    assert (0 < Qnat (deviceCount measurements device)
                / Qnat (length measurements))
      by (apply Qlt_shift_div_l; [exact Hpos | lra]).
    lra.
  - rewrite map_map.
    rewrite (map_ext_in _ (fun entry : string * list RTTMeasurement.t =>
                             length (snd entry))).
    2:{ intros [device dms] Hin. rewrite Hdev. cbn [fst snd].
        apply (groupBy_entry String.eqb String.eqb_eq) in Hin as [Hdms _].
        unfold deviceCount. now rewrite Hdms. }
    rewrite <- (Permutation_length
                  (groupBy_concat String.eqb RTTMeasurement.deviceJid
                     measurements)).
    fold groups. clearbody groups. clear.
    induction groups as [| g rest IH]; simpl; [reflexivity |].
    now rewrite length_app, IH.
Qed.
End DeviceUsage.

Lemma deviceUsagePatterns_shares_witness :
  twoDevices <> []
  /\ list_sum (map (fun p => deviceCount twoDevices
                               (DeviceUsagePattern.deviceJid p))
                 (BehavioralInsights.deviceUsagePatterns
                    (AnalyticsEngine.generateBehavioralInsights approxSqrt
                       (utcAt 0) twoDevices [] 0 None)))
     = length twoDevices.
Proof.
  assert (Hne : twoDevices <> []) by discriminate.
  split; [exact Hne |].
  exact (proj2 (proj2 (proj2
    (@deviceUsagePatterns_shares approxSqrt (utcAt 0) twoDevices [] 0%Z None
       Hne)))).
Defined.

Lemma fold_add_list_sum (A : Type) (f : A -> nat) (l : list A) (a : nat) :
  fold_left (fun acc x => (acc + f x)%nat) l a = (a + list_sum (map f l))%nat.
Proof.
  revert a. induction l as [| x t IH]; intro a; simpl; [lia |].
  rewrite IH. lia.
Qed.

Lemma list_sum_bounds (A : Type) (f : A -> nat) (lo hi : nat) (l : list A) :
  (forall x, In x l -> (lo <= f x <= hi)%nat) ->
  (length l * lo <= list_sum (map f l) <= length l * hi)%nat.
Proof.
  induction l as [| x t IH]; intro H; simpl; [lia |].
  pose proof (H x (or_introl eq_refl)).
  assert (Ht : forall y, In y t -> (lo <= f y <= hi)%nat)
    by (intros y Hy; apply H; now right).
  specialize (IH Ht). lia.
Qed.

Lemma deviceMap_size (ms : list RTTMeasurement.t) :
  length (groupBy String.eqb RTTMeasurement.deviceJid ms)
  = length (AnalyticsEngine.deviceTimestampsOf ms).
Proof.
  rewrite <- (length_map fst), <- (length_map fst (AnalyticsEngine.deviceTimestampsOf ms)).
  now rewrite (groupBy_keys String.eqb), deviceTimestamps_keys.
Qed.

(** In every active minute at least one device is active, and no more
    than there are devices. *)
Lemma activeDevices_bounds (ms : list RTTMeasurement.t) (minute : Z) :
  In minute (AnalyticsEngine.allMinutesOf (AnalyticsEngine.deviceTimestampsOf ms)) ->
  (1 <= AnalyticsEngine.activeDevices (AnalyticsEngine.deviceTimestampsOf ms) minute
     <= length (AnalyticsEngine.deviceTimestampsOf ms))%nat.
Proof.
  intro Hin. unfold AnalyticsEngine.activeDevices.
  split; [| apply filter_length_le].
  apply allMinutes_In in Hin as [entry [Hentry Hm]].
  assert (Hf : In entry
            (filter (fun en => setHas Z.eqb minute (snd en))
                    (AnalyticsEngine.deviceTimestampsOf ms))).
  { apply filter_In. split; [exact Hentry |].
    now apply (setHas_In Z.eqb Z.eqb_eq). }
  destruct (filter _ (AnalyticsEngine.deviceTimestampsOf ms));
    [contradiction | simpl; lia].
Qed.

Lemma allMinutes_nonempty (ms : list RTTMeasurement.t) :
  ms <> [] ->
  (0 < length (AnalyticsEngine.allMinutesOf
                 (AnalyticsEngine.deviceTimestampsOf ms)))%nat.
Proof.
  intro Hne. destruct ms as [| m rest]; [contradiction |].
  assert (Hin : In (AnalyticsEngine.minuteOf m)
            (AnalyticsEngine.allMinutesOf
               (AnalyticsEngine.deviceTimestampsOf (m :: rest)))).
  { apply allMinutes_measured. exists m. split; [now left | reflexivity]. }
  destruct (AnalyticsEngine.allMinutesOf _); [contradiction | simpl; lia].
Qed.

Lemma allMinutes_inhabited (ms : list RTTMeasurement.t) :
  ms <> [] ->
  exists minute,
    In minute (AnalyticsEngine.allMinutesOf (AnalyticsEngine.deviceTimestampsOf ms)).
Proof.
  intro Hne. destruct ms as [| m rest]; [contradiction |].
  exists (AnalyticsEngine.minuteOf m). apply allMinutes_measured.
  exists m. split; [now left | reflexivity].
Qed.

Section CoordinationBounds.
Variable Math_sqrt : Q -> Q.

(** X18.  On a non-empty input the multi-device figures are consistent:
    there is at least one device, the coordination score lies in [0,100],
    and the average number of simultaneously active devices is at least 1
    and at most the number of devices. *)
Theorem multiDeviceCoordination_bounds (e : Env)
    (measurements : list RTTMeasurement.t)
    (transitions : list StateTransition.t)
    (sessionStartTime : Z) (sessionEndTime : option Z) :
  measurements <> [] ->
  let c :=
    BehavioralInsights.multiDeviceCoordination
      (AnalyticsEngine.generateBehavioralInsights Math_sqrt e measurements
         transitions sessionStartTime sessionEndTime) in
  (1 <= MultiDeviceCoordination.simultaneousDevices c <= length measurements)%nat
  /\ 0 <= MultiDeviceCoordination.coordinationScore c <= 100
  /\ 1 <= MultiDeviceCoordination.avgSimultaneousDevices c
     <= Qnat (MultiDeviceCoordination.simultaneousDevices c).
Proof.
  intros Hne. cbv zeta.
  unfold AnalyticsEngine.generateBehavioralInsights.
  replace (Nat.eqb (length measurements) 0) with false
    by (destruct measurements; [contradiction | reflexivity]).
  cbv zeta.
  cbn [BehavioralInsights.multiDeviceCoordination
       MultiDeviceCoordination.simultaneousDevices
       MultiDeviceCoordination.coordinationScore
       MultiDeviceCoordination.avgSimultaneousDevices].
  pose proof (allMinutes_nonempty Hne) as Hall.
  pose proof (activeDevices_bounds measurements) as Hactive.
  rewrite (deviceMap_size measurements).
  set (dt := AnalyticsEngine.deviceTimestampsOf measurements) in *.
  set (all := AnalyticsEngine.allMinutesOf dt) in *.
  assert (Hlt : Nat.ltb 0 (length all) = true) by now apply Nat.ltb_lt.
  rewrite Hlt.
  assert (Hdevices : (1 <= length dt <= length measurements)%nat).
  { split.
    - destruct (allMinutes_inhabited Hne) as [minute Hin].
      specialize (Hactive minute Hin). fold dt in Hactive. lia.
    - unfold dt. rewrite <- deviceMap_size, <- (length_map fst).
      rewrite (groupBy_keys String.eqb).
      rewrite <- (length_map RTTMeasurement.deviceJid measurements).
      generalize (map RTTMeasurement.deviceJid measurements) as devices.
      intro devices.
      apply NoDup_incl_length.
      + apply (fold_setAdd_NoDup String.eqb String.eqb_eq). constructor.
      + intros k Hk. apply (fold_setAdd_In String.eqb String.eqb_eq) in Hk.
        destruct Hk as [[] | Hk]. exact Hk. }
  split; [exact Hdevices |]. split.
  - apply percent_range; [apply filter_length_le | exact Hall].
  - rewrite fold_add_list_sum. cbn [Nat.add].
    pose proof (@list_sum_bounds _
                  (AnalyticsEngine.activeDevices dt) 1 (length dt) all Hactive)
      as [Hlo Hhi].
    pose proof (Qnat_pos Hall) as Hpos.
    pose proof (Qnat_le Hlo) as Qlo. pose proof (Qnat_le Hhi) as Qhi.
    assert (E1 : Qnat (length all * 1) == Qnat (length all))
      by (now rewrite Nat.mul_1_r).
    assert (E2 : Qnat (length all * length dt)
                 == Qnat (length all) * Qnat (length dt)).
    { unfold Qnat. rewrite Nat2Z.inj_mul, inject_Z_mult. reflexivity. }
    rewrite E1 in Qlo. rewrite E2 in Qhi.
    split.
    + apply Qle_shift_div_l; [exact Hpos | lra].
    + apply Qle_shift_div_r; [exact Hpos | lra].
Qed.

(** X19.  When all measurements come from one device, the input being
    non-empty, one device is reported, no minute counts as simultaneous
    (coordination score 0) and the average number of simultaneously active
    devices is 1. *)
Theorem single_device_coordination (e : Env)
    (measurements : list RTTMeasurement.t)
    (transitions : list StateTransition.t)
    (sessionStartTime : Z) (sessionEndTime : option Z) (device : string) :
  measurements <> [] ->
  (forall m, In m measurements -> RTTMeasurement.deviceJid m = device) ->
  let c :=
    BehavioralInsights.multiDeviceCoordination
      (AnalyticsEngine.generateBehavioralInsights Math_sqrt e measurements
         transitions sessionStartTime sessionEndTime) in
  MultiDeviceCoordination.simultaneousDevices c = 1%nat
  /\ MultiDeviceCoordination.coordinationScore c == 0
  /\ MultiDeviceCoordination.avgSimultaneousDevices c == 1.
Proof.
  intros Hne Hone. cbv zeta.
  unfold AnalyticsEngine.generateBehavioralInsights.
  replace (Nat.eqb (length measurements) 0) with false
    by (destruct measurements; [contradiction | reflexivity]).
  cbv zeta.
  cbn [BehavioralInsights.multiDeviceCoordination
       MultiDeviceCoordination.simultaneousDevices
       MultiDeviceCoordination.coordinationScore
       MultiDeviceCoordination.avgSimultaneousDevices].
  pose proof (allMinutes_nonempty Hne) as Hall.
  pose proof (activeDevices_bounds measurements) as Hactive.
  rewrite (deviceMap_size measurements).
  assert (Hkeys : Permutation
            (map fst (AnalyticsEngine.deviceTimestampsOf measurements)) [device]).
  { apply NoDup_Permutation.
    - apply deviceKeys_NoDup.
    - constructor; [intros [] | constructor].
    - intro k. rewrite deviceKeys_In. simpl. split.
      + intros [x [Hx Hd]]. left. rewrite <- Hd. symmetry. now apply Hone.
      + intros [<- | []]. destruct measurements as [| m rest]; [contradiction |].
        exists m. split; [now left | apply Hone; now left]. }
  apply Permutation_length in Hkeys. rewrite length_map in Hkeys.
  simpl in Hkeys. rewrite Hkeys in *.
  set (dt := AnalyticsEngine.deviceTimestampsOf measurements) in *.
  set (all := AnalyticsEngine.allMinutesOf dt) in *.
  assert (Hlt : Nat.ltb 0 (length all) = true) by now apply Nat.ltb_lt.
  rewrite Hlt. pose proof (Qnat_pos Hall) as Hpos.
  split; [reflexivity |]. split.
  - rewrite filter_none.
    + change (Qnat (length (@nil Z))) with 0. field. lra.
    + intros minute Hin. specialize (Hactive minute Hin).
      apply Nat.ltb_ge. lia.
  - rewrite fold_add_list_sum. cbn [Nat.add].
    pose proof (@list_sum_bounds _ (AnalyticsEngine.activeDevices dt) 1 1 all
                  Hactive) as [Hlo Hhi].
    assert (Hsum : list_sum (map (AnalyticsEngine.activeDevices dt) all)
                   = length all) by lia.
    rewrite Hsum. field. lra.
Qed.
End CoordinationBounds.

Lemma multiDeviceCoordination_bounds_witness :
  twoDevices <> []
  /\ 0 <= MultiDeviceCoordination.coordinationScore
            (BehavioralInsights.multiDeviceCoordination
               (AnalyticsEngine.generateBehavioralInsights approxSqrt (utcAt 0)
                  twoDevices [] 0 None)) <= 100.
Proof.
  assert (Hne : twoDevices <> []) by discriminate.
  split; [exact Hne |].
  exact (proj1 (proj2
    (@multiDeviceCoordination_bounds approxSqrt (utcAt 0) twoDevices [] 0%Z None
       Hne))).
Defined.

Lemma single_device_coordination_witness :
  fourSamples <> []
  /\ MultiDeviceCoordination.coordinationScore
       (BehavioralInsights.multiDeviceCoordination
          (AnalyticsEngine.generateBehavioralInsights approxSqrt (utcAt 0)
             fourSamples [] 0 None)) == 0.
Proof.
  assert (Hne : fourSamples <> []) by discriminate.
  split; [exact Hne |].
  apply (@single_device_coordination approxSqrt (utcAt 0) fourSamples [] 0%Z
           None "A" Hne).
  intros m Hin. simpl in Hin.
  repeat (destruct Hin as [<- | Hin]; [reflexivity |]). contradiction.
Defined.

(** ** Further properties of the sleep and wake detection *)

Lemma Qnat_div_nonneg (a b : nat) : 0 <= Qnat a / Qnat b.
Proof.
  destruct b as [| b].
  - change (Qnat 0) with 0. unfold Qdiv. change (/ 0) with 0.
    rewrite Qmult_0_r. lra.
  - apply Qle_shift_div_l; [apply Qnat_pos; lia |].
    rewrite Qmult_0_l. apply Qnat_nonneg.
Qed.

Lemma Qnat_lt_inv (a b : nat) : Qnat a < Qnat b -> (a < b)%nat.
Proof. unfold Qnat. rewrite <- Zlt_Qlt. lia. Qed.

Lemma findWakeTime_first (e : Env) (ms : list RTTMeasurement.t) :
  let ha := AnalyticsEngine.hourActivityOf e ms in
  let low := AnalyticsEngine.lowActivityHoursOf ha in
  firstHour (fun hour => ~ In hour low
                         /\ meanHourlyCount e ms * (15 # 10)
                            < Qnat (hourCount e ms hour))
    (AnalyticsEngine.findWakeTime ha low).
Proof.
  intros ha low. unfold AnalyticsEngine.findWakeTime. cbv zeta.
  eapply firstHour_ext; [| apply find_hours].
  intro hour. cbv beta. unfold ha at 1 2.
  rewrite hourActivity_count, avgActivity_mean.
  destruct (AnalyticsEngine.includes low hour) eqn:E.
  - apply includes_In in E. split; [discriminate | tauto].
  - assert (Hout : ~ In hour low)
      by (intro Hin; apply includes_In in Hin; congruence).
    rewrite Qgt_bool_iff. tauto.
Qed.

Lemma findSleepTime_first (e : Env) (ms : list RTTMeasurement.t) :
  let ha := AnalyticsEngine.hourActivityOf e ms in
  let low := AnalyticsEngine.lowActivityHoursOf ha in
  firstHour (fun hour => In hour low
                         /\ Qnat (hourCount e ms hour)
                            < meanHourlyCount e ms * (5 # 10))
    (AnalyticsEngine.findSleepTime ha low).
Proof.
  intros ha low. unfold AnalyticsEngine.findSleepTime. cbv zeta.
  eapply firstHour_ext; [| apply find_hours].
  intro hour. cbv beta. unfold ha at 1 2.
  rewrite hourActivity_count, avgActivity_mean.
  destruct (AnalyticsEngine.includes low hour) eqn:E.
  - apply includes_In in E. rewrite Qlt_bool_iff. tauto.
  - assert (Hout : ~ In hour low)
      by (intro Hin; apply includes_In in Hin; congruence).
    split; [discriminate | tauto].
Qed.

(** X20.  When sleep/wake detection reports both times they are two
    different hours of the day, both with measurements, and the sleep hour
    has fewer measurements than the wake hour. *)
Theorem wake_and_sleep_differ (e : Env) (measurements : list RTTMeasurement.t)
    (wake sleep : Z) :
  let r := AnalyticsEngine.detectSleepWakePatterns e measurements in
  SleepWakeDetection.typicalWakeTime r = Some wake ->
  SleepWakeDetection.typicalSleepTime r = Some sleep ->
  wake <> sleep
  /\ (0 <= wake < 24)%Z /\ (0 <= sleep < 24)%Z
  /\ (0 < hourCount e measurements sleep
      < hourCount e measurements wake)%nat.
Proof.
  cbv zeta. unfold AnalyticsEngine.detectSleepWakePatterns.
  destruct (Nat.ltb (length measurements) 100); [discriminate |].
  cbv zeta.
  cbn [SleepWakeDetection.typicalWakeTime SleepWakeDetection.typicalSleepTime].
  intros Hw Hs.
  pose proof (findWakeTime_first e measurements) as Fw.
  pose proof (findSleepTime_first e measurements) as Fs.
  cbv zeta in Fw, Fs. rewrite Hw in Fw. rewrite Hs in Fs.
  destruct Fw as [Rw [[Wout Wcount] _]].
  destruct Fs as [Rs [[Sin Scount] _]].
  destruct (lowActivityHours_lowest e measurements) as [_ [Hpos _]].
  pose proof (Qnat_div_nonneg (length measurements) (bucketCount e measurements))
    as Hmean. fold (meanHourlyCount e measurements) in Hmean.
  split; [intros ->; contradiction |].
  split; [exact Rw |]. split; [exact Rs |].
  split; [now apply Hpos |].
  apply Qnat_lt_inv. lra.
Qed.

Lemma wake_and_sleep_differ_witness :
  SleepWakeDetection.typicalWakeTime
    (AnalyticsEngine.detectSleepWakePatterns (utcAt 0) busyDay) = Some 8%Z
  /\ SleepWakeDetection.typicalSleepTime
       (AnalyticsEngine.detectSleepWakePatterns (utcAt 0) busyDay) = Some 2%Z
  /\ (hourCount (utcAt 0) busyDay 2 < hourCount (utcAt 0) busyDay 8)%nat.
Proof.
  assert (Hw : SleepWakeDetection.typicalWakeTime
                 (AnalyticsEngine.detectSleepWakePatterns (utcAt 0) busyDay)
               = Some 8%Z) by (vm_compute; reflexivity).
  assert (Hs : SleepWakeDetection.typicalSleepTime
                 (AnalyticsEngine.detectSleepWakePatterns (utcAt 0) busyDay)
               = Some 2%Z) by (vm_compute; reflexivity).
  split; [exact Hw |]. split; [exact Hs |].
  exact (proj2 (proj2 (proj2 (proj2
    (@wake_and_sleep_differ (utcAt 0) busyDay 8%Z 2%Z Hw Hs))))).
Defined.

Lemma bucketCount_eq (e : Env) (ms : list RTTMeasurement.t) :
  bucketCount e ms
  = length (filter (fun h => Nat.ltb 0 (hourCount e ms h))
                   AnalyticsEngine.hours0to23).
Proof. reflexivity. Qed.

(** X21.  When the measurements fall in at most six different hours of
    the day, every such hour is in the low-activity set and no wake time
    is reported, however many measurements there are. *)
Theorem no_wake_time_with_few_hours (e : Env)
    (measurements : list RTTMeasurement.t) :
  (bucketCount e measurements <= 6)%nat ->
  SleepWakeDetection.typicalWakeTime
    (AnalyticsEngine.detectSleepWakePatterns e measurements) = None.
Proof.
  intro Hfew. unfold AnalyticsEngine.detectSleepWakePatterns.
  destruct (Nat.ltb (length measurements) 100); [reflexivity |].
  cbv zeta. cbn [SleepWakeDetection.typicalWakeTime].
  pose proof (findWakeTime_first e measurements) as Fw. cbv zeta in Fw.
  destruct (AnalyticsEngine.findWakeTime _ _) as [hour |]; [| reflexivity].
  exfalso. destruct Fw as [Rw [[Wout Wcount] _]].
  destruct (lowActivityHours_lowest e measurements)
    as [Hnd [Hpos [Hlen _]]].
  remember (AnalyticsEngine.lowActivityHoursOf
              (AnalyticsEngine.hourActivityOf e measurements)) as low eqn:El.
  clear El.
  pose proof (Qnat_div_nonneg (length measurements) (bucketCount e measurements))
    as Hmean. fold (meanHourlyCount e measurements) in Hmean.
  assert (Hcount : (0 < hourCount e measurements hour)%nat).
  { apply Qnat_lt_inv. change (Qnat 0) with 0. lra. }
  rewrite bucketCount_eq in Hfew, Hlen.
  remember (filter (fun h => Nat.ltb 0 (hourCount e measurements h))
                   AnalyticsEngine.hours0to23) as buckets eqn:Eb.
  assert (Hbucket : forall h, In h buckets <->
            (0 <= h < 24)%Z /\ (0 < hourCount e measurements h)%nat).
  { intro h. rewrite Eb, filter_In, hours0to23_In, Nat.ltb_lt. tauto. }
  clear Eb.
  assert (Hin : In hour buckets) by (apply Hbucket; split; assumption).
  assert (Hincl : incl low buckets).
  { intros h Hh. apply Hbucket. pose proof (Hpos h Hh) as Hp.
    split; [| exact Hp].
    apply hourCount_pos in Hp. destruct Hp as [x [_ Hx]]. rewrite <- Hx.
    apply getHours_range. }
  assert (Hsize : (length buckets <= length low)%nat).
  { rewrite Hlen. apply Nat.min_glb; [exact Hfew | apply le_n]. }
  apply Wout. exact (NoDup_length_incl Hnd Hsize Hincl hour Hin).
Qed.

Lemma no_wake_time_with_few_hours_witness :
  (bucketCount (utcAt 0) oneHour <= 6)%nat
  /\ (100 <= length oneHour)%nat
  /\ SleepWakeDetection.typicalWakeTime
       (AnalyticsEngine.detectSleepWakePatterns (utcAt 0) oneHour) = None.
Proof.
  assert (Hfew : (bucketCount (utcAt 0) oneHour <= 6)%nat) by (vm_compute; lia).
  split; [exact Hfew |]. split; [vm_compute; lia |].
  exact (@no_wake_time_with_few_hours (utcAt 0) oneHour Hfew).
Defined.


Section ResponseTimes.
Variable Math_sqrt : Q -> Q.

(** X22.  Response times are taken over the Online measurements only:
    when no measurement is in state Online the four response-time figures
    (average, fastest, slowest, consistency) are all 0, whatever the RTTs
    of the other measurements. *)
Theorem responseTimePatterns_without_online (e : Env)
    (measurements : list RTTMeasurement.t)
    (transitions : list StateTransition.t)
    (sessionStartTime : Z) (sessionEndTime : option Z) :
  (forall m, In m measurements -> RTTMeasurement.state m <> Online) ->
  BehavioralInsights.responseTimePatterns
    (AnalyticsEngine.generateBehavioralInsights Math_sqrt e measurements
       transitions sessionStartTime sessionEndTime)
  = ResponseTimePatterns.mk 0 0 0 0.
Proof.
  intro Hoff. unfold AnalyticsEngine.generateBehavioralInsights.
  destruct (Nat.eqb (length measurements) 0); [reflexivity |].
  cbv zeta. cbn [BehavioralInsights.responseTimePatterns].
  rewrite (filter_none AnalyticsEngine.isOnline measurements).
  - reflexivity.
  - intros m Hm. specialize (Hoff m Hm). unfold AnalyticsEngine.isOnline.
    now destruct (RTTMeasurement.state m).
Qed.
End ResponseTimes.

Lemma responseTimePatterns_without_online_witness :
  neverOnline <> []
  /\ BehavioralInsights.responseTimePatterns
       (AnalyticsEngine.generateBehavioralInsights approxSqrt (utcAt 0)
          neverOnline [] 0 None)
     = ResponseTimePatterns.mk 0 0 0 0.
Proof.
  split; [discriminate |].
  apply (@responseTimePatterns_without_online approxSqrt (utcAt 0) neverOnline
           [] 0%Z None).
  intros m Hin. simpl in Hin.
  repeat (destruct Hin as [<- | Hin]; [discriminate |]). contradiction.
Defined.

(** ** Independence of the order of the samples *)

Lemma Qle_bool_false_iff (a b : Q) : Qle_bool a b = false <-> b < a.
Proof.
  rewrite <- Qlt_bool_iff. unfold Qlt_bool.
  destruct (Qle_bool a b); simpl; split; congruence.
Qed.

(** The element at index [k] of a sorted list has at most [k] elements
    strictly below it and more than [k] elements at or below it. *)
Lemma order_statistic_counts (s : list Q) (k : nat) :
  StronglySorted Qle s -> (k < length s)%nat ->
  (length (filter (fun x => Qlt_bool x (nth k s (0 : Q))) s) <= k)%nat
  /\ (k < length (filter (fun x => Qle_bool x (nth k s (0 : Q))) s))%nat.
Proof.
  intros Hs Hk. set (v := nth k s (0 : Q)). split.
  - rewrite <- (firstn_skipn k s) at 1. rewrite filter_app, length_app.
    rewrite (filter_none (fun x => Qlt_bool x v) (skipn k s)).
    + simpl. rewrite Nat.add_0_r.
      etransitivity; [apply filter_length_le |].
      rewrite length_firstn. lia.
    + intros x Hx. apply Qlt_bool_false_iff.
      apply In_nth with (d := 0) in Hx as [i [Hi <-]].
      rewrite length_skipn in Hi. rewrite nth_skipn. unfold v.
      apply sorted_nth_le; [exact Hs | lia | lia].
  - rewrite <- (firstn_skipn (S k) s) at 1. rewrite filter_app, length_app.
    rewrite (filter_all (fun x => Qle_bool x v) (firstn (S k) s)).
    + rewrite length_firstn. lia.
    + intros x Hx. apply Qle_bool_iff.
      apply In_nth with (d := 0) in Hx as [i [Hi <-]].
      rewrite length_firstn in Hi. rewrite nth_firstn.
      destruct (Nat.ltb_spec i (S k)); [| lia]. unfold v.
      apply sorted_nth_le; [exact Hs | lia | lia].
Qed.

Lemma filter_length_mono (A : Type) (p q : A -> bool) (l : list A) :
  (forall x, p x = true -> q x = true) ->
  (length (filter p l) <= length (filter q l))%nat.
Proof.
  intro H. induction l as [| x t IH]; simpl; [lia |].
  destruct (p x) eqn:E.
  - rewrite (H x E). simpl. lia.
  - destruct (q x); simpl; lia.
Qed.

(** Two sorts of the same samples agree, up to equality of rationals, at
    every index. *)
Lemma sortAscending_perm_nth (h h' : list Q) (k : nat) :
  Permutation h h' -> (k < length h)%nat ->
  nth k (sortAscending h) 0 == nth k (sortAscending h') 0.
Proof.
  intros Hperm Hk.
  assert (Hk' : (k < length h')%nat)
    by (rewrite <- (Permutation_length Hperm); exact Hk).
  assert (Hss : Permutation (sortAscending h) (sortAscending h')).
  { rewrite (sortAscending_perm h), (sortAscending_perm h'). exact Hperm. }
  assert (C : (k < length (sortAscending h))%nat)
    by (rewrite sortAscending_length; exact Hk).
  apply (@order_statistic_counts _ k (sortAscending_strongly_sorted h)) in C.
  assert (C' : (k < length (sortAscending h'))%nat)
    by (rewrite sortAscending_length; exact Hk').
  apply (@order_statistic_counts _ k (sortAscending_strongly_sorted h')) in C'.
  destruct C as [C1 C2], C' as [C1' C2'].
  set (v := nth k (sortAscending h) 0) in *.
  set (v' := nth k (sortAscending h') 0) in *.
  rewrite (filter_length_perm (fun x => Qlt_bool x v') (Permutation_sym Hss))
    in C1'.
  rewrite (filter_length_perm (fun x => Qle_bool x v') (Permutation_sym Hss))
    in C2'.
  destruct (Qlt_le_dec v v') as [Hlt | Hge].
  - exfalso.
    pose proof (filter_length_mono
      (fun x => Qle_bool x v) (fun x => Qlt_bool x v') (sortAscending h)) as M.
    assert (Himp : forall x, Qle_bool x v = true -> Qlt_bool x v' = true).
    { intros x Hx. apply Qle_bool_iff in Hx. apply Qlt_bool_iff. lra. }
    specialize (M Himp). lia.
  - destruct (Qlt_le_dec v' v) as [Hlt | Hle]; [| lra].
    exfalso.
    pose proof (filter_length_mono
      (fun x => Qle_bool x v') (fun x => Qlt_bool x v) (sortAscending h)) as M.
    assert (Himp : forall x, Qle_bool x v' = true -> Qlt_bool x v = true).
    { intros x Hx. apply Qle_bool_iff in Hx. apply Qlt_bool_iff. lra. }
    specialize (M Himp). lia.
Qed.

Lemma Qgt_bool_compat_r (a b b' : Q) : b == b' -> Qgt_bool a b = Qgt_bool a b'.
Proof.
  intro H. apply eq_true_iff_eq. rewrite !Qgt_bool_iff. now rewrite H.
Qed.

(** X23.  [calculatePacketLossIndicator] depends on the samples only, not
    on their order: any reordering of the history gives the same
    packet-loss indicator.  (The quartiles are read off the sorted copy,
    and the outliers are counted.) *)
Theorem packetLoss_order_independent (h h' : list Q) (timeoutThreshold : Q) :
  Permutation h h' ->
  NetworkIntelligence.calculatePacketLossIndicator h timeoutThreshold
  = NetworkIntelligence.calculatePacketLossIndicator h' timeoutThreshold.
Proof.
  intro Hperm. pose proof (Permutation_length Hperm) as Hlen.
  unfold NetworkIntelligence.calculatePacketLossIndicator. rewrite <- Hlen.
  destruct (Nat.ltb_spec (length h) 5) as [Hshort | Hlong]; [reflexivity |].
  cbv zeta. unfold at_index.
  rewrite !sortAscending_length, <- Hlen, floor_quarter, floor_three_quarters.
  assert (Hn : (0 < length h)%nat) by lia.
  destruct (quartile_indices_in_range Hn) as [_ [H4 H34]].
  pose proof (sortAscending_perm_nth Hperm H4) as E1.
  pose proof (sortAscending_perm_nth Hperm H34) as E3.
  set (fence := nth (3 * length h / 4) (sortAscending h) 0
                + (15 # 10) * (nth (3 * length h / 4) (sortAscending h) 0
                               - nth (length h / 4) (sortAscending h) 0)).
  set (fence' := nth (3 * length h / 4) (sortAscending h') 0
                 + (15 # 10) * (nth (3 * length h / 4) (sortAscending h') 0
                                - nth (length h / 4) (sortAscending h') 0)).
  assert (Ef : fence == fence') by (unfold fence, fence'; rewrite E1, E3; reflexivity).
  rewrite (filter_ext
    (fun rtt => Qgt_bool rtt fence
                || Qgt_bool rtt (timeoutThreshold * (8 # 10)))
    (fun rtt => Qgt_bool rtt fence'
                || Qgt_bool rtt (timeoutThreshold * (8 # 10)))).
  + now rewrite (filter_length_perm _ Hperm).
  + intro rtt. now rewrite (Qgt_bool_compat_r rtt Ef).
Qed.

Lemma packetLoss_order_independent_witness :
  Permutation wifiLikeHistory (rev wifiLikeHistory)
  /\ NetworkIntelligence.calculatePacketLossIndicator wifiLikeHistory
       NetworkIntelligence.default_timeoutThreshold
     = NetworkIntelligence.calculatePacketLossIndicator (rev wifiLikeHistory)
         NetworkIntelligence.default_timeoutThreshold.
Proof.
  assert (Hperm : Permutation wifiLikeHistory (rev wifiLikeHistory))
    by apply Permutation_rev.
  split; [exact Hperm |].
  exact (@packetLoss_order_independent wifiLikeHistory (rev wifiLikeHistory)
           NetworkIntelligence.default_timeoutThreshold Hperm).
Defined.

(** ** The heatmap grid of the client *)

Lemma length_range (n : nat) : length (range n) = n.
Proof. unfold range. now rewrite length_map, length_seq. Qed.

Lemma nth_error_range (n i : nat) :
  (i < n)%nat -> nth_error (range n) i = Some (Z.of_nat i).
Proof.
  intro Hi. unfold range. rewrite nth_error_map.
  rewrite (nth_error_nth' _ 0%nat) by (rewrite length_seq; exact Hi).
  now rewrite seq_nth.
Qed.

Lemma nth_error_grid (A : Type) (f : Z -> Z -> A) (m : nat) (days : list Z)
    (i j : nat) (d : Z) :
  nth_error days i = Some d -> (j < m)%nat ->
  nth_error (flat_map (fun day => map (f day) (range m)) days) (i * m + j)
  = Some (f d (Z.of_nat j)).
Proof.
  revert i. induction days as [| d0 days IH]; intros i Hi Hj.
  - destruct i; discriminate.
  - destruct i as [| i]; simpl in Hi |- *.
    + injection Hi as ->.
      rewrite nth_error_app1 by (rewrite length_map, length_range; exact Hj).
      now rewrite nth_error_map, nth_error_range.
    + rewrite nth_error_app2 by (rewrite length_map, length_range; lia).
      rewrite length_map, length_range.
      replace (m + i * m + j - m)%nat with (i * m + j)%nat by lia.
      now apply IH.
Qed.

Lemma length_grid (A : Type) (f : Z -> Z -> A) (m : nat) (days : list Z) :
  length (flat_map (fun day => map (f day) (range m)) days)
  = (length days * m)%nat.
Proof.
  induction days as [| d days IH]; simpl; [reflexivity |].
  now rewrite length_app, length_map, length_range, IH.
Qed.

Lemma find_first (A : Type) (p : A -> bool) (l : list A) (k : nat) (x : A) :
  nth_error l k = Some x -> p x = true ->
  (forall i y, (i < k)%nat -> nth_error l i = Some y -> p y = false) ->
  find p l = Some x.
Proof.
  revert k. induction l as [| a l IH]; intros k Hk Hx Hbefore.
  - destruct k; discriminate.
  - destruct k as [| k]; simpl in Hk |- *.
    + injection Hk as ->. now rewrite Hx.
    + rewrite (Hbefore 0%nat a) by first [lia | reflexivity].
      apply (IH k Hk Hx). intros i y Hi Hy.
      apply (Hbefore (S i) y); [lia | exact Hy].
Qed.

Lemma mapGet_mapSet (k k' : Z * Z) (item : ActivityPattern.t)
    (m : list ((Z * Z) * ActivityPattern.t)) :
  ActivityHeatmap.mapGet k (ActivityHeatmap.mapSet k' item m)
  = if AnalyticsEngine.key_eqb k k' then Some item
    else ActivityHeatmap.mapGet k m.
Proof.
  induction m as [| [k0 v] rest IH]; simpl; [reflexivity |].
  destruct (AnalyticsEngine.key_eqb k' k0) eqn:E1; simpl.
  - apply key_eqb_eq in E1. subst k0.
    now destruct (AnalyticsEngine.key_eqb k k').
  - rewrite IH. destruct (AnalyticsEngine.key_eqb k k0) eqn:E2; [| reflexivity].
    destruct (AnalyticsEngine.key_eqb k k') eqn:E3; [| reflexivity].
    apply key_eqb_eq in E2, E3. subst.
    rewrite (proj2 (key_eqb_eq k0 k0) eq_refl) in E1. discriminate.
Qed.

(** [dataMap.get] returns the last item of [data] with the key. *)
Lemma mapGet_dataMapOf (data : list ActivityPattern.t) (day hour : Z) :
  ActivityHeatmap.mapGet (day, hour) (ActivityHeatmap.dataMapOf data)
  = lastItemFor data day hour.
Proof.
  unfold ActivityHeatmap.dataMapOf, lastItemFor.
  induction data as [| x data IH] using rev_ind; [reflexivity |].
  rewrite fold_left_app, rev_app_distr. simpl.
  rewrite mapGet_mapSet, IH. reflexivity.
Qed.

Lemma cells_nth (data : list ActivityPattern.t) (day hour : Z) :
  (0 <= day < 7)%Z -> (0 <= hour < 24)%Z ->
  nth_error (ActivityHeatmap.cells data) (Z.to_nat (24 * day + hour))
  = Some (ActivityHeatmap.Cell.mk day hour
            (ActivityHeatmap.valueOf (lastItemFor data day hour))
            (lastItemFor data day hour)).
Proof.
  intros Hd Hh. unfold ActivityHeatmap.cells. cbv zeta.
  replace (Z.to_nat (24 * day + hour))
    with (Z.to_nat day * 24 + Z.to_nat hour)%nat by lia.
  rewrite (@nth_error_grid _
             (fun day hour =>
                ActivityHeatmap.Cell.mk day hour
                  (ActivityHeatmap.valueOf
                     (ActivityHeatmap.mapGet (day, hour)
                        (ActivityHeatmap.dataMapOf data)))
                  (ActivityHeatmap.mapGet (day, hour)
                     (ActivityHeatmap.dataMapOf data)))
             24 (range 7) (Z.to_nat day) (Z.to_nat hour) day).
  - rewrite !Z2Nat.id by lia. now rewrite mapGet_dataMapOf.
  - rewrite nth_error_range by lia. f_equal. lia.
  - lia.
Qed.

Lemma findCell_cell (data : list ActivityPattern.t) (day hour : Z) :
  (0 <= day < 7)%Z -> (0 <= hour < 24)%Z ->
  ActivityHeatmap.findCell data day hour
  = Some (ActivityHeatmap.Cell.mk day hour
            (ActivityHeatmap.valueOf (lastItemFor data day hour))
            (lastItemFor data day hour)).
Proof.
  intros Hd Hh. unfold ActivityHeatmap.findCell.
  apply (find_first _ _ (cells_nth data Hd Hh)).
  - simpl. now rewrite !Z.eqb_refl.
  - intros i y Hi Hy.
    pose proof (Nat.div_mod_eq i 24) as Hdm.
    pose proof (Nat.mod_upper_bound i 24) as Hm.
    remember (i / 24)%nat as q eqn:Eq. remember (i mod 24)%nat as r eqn:Er.
    clear Eq Er.
    assert (Hq : (q < 7)%nat) by lia.
    assert (Hr : (r < 24)%nat) by lia.
    pose proof (@cells_nth data (Z.of_nat q) (Z.of_nat r)) as C.
    replace (Z.to_nat (24 * Z.of_nat q + Z.of_nat r)) with i in C by lia.
    rewrite C in Hy by lia. injection Hy as <-.
    cbn [ActivityHeatmap.Cell.day ActivityHeatmap.Cell.hour].
    destruct (Z.eqb_spec (Z.of_nat q) day) as [E1 | E1]; [| reflexivity].
    destruct (Z.eqb_spec (Z.of_nat r) hour) as [E2 | E2]; [| reflexivity].
    lia.
Qed.

Lemma valueOf_level (it : ActivityPattern.t) :
  ActivityHeatmap.valueOf (Some it) == ActivityPattern.activityLevel it.
Proof.
  unfold ActivityHeatmap.valueOf.
  destruct (Qeq_bool (ActivityPattern.activityLevel it) 0) eqn:E;
    [| reflexivity].
  apply Qeq_bool_iff in E. now rewrite E.
Qed.

Lemma falsy_or_zero (v : Q) : (if Qeq_bool v 0 then 0 else v) == v.
Proof.
  destruct (Qeq_bool v 0) eqn:E; [| reflexivity].
  apply Qeq_bool_iff in E. now rewrite E.
Qed.

(** X24.  The heatmap grid of the client always has 7 x 24 = 168 cells in
    row-major order, whatever the API returned: the cell of a (day, hour)
    square is at index [24 * day + hour], it is the cell the renderer's
    [find] picks for that square, and it carries the last item of the
    data for that square (a later item replaces an earlier one), or no
    item and the value 0 when the data has none. *)
Theorem heatmap_grid (data : list ActivityPattern.t) (day hour : Z) :
  (0 <= day < 7)%Z -> (0 <= hour < 24)%Z ->
  let cell :=
    ActivityHeatmap.Cell.mk day hour
      (ActivityHeatmap.valueOf (lastItemFor data day hour))
      (lastItemFor data day hour) in
  length (ActivityHeatmap.cells data) = 168%nat
  /\ nth_error (ActivityHeatmap.cells data) (Z.to_nat (24 * day + hour))
     = Some cell
  /\ ActivityHeatmap.findCell data day hour = Some cell
  /\ (lastItemFor data day hour = None ->
      ActivityHeatmap.shownValue data day hour = 0)
  /\ (forall it, lastItemFor data day hour = Some it ->
      ActivityHeatmap.shownValue data day hour
      == ActivityPattern.activityLevel it).
Proof.
  intros Hd Hh cell. split; [| split; [| split; [| split]]].
  - unfold ActivityHeatmap.cells. cbv zeta.
    now rewrite length_grid, length_range.
  - now apply cells_nth.
  - now apply findCell_cell.
  - intro Hnone. unfold ActivityHeatmap.shownValue.
    rewrite (findCell_cell data Hd Hh). simpl. now rewrite Hnone.
  - intros it Hsome. unfold ActivityHeatmap.shownValue.
    rewrite (findCell_cell data Hd Hh). cbn [ActivityHeatmap.Cell.value].
    rewrite falsy_or_zero, Hsome. apply valueOf_level.
Qed.

Lemma heatmap_grid_witness :
  nth_error (ActivityHeatmap.cells repeatedSquare) 33
  = Some (ActivityHeatmap.Cell.mk 1 9 75
            (Some (ActivityPattern.mk 9 1 75 110 12))).
Proof.
  assert (Hd : (0 <= 1 < 7)%Z) by lia.
  assert (Hh : (0 <= 9 < 24)%Z) by lia.
  exact (proj1 (proj2 (@heatmap_grid repeatedSquare 1 9 Hd Hh))).
Defined.

(** ** The heatmap grid over the engine's heatmap *)

Lemma cell_filter (e : Env) (measurements : list RTTMeasurement.t)
    (day hour : Z) :
  filter (fun m =>
            AnalyticsEngine.key_eqb (day, hour)
              (getDay e (RTTMeasurement.timestamp m),
               getHours e (RTTMeasurement.timestamp m)))
         measurements
  = cellMeasurements e measurements day hour.
Proof.
  unfold cellMeasurements. apply filter_ext. intro m.
  unfold AnalyticsEngine.key_eqb. simpl.
  now rewrite (Z.eqb_sym day), (Z.eqb_sym hour).
Qed.

(** The item the grid finds for a square in the engine's heatmap is the
    entry computed from the measurements of that square. *)
Lemma lastItemFor_engine (e : Env) (measurements : list RTTMeasurement.t)
    (day hour : Z) :
  match lastItemFor
          (ActivityPatterns.heatmap
             (AnalyticsEngine.analyzeActivityPatterns e measurements))
          day hour with
  | Some it =>
      cellMeasurements e measurements day hour <> []
      /\ ActivityPattern.activityLevel it
         = Qnat (length (filter AnalyticsEngine.isOnline
                           (cellMeasurements e measurements day hour)))
           / Qnat (length (cellMeasurements e measurements day hour)) * 100
  | None => cellMeasurements e measurements day hour = []
  end.
Proof.
  unfold AnalyticsEngine.analyzeActivityPatterns.
  destruct (Nat.eqb_spec (length measurements) 0) as [Hemp | Hne].
  { apply length_zero_iff_nil in Hemp. subst. reflexivity. }
  cbv zeta. cbn [ActivityPatterns.heatmap].
  set (keyOf := fun m : RTTMeasurement.t =>
                  (getDay e (RTTMeasurement.timestamp m),
                   getHours e (RTTMeasurement.timestamp m))).
  set (groups := groupBy AnalyticsEngine.key_eqb keyOf measurements).
  set (entryOf := fun entry : Z * Z * list RTTMeasurement.t => _).
  unfold lastItemFor.
  destruct (find _ (rev (map entryOf groups))) as [it |] eqn:Efind.
  - apply find_some in Efind as [Hin Hkey].
    apply in_rev, in_map_iff in Hin as [[[d h] data] [<- Hin]].
    cbn [entryOf ActivityPattern.day ActivityPattern.hour
         ActivityPattern.activityLevel] in Hkey |- *.
    apply key_eqb_eq in Hkey. injection Hkey as <- <-.
    apply (groupBy_entry AnalyticsEngine.key_eqb key_eqb_eq) in Hin
      as [Hdata Hnonempty].
    unfold keyOf in Hdata. rewrite cell_filter in Hdata. subst data.
    split; [exact Hnonempty | reflexivity].
  - destruct (cellMeasurements e measurements day hour) as [| x rest] eqn:Ec;
      [reflexivity | exfalso].
    assert (Hx : In x (cellMeasurements e measurements day hour))
      by (rewrite Ec; now left).
    rewrite <- cell_filter in Hx. apply filter_In in Hx as [Hx Hkx].
    apply key_eqb_eq in Hkx.
    assert (Hk : In (day, hour) (map fst groups)).
    { apply (groupBy_keys_In AnalyticsEngine.key_eqb key_eqb_eq).
      exists x. split; [exact Hx | now symmetry]. }
    apply in_map_iff in Hk as [[[d h] data] [Hfst Hin]]. simpl in Hfst.
    injection Hfst as -> ->.
    assert (Hit : In (entryOf ((day, hour), data)) (rev (map entryOf groups))).
    { apply -> in_rev. now apply in_map. }
    apply (find_none _ _ Efind) in Hit.
    cbn [entryOf ActivityPattern.day ActivityPattern.hour] in Hit.
    rewrite (proj2 (key_eqb_eq (day, hour) (day, hour)) eq_refl) in Hit.
    discriminate.
Qed.

Lemma cellOnlineShare_range (e : Env) (measurements : list RTTMeasurement.t)
    (day hour : Z) :
  0 <= cellOnlineShare e measurements day hour <= 100.
Proof.
  unfold cellOnlineShare. cbv zeta.
  destruct (Nat.eqb_spec (length (cellMeasurements e measurements day hour)) 0)
    as [_ | Hne]; [lra |].
  apply percent_range; [apply filter_length_le | lia].
Qed.

Lemma valueOf_engine (e : Env) (measurements : list RTTMeasurement.t)
    (day hour : Z) :
  ActivityHeatmap.valueOf
    (lastItemFor
       (ActivityPatterns.heatmap
          (AnalyticsEngine.analyzeActivityPatterns e measurements))
       day hour)
  == cellOnlineShare e measurements day hour.
Proof.
  pose proof (lastItemFor_engine e measurements day hour) as H.
  destruct (lastItemFor _ day hour) as [it |].
  - destruct H as [Hne Hlevel]. rewrite valueOf_level, Hlevel.
    unfold cellOnlineShare. cbv zeta.
    destruct (Nat.eqb_spec (length (cellMeasurements e measurements day hour)) 0)
      as [Hz | _]; [| reflexivity].
    apply length_zero_iff_nil in Hz. contradiction.
  - unfold cellOnlineShare. cbv zeta. rewrite H. reflexivity.
Qed.

(** X25.  End to end, from the measurements to a square of the client's
    grid: fed with the heatmap of [analyzeActivityPatterns], the square of
    a (day, hour) pair shows the share of Online measurements among the
    measurements of that pair, in percent, and 0 for a pair without
    measurements; the value is between 0 and 100, and the cell carries an
    item exactly when the pair has a measurement. *)
Theorem heatmap_grid_of_engine (e : Env) (measurements : list RTTMeasurement.t)
    (day hour : Z) :
  (0 <= day < 7)%Z -> (0 <= hour < 24)%Z ->
  let data :=
    ActivityPatterns.heatmap
      (AnalyticsEngine.analyzeActivityPatterns e measurements) in
  exists cell,
    ActivityHeatmap.findCell data day hour = Some cell
    /\ ActivityHeatmap.Cell.value cell
       == cellOnlineShare e measurements day hour
    /\ ActivityHeatmap.shownValue data day hour
       == cellOnlineShare e measurements day hour
    /\ 0 <= ActivityHeatmap.shownValue data day hour <= 100
    /\ (ActivityHeatmap.Cell.data cell = None
        <-> cellMeasurements e measurements day hour = []).
Proof.
  intros Hd Hh data.
  exists (ActivityHeatmap.Cell.mk day hour
            (ActivityHeatmap.valueOf (lastItemFor data day hour))
            (lastItemFor data day hour)).
  assert (Hshown : ActivityHeatmap.shownValue data day hour
                   == cellOnlineShare e measurements day hour).
  { unfold ActivityHeatmap.shownValue. rewrite (findCell_cell data Hd Hh).
    cbn [ActivityHeatmap.Cell.value]. rewrite falsy_or_zero.
    apply valueOf_engine. }
  split; [now apply findCell_cell |].
  split; [apply valueOf_engine |].
  split; [exact Hshown |].
  split.
  - rewrite Hshown. apply cellOnlineShare_range.
  - cbn [ActivityHeatmap.Cell.data].
    pose proof (lastItemFor_engine e measurements day hour) as H.
    fold data in H.
    destruct (lastItemFor data day hour) as [it |].
    + destruct H as [Hne _]. split; [discriminate | contradiction].
    + split; [intros _; exact H | reflexivity].
Qed.

Lemma heatmap_grid_of_engine_witness :
  exists cell,
    ActivityHeatmap.findCell
      (ActivityPatterns.heatmap
         (AnalyticsEngine.analyzeActivityPatterns (utcAt 0) neverOnline))
      4 0 = Some cell
    /\ ActivityHeatmap.Cell.value cell
       == cellOnlineShare (utcAt 0) neverOnline 4 0.
Proof.
  assert (Hd : (0 <= 4 < 7)%Z) by lia.
  assert (Hh : (0 <= 0 < 24)%Z) by lia.
  destruct (@heatmap_grid_of_engine (utcAt 0) neverOnline 4 0 Hd Hh)
    as [cell [Hfind [Hvalue _]]].
  exists cell. split; [exact Hfind | exact Hvalue].
Defined.

(** ** The hourly bars of the client *)

Lemma filter_flat_map (A B : Type) (p : B -> bool) (g : A -> list B)
    (l : list A) :
  filter p (flat_map g l) = flat_map (fun x => filter p (g x)) l.
Proof.
  induction l as [| x l IH]; simpl; [reflexivity |].
  now rewrite filter_app, IH.
Qed.

Lemma flat_map_singleton (A B : Type) (f : A -> B) (l : list A) :
  flat_map (fun x => [f x]) l = map f l.
Proof. induction l as [| x l IH]; simpl; [reflexivity | now rewrite IH]. Qed.

Lemma filter_map_select (B : Type) (f : Z -> B) (key : B -> Z) (h : Z)
    (l : list Z) :
  (forall x, key (f x) = x) -> NoDup l -> In h l ->
  filter (fun c => Z.eqb (key c) h) (map f l) = [f h].
Proof.
  intros Hkey Hnd Hin. induction l as [| x l IH]; [contradiction |].
  inversion Hnd as [| ? ? Hx Hl]; subst. simpl. rewrite Hkey.
  destruct (Z.eqb_spec x h) as [-> | Hne].
  - f_equal. apply filter_none. intros c Hc.
    apply in_map_iff in Hc as [y [<- Hy]]. rewrite Hkey.
    apply Z.eqb_neq. intros ->. contradiction.
  - destruct Hin as [-> | Hin]; [contradiction | now apply IH].
Qed.

Lemma range_In (n : nat) (x : Z) : In x (range n) <-> (0 <= x < Z.of_nat n)%Z.
Proof.
  unfold range. rewrite in_map_iff. split.
  - intros [i [<- Hi]]. apply in_seq in Hi. lia.
  - intro H. exists (Z.to_nat x). split; [lia | apply in_seq; lia].
Qed.

Lemma range_NoDup (n : nat) : NoDup (range n).
Proof.
  unfold range. apply Finite.Injective_map_NoDup; [| apply seq_NoDup].
  intros a b. lia.
Qed.

(** The cells of one hour are the seven cells of its column, by day. *)
Lemma hourCells_column (data : list ActivityPattern.t) (hour : Z) :
  (0 <= hour < 24)%Z ->
  filter (fun c => Z.eqb (ActivityHeatmap.Cell.hour c) hour)
         (ActivityHeatmap.cells data)
  = map (fun day =>
           ActivityHeatmap.Cell.mk day hour
             (ActivityHeatmap.valueOf (lastItemFor data day hour))
             (lastItemFor data day hour))
        (range 7).
Proof.
  intro Hh. unfold ActivityHeatmap.cells. cbv zeta.
  rewrite filter_flat_map.
  rewrite <- flat_map_singleton. apply flat_map_ext. intro day.
  rewrite (@filter_map_select _
             (fun hour =>
                ActivityHeatmap.Cell.mk day hour
                  (ActivityHeatmap.valueOf
                     (ActivityHeatmap.mapGet (day, hour)
                        (ActivityHeatmap.dataMapOf data)))
                  (ActivityHeatmap.mapGet (day, hour)
                     (ActivityHeatmap.dataMapOf data)))
             ActivityHeatmap.Cell.hour hour (range 24)).
  - now rewrite mapGet_dataMapOf.
  - reflexivity.
  - apply range_NoDup.
  - apply range_In. lia.
Qed.

Lemma sum_bounds (xs : list Q) (lo hi : Q) :
  (forall x, In x xs -> lo <= x <= hi) ->
  Qnat (length xs) * lo <= sum xs <= Qnat (length xs) * hi.
Proof.
  induction xs as [| x t IH]; intro H.
  - change (0 * lo <= 0 <= 0 * hi). lra.
  - rewrite sum_cons. cbn [length]. rewrite Qnat_S.
    assert (Hx : lo <= x <= hi) by (apply H; now left).
    assert (Ht : Qnat (length t) * lo <= sum t <= Qnat (length t) * hi)
      by (apply IH; intros y Hy; apply H; now right).
    lra.
Qed.

Lemma hourlyData_nth (data : list ActivityPattern.t) (hour : Z) :
  (0 <= hour < 24)%Z ->
  nth_error (ActivityHeatmap.hourlyData data) (Z.to_nat hour)
  = Some (hour,
          sum (map (fun day =>
                      ActivityHeatmap.valueOf (lastItemFor data day hour))
                   (range 7)) / Qnat 7).
Proof.
  intro Hh. unfold ActivityHeatmap.hourlyData. cbv zeta.
  unfold arrayFrom. rewrite nth_error_map.
  rewrite (nth_error_nth' _ 0%nat) by (rewrite length_seq; lia).
  rewrite seq_nth by lia. cbn [option_map]. rewrite Nat.add_0_l, Z2Nat.id by lia.
  rewrite (hourCells_column data Hh), length_map, length_range, map_map.
  reflexivity.
Qed.

(** X26.  The bar chart of the client has one bar per hour 0..23; over the
    engine's heatmap the bar of an hour is the mean, over the seven days
    of the week, of the squares' Online shares, a day without
    measurements in that hour counting as 0.  It is between 0 and 100. *)
Theorem hourlyData_of_engine (e : Env) (measurements : list RTTMeasurement.t)
    (hour : Z) :
  (0 <= hour < 24)%Z ->
  let data :=
    ActivityPatterns.heatmap
      (AnalyticsEngine.analyzeActivityPatterns e measurements) in
  length (ActivityHeatmap.hourlyData data) = 24%nat
  /\ exists activity,
       nth_error (ActivityHeatmap.hourlyData data) (Z.to_nat hour)
       = Some (hour, activity)
       /\ activity
          == sum (map (fun day => cellOnlineShare e measurements day hour)
                      (range 7)) / 7
       /\ 0 <= activity <= 100.
Proof.
  intros Hh data.
  split; [unfold ActivityHeatmap.hourlyData; apply arrayFrom_length |].
  rewrite (hourlyData_nth data Hh).
  eexists. split; [reflexivity |].
  assert (Hsum : sum (map (fun day =>
                             ActivityHeatmap.valueOf (lastItemFor data day hour))
                          (range 7))
                 == sum (map (fun day => cellOnlineShare e measurements day hour)
                             (range 7))).
  { apply sum_map_ext. intro day. apply valueOf_engine. }
  split.
  - rewrite Hsum. reflexivity.
  - rewrite Hsum.
    pose proof (@sum_bounds
                  (map (fun day => cellOnlineShare e measurements day hour)
                       (range 7)) 0 100) as B.
    rewrite length_map, length_range in B.
    assert (Hall : forall x,
              In x (map (fun day => cellOnlineShare e measurements day hour)
                        (range 7)) -> 0 <= x <= 100).
    { intros x Hx. apply in_map_iff in Hx as [day [<- _]].
      apply cellOnlineShare_range. }
    specialize (B Hall).
    change (Qnat 7) with 7 in *.
    generalize dependent (sum (map (fun day =>
                                      cellOnlineShare e measurements day hour)
                                   (range 7))).
    intros s _ B. split.
    + apply Qle_shift_div_l; lra.
    + apply Qle_shift_div_r; lra.
Qed.

Lemma hourlyData_of_engine_witness :
  length (ActivityHeatmap.hourlyData
            (ActivityPatterns.heatmap
               (AnalyticsEngine.analyzeActivityPatterns (utcAt 0) oneHour)))
  = 24%nat.
Proof.
  assert (Hh : (0 <= 0 < 24)%Z) by lia.
  exact (proj1 (@hourlyData_of_engine (utcAt 0) oneHour 0 Hh)).
Defined.

(** ** The timeline of the client *)

Lemma windowTime_floor (timestamp : Z) :
  TimelineView.windowTime timestamp = (timestamp / 300000 * 300000)%Z.
Proof.
  unfold TimelineView.windowTime, Math_floor.
  change (5 * 60 * 1000)%Z with 300000%Z. f_equal.
  unfold Qdiv, Qinv, Qmult, inject_Z, Qfloor. cbn [Qnum Qden].
  now rewrite Z.mul_1_r.
Qed.

Lemma windowTime_bounds (timestamp : Z) :
  (TimelineView.windowTime timestamp mod 300000 = 0
   /\ TimelineView.windowTime timestamp <= timestamp
      < TimelineView.windowTime timestamp + 300000)%Z.
Proof.
  rewrite windowTime_floor. split; [apply Z.mod_mul; lia |].
  pose proof (Z.div_mod timestamp 300000).
  pose proof (Z.mod_pos_bound timestamp 300000). lia.
Qed.

Lemma addToWindow_keys (k : Z) (t : StateTransition.t)
    (m : list (Z * TimelineView.Counts.t)) :
  map fst (TimelineView.addToWindow k t m) = setAdd Z.eqb k (map fst m).
Proof.
  induction m as [| [k' w] rest IH]; simpl; [reflexivity |].
  destruct (Z.eqb k k'); simpl; [reflexivity | now rewrite IH].
Qed.

Lemma windowAt_addToWindow (k k' : Z) (t : StateTransition.t)
    (m : list (Z * TimelineView.Counts.t)) :
  windowAt k' (TimelineView.addToWindow k t m)
  = if Z.eqb k' k then TimelineView.count t (windowAt k m)
    else windowAt k' m.
Proof.
  induction m as [| [k0 w] rest IH]; simpl.
  - now destruct (Z.eqb k' k).
  - destruct (Z.eqb_spec k k0) as [E1 | E1]; simpl.
    + destruct (Z.eqb_spec k' k0) as [E2 | E2];
        destruct (Z.eqb_spec k' k) as [E3 | E3]; congruence.
    + rewrite IH.
      destruct (Z.eqb_spec k' k0) as [E2 | E2];
        destruct (Z.eqb_spec k' k) as [E3 | E3]; congruence.
Qed.

Lemma windowAt_In (k : Z) (w : TimelineView.Counts.t)
    (m : list (Z * TimelineView.Counts.t)) :
  NoDup (map fst m) -> In (k, w) m -> windowAt k m = w.
Proof.
  induction m as [| [k' w'] rest IH]; simpl; [intros _ [] |].
  intros Hnd [Heq | Hin].
  - injection Heq as -> ->. now rewrite Z.eqb_refl.
  - inversion Hnd as [| ? ? Hk Hrest]; subst.
    destruct (Z.eqb_spec k k') as [-> | _]; [| now apply IH].
    exfalso. apply Hk. now apply (in_map fst) in Hin.
Qed.

Lemma timeWindowsOf_snoc (ts : list StateTransition.t) (x : StateTransition.t) :
  TimelineView.timeWindowsOf (ts ++ [x])
  = TimelineView.addToWindow
      (TimelineView.windowTime (StateTransition.timestamp x)) x
      (TimelineView.timeWindowsOf ts).
Proof. unfold TimelineView.timeWindowsOf. now rewrite fold_left_app. Qed.

Lemma timeWindows_keys (ts : list StateTransition.t) :
  map fst (TimelineView.timeWindowsOf ts)
  = fold_left (fun acc k => setAdd Z.eqb k acc)
      (map (fun t => TimelineView.windowTime (StateTransition.timestamp t)) ts)
      [].
Proof.
  induction ts as [| x ts IH] using rev_ind; [reflexivity |].
  rewrite timeWindowsOf_snoc, addToWindow_keys, IH, map_app.
  cbn [map]. now rewrite fold_setAdd_snoc.
Qed.

Lemma timeWindows_keys_NoDup (ts : list StateTransition.t) :
  NoDup (map fst (TimelineView.timeWindowsOf ts)).
Proof.
  rewrite timeWindows_keys. apply (fold_setAdd_NoDup Z.eqb Z.eqb_eq).
  constructor.
Qed.

Lemma timeWindows_keys_In (k : Z) (ts : list StateTransition.t) :
  In k (map fst (TimelineView.timeWindowsOf ts))
  <-> exists t, In t ts
                /\ TimelineView.windowTime (StateTransition.timestamp t) = k.
Proof.
  rewrite timeWindows_keys, (fold_setAdd_In Z.eqb Z.eqb_eq), in_map_iff. split.
  - intros [[] | [t [Hk Ht]]]. eauto.
  - intros [t [Ht Hk]]. right. eauto.
Qed.

Lemma windowCount_snoc (ts : list StateTransition.t) (x : StateTransition.t)
    (k : Z) (state : string) :
  windowCount (ts ++ [x]) k state
  = (windowCount ts k state
     + if Z.eqb (TimelineView.windowTime (StateTransition.timestamp x)) k
          && String.eqb (StateTransition.toState x) state
       then 1 else 0)%nat.
Proof.
  unfold windowCount. rewrite filter_app, length_app. f_equal. simpl.
  now destruct (Z.eqb _ k && String.eqb _ state).
Qed.

(** The three counters of a window count the transitions of the window by
    the state they lead to. *)
Lemma timeWindows_counts (ts : list StateTransition.t) (k : Z) :
  TimelineView.Counts.online (windowAt k (TimelineView.timeWindowsOf ts))
  = windowCount ts k "Online"
  /\ TimelineView.Counts.standby (windowAt k (TimelineView.timeWindowsOf ts))
     = windowCount ts k "Standby"
  /\ TimelineView.Counts.offline (windowAt k (TimelineView.timeWindowsOf ts))
     = windowCount ts k "OFFLINE".
Proof.
  induction ts as [| x ts IH] using rev_ind; [repeat split |].
  destruct IH as [IH1 [IH2 IH3]].
  rewrite timeWindowsOf_snoc, windowAt_addToWindow, !windowCount_snoc.
  rewrite (Z.eqb_sym k).
  destruct (Z.eqb_spec (TimelineView.windowTime (StateTransition.timestamp x)) k)
    as [-> | Hne]; cbn [andb].
  - rewrite <- IH1, <- IH2, <- IH3. unfold TimelineView.count.
    destruct (String.eqb_spec (StateTransition.toState x) "Online") as [E1 | E1].
    { rewrite E1. cbn. repeat split; lia. }
    destruct (String.eqb_spec (StateTransition.toState x) "Standby") as [E2 | E2].
    { rewrite E2. cbn. repeat split; lia. }
    destruct (String.eqb_spec (StateTransition.toState x) "OFFLINE") as [E3 | E3].
    { cbn. repeat split; lia. }
    repeat split; lia.
  - rewrite IH1, IH2, IH3. repeat split; lia.
Qed.

Lemma windowCount_perm (ts ts' : list StateTransition.t) (k : Z)
    (state : string) :
  Permutation ts ts' -> windowCount ts k state = windowCount ts' k state.
Proof. intro H. unfold windowCount. now apply filter_length_perm. Qed.

Lemma strictly_sorted_keys (V : Type) (l : list (Z * V)) :
  StronglySorted (fun a b => Z.leb (fst a) (fst b) = true) l ->
  NoDup (map fst l) -> StronglySorted Z.lt (map fst l).
Proof.
  induction 1 as [| a l Hs IH Hall]; intro Hnd; simpl; constructor.
  - apply IH. now inversion Hnd.
  - inversion Hnd as [| ? ? Ha Hl]; subst.
    rewrite Forall_forall in Hall |- *. intros k Hk.
    apply in_map_iff in Hk as [b [<- Hb]].
    pose proof (Hall b Hb) as Hle. apply Z.leb_le in Hle.
    assert (fst a <> fst b) by (intros E; apply Ha; rewrite E; now apply in_map).
    lia.
Qed.

(** X27.  The points of the client's timeline: their timestamps are
    strictly increasing, so no five-minute window has two points; they
    are exactly the windows in which a transition falls, each a multiple
    of five minutes; and the three counters of a point are the numbers of
    transitions of its window that lead to Online, to Standby and to
    OFFLINE, whatever the order of the transitions. *)
Theorem timeline_points (transitions : list StateTransition.t) :
  let points := TimelineView.timelineData transitions in
  StronglySorted Z.lt (map TimelineView.TimelineData.timestamp points)
  /\ (forall window,
        In window (map TimelineView.TimelineData.timestamp points)
        <-> exists t, In t transitions
                      /\ TimelineView.windowTime (StateTransition.timestamp t)
                         = window)
  /\ (forall p, In p points ->
        (TimelineView.TimelineData.timestamp p mod 300000 = 0)%Z
        /\ TimelineView.TimelineData.online p
           = windowCount transitions (TimelineView.TimelineData.timestamp p)
               "Online"
        /\ TimelineView.TimelineData.standby p
           = windowCount transitions (TimelineView.TimelineData.timestamp p)
               "Standby"
        /\ TimelineView.TimelineData.offline p
           = windowCount transitions (TimelineView.TimelineData.timestamp p)
               "OFFLINE").
Proof.
  cbv zeta. unfold TimelineView.timelineData. cbv zeta.
  set (sortedTransitions :=
         sort (fun a b => Z.leb (StateTransition.timestamp a)
                                (StateTransition.timestamp b)) transitions).
  set (timeWindows := TimelineView.timeWindowsOf sortedTransitions).
  set (byKey := fun a b : Z * TimelineView.Counts.t => Z.leb (fst a) (fst b)).
  set (pointOf := fun entry : Z * TimelineView.Counts.t => _).
  assert (Hperm : Permutation sortedTransitions transitions)
    by apply sort_perm.
  assert (Hwin : Permutation (sort byKey timeWindows) timeWindows)
    by apply sort_perm.
  assert (Hts : forall entry,
            TimelineView.TimelineData.timestamp (pointOf entry) = fst entry)
    by now intros [k w].
  assert (Hkeys : map TimelineView.TimelineData.timestamp
                    (map pointOf (sort byKey timeWindows))
                  = map fst (sort byKey timeWindows)).
  { rewrite map_map. apply map_ext. exact Hts. }
  assert (Hnd : NoDup (map fst (sort byKey timeWindows))).
  { apply (@Permutation_NoDup _ (map fst timeWindows)).
    - apply Permutation_map, Permutation_sym, Hwin.
    - apply timeWindows_keys_NoDup. }
  split; [| split].
  - rewrite Hkeys. apply strictly_sorted_keys; [| exact Hnd].
    apply sort_strongly_sorted.
    + intros x y Hxy. unfold byKey in *. apply Z.leb_le.
      apply Z.leb_gt in Hxy. lia.
    + intros x y z Hxy Hyz. unfold byKey in *. apply Z.leb_le.
      apply Z.leb_le in Hxy, Hyz. lia.
  - intro window. rewrite Hkeys. split.
    + intro Hin.
      apply (Permutation_in _ (Permutation_map fst Hwin)) in Hin.
      apply timeWindows_keys_In in Hin as [t [Ht Hk]].
      exists t. split; [| exact Hk].
      now apply (Permutation_in _ Hperm).
    + intros [t [Ht Hk]].
      apply (Permutation_in _ (Permutation_map fst (Permutation_sym Hwin))).
      apply timeWindows_keys_In. exists t. split; [| exact Hk].
      now apply (Permutation_in _ (Permutation_sym Hperm)).
  - intros p Hp. apply in_map_iff in Hp as [[k w] [<- Hin]].
    cbn [pointOf TimelineView.TimelineData.timestamp
         TimelineView.TimelineData.online TimelineView.TimelineData.standby
         TimelineView.TimelineData.offline].
    apply (Permutation_in _ Hwin) in Hin.
    assert (Hk : In k (map fst timeWindows)) by now apply (in_map fst) in Hin.
    unfold timeWindows in Hk. apply timeWindows_keys_In in Hk as [t [_ Hk]].
    assert (Hw : windowAt k timeWindows = w)
      by (apply windowAt_In; [apply timeWindows_keys_NoDup | exact Hin]).
    destruct (timeWindows_counts sortedTransitions k) as [C1 [C2 C3]].
    fold timeWindows in C1, C2, C3. rewrite Hw in C1, C2, C3.
    rewrite <- !(windowCount_perm k _ Hperm).
    split; [| now repeat split].
    rewrite <- Hk. apply windowTime_bounds.
Qed.

(** ** The hourly bars and the engine's daily pattern *)

Lemma sum_only (f : Z -> Q) (l : list Z) (d0 : Z) :
  NoDup l -> In d0 l -> (forall d, In d l -> d <> d0 -> f d == 0) ->
  sum (map f l) == f d0.
Proof.
  intros Hnd. induction Hnd as [| x t Hx Ht IH]; intros Hin Hzero;
    [contradiction |].
  cbn [map]. rewrite sum_cons.
  destruct (Z.eq_dec x d0) as [-> | Hne].
  - assert (Hrest : sum (map f t) == 0).
    { apply sum_all_zero. intros y Hy.
      apply in_map_iff in Hy as [d [<- Hd]].
      apply Hzero; [now right | intros ->; contradiction]. }
    rewrite Hrest. ring.
  - destruct Hin as [-> | Hin]; [contradiction |].
    rewrite (Hzero x (or_introl eq_refl) Hne), IH; [ring | exact Hin |].
    intros d Hd. apply Hzero. now right.
Qed.

Lemma daily_nth (e : Env) (measurements : list RTTMeasurement.t) (hour : Z) :
  measurements <> [] -> (0 <= hour < 24)%Z ->
  let hourData :=
    filter (fun m => Z.eqb hour (getHours e (RTTMeasurement.timestamp m)))
           measurements in
  nth_error
    (ActivityPatterns.daily
       (AnalyticsEngine.analyzeActivityPatterns e measurements))
    (Z.to_nat hour)
  = Some (DailyPattern.mk hour (length hourData)
            (if Nat.ltb 0 (length hourData)
             then AnalyticsEngine.sumRtt hourData / Qnat (length hourData)
             else 0)
            (if Nat.ltb 0 (length hourData)
             then Qnat (length (filter AnalyticsEngine.isOnline hourData))
                  / Qnat (length hourData) * 100
             else 0)).
Proof.
  intros Hne Hh hourData. subst hourData.
  unfold AnalyticsEngine.analyzeActivityPatterns.
  assert (Hlen : Nat.eqb (length measurements) 0 = false)
    by (destruct measurements; [contradiction | reflexivity]).
  rewrite Hlen. cbv zeta. cbn [ActivityPatterns.daily].
  unfold arrayFrom. rewrite nth_error_map.
  rewrite (nth_error_nth' _ 0%nat) by (rewrite length_seq; lia).
  rewrite seq_nth by lia. cbn [option_map]. rewrite Nat.add_0_l, Z2Nat.id by lia.
  rewrite (getOrEmpty_groupBy Z.eqb Z.eqb_eq). reflexivity.
Qed.

(** X28.  The client's bar for an hour is not the engine's daily Online
    percentage for that hour: the bar averages the seven squares of the
    hour, a weekday without measurements counting as 0.  So when all
    measurements fall on one weekday, the bar shows one seventh of the
    daily percentage. *)
Theorem hourly_bar_of_one_weekday (e : Env)
    (measurements : list RTTMeasurement.t) (day0 hour : Z) :
  measurements <> [] -> (0 <= hour < 24)%Z ->
  (forall m, In m measurements ->
     getDay e (RTTMeasurement.timestamp m) = day0) ->
  let r := AnalyticsEngine.analyzeActivityPatterns e measurements in
  exists activity daily,
    nth_error (ActivityHeatmap.hourlyData (ActivityPatterns.heatmap r))
              (Z.to_nat hour) = Some (hour, activity)
    /\ nth_error (ActivityPatterns.daily r) (Z.to_nat hour) = Some daily
    /\ DailyPattern.hour daily = hour
    /\ activity == DailyPattern.onlinePercentage daily / 7.
Proof.
  intros Hne Hh Hday r. subst r.
  eexists. eexists.
  split; [apply (hourlyData_nth _ Hh) |].
  split; [apply (daily_nth e Hne Hh) |].
  split; [reflexivity |].
  cbn [DailyPattern.onlinePercentage]. change (Qnat 7) with 7.
  assert (Hsum : sum (map (fun day =>
                             ActivityHeatmap.valueOf
                               (lastItemFor
                                  (ActivityPatterns.heatmap
                                     (AnalyticsEngine.analyzeActivityPatterns
                                        e measurements)) day hour))
                          (range 7))
                 == cellOnlineShare e measurements day0 hour).
  { rewrite (sum_map_ext _ (fun day => cellOnlineShare e measurements day hour))
      by (intro day; apply valueOf_engine).
    apply (sum_only (fun day => cellOnlineShare e measurements day hour)).
    - apply range_NoDup.
    - destruct measurements as [| m0 ms0]; [contradiction |].
      rewrite <- (Hday m0 (or_introl eq_refl)).
      apply range_In. apply getDay_range.
    - intros d _ Hd. unfold cellOnlineShare, cellMeasurements. cbv zeta.
      rewrite filter_none; [reflexivity |].
      intros m Hm. rewrite (Hday m Hm).
      destruct (Z.eqb_spec day0 d) as [E | _]; [congruence | reflexivity]. }
  rewrite Hsum. unfold cellOnlineShare. cbv zeta.
  assert (Hcell : cellMeasurements e measurements day0 hour
                  = filter (fun m =>
                              Z.eqb hour
                                (getHours e (RTTMeasurement.timestamp m)))
                           measurements).
  { unfold cellMeasurements. apply filter_ext_in. intros m Hm.
    rewrite (Hday m Hm), Z.eqb_refl. cbn [andb]. apply Z.eqb_sym. }
  rewrite Hcell.
  destruct (length (filter (fun m =>
                              Z.eqb hour
                                (getHours e (RTTMeasurement.timestamp m)))
                           measurements)) as [| n]; reflexivity.
Qed.

Lemma hourly_bar_of_one_weekday_witness :
  exists activity daily,
    nth_error
      (ActivityHeatmap.hourlyData
         (ActivityPatterns.heatmap
            (AnalyticsEngine.analyzeActivityPatterns (utcAt 0) oneHour)))
      0 = Some (0%Z, activity)
    /\ nth_error
         (ActivityPatterns.daily
            (AnalyticsEngine.analyzeActivityPatterns (utcAt 0) oneHour))
         0 = Some daily
    /\ activity == DailyPattern.onlinePercentage daily / 7.
Proof.
  assert (Hne : oneHour <> []) by discriminate.
  assert (Hh : (0 <= 0 < 24)%Z) by lia.
  assert (Hday : forall m, In m oneHour ->
            getDay (utcAt 0) (RTTMeasurement.timestamp m) = 4%Z).
  { intros m Hm. apply repeat_spec in Hm. subst m. reflexivity. }
  destruct (@hourly_bar_of_one_weekday (utcAt 0) oneHour 4 0 Hne Hh Hday)
    as [activity [daily [H1 [H2 [_ H4]]]]].
  exists activity, daily. split; [exact H1 |]. split; [exact H2 | exact H4].
Defined.

(** * Properties over doubles *)

(** ** Comparisons with a threshold *)

(** A number below a positive threshold is not above a positive threshold
    of a higher binade. *)
Lemma below_not_above (x : Double.t) (m1 m2 : positive) (e1 e2 : Z) :
  (e1 < e2)%Z ->
  Double.ltb x (S754_finite false m1 e1) = true ->
  Double.gtb x (S754_finite false m2 e2) = false.
Proof.
  intros He Hlt. unfold Double.ltb, Double.gtb, SFltb in *.
  destruct x as [s | s | | s m e]; cbn [SFcompare] in *.
  - reflexivity.
  - destruct s; [reflexivity | discriminate].
  - discriminate.
  - destruct s; [reflexivity |].
    destruct (Z.compare_spec e e1) as [Ee | Ee | Ee]; try discriminate.
    + subst e. destruct (Z.compare_spec e2 e1); try reflexivity; lia.
    + destruct (Z.compare_spec e2 e); try reflexivity; lia.
Qed.

Lemma ofZ_500 : Double.ofZ 500 = S754_finite false 8796093022208000 (-44).
Proof. reflexivity. Qed.

Lemma ofZ_800 : Double.ofZ 800 = S754_finite false 7036874417766400 (-43).
Proof. reflexivity. Qed.

Lemma ofZ_50000 : Double.ofZ 50000 = S754_finite false 6871947673600000 (-37).
Proof. reflexivity. Qed.

Lemma ofZ_100000 : Double.ofZ 100000 = S754_finite false 6871947673600000 (-36).
Proof. reflexivity. Qed.

Lemma ofZ_200 : Double.ofZ 200 = S754_finite false 7036874417766400 (-45).
Proof. reflexivity. Qed.

Lemma ofZ_400 : Double.ofZ 400 = S754_finite false 7036874417766400 (-44).
Proof. reflexivity. Qed.

Lemma below_500_not_above_800 (x : Double.t) :
  Double.ltb x (Double.ofZ 500) = true -> Double.gtb x (Double.ofZ 800) = false.
Proof. rewrite ofZ_500, ofZ_800. apply below_not_above. lia. Qed.

Lemma below_50000_not_above_100000 (x : Double.t) :
  Double.ltb x (Double.ofZ 50000) = true ->
  Double.gtb x (Double.ofZ 100000) = false.
Proof. rewrite ofZ_50000, ofZ_100000. apply below_not_above. lia. Qed.

Lemma below_200_not_above_400 (x : Double.t) :
  Double.ltb x (Double.ofZ 200) = true -> Double.gtb x (Double.ofZ 400) = false.
Proof. rewrite ofZ_200, ofZ_400. apply below_not_above. lia. Qed.

(** ** Network type *)


Lemma sortAscending64_length (h : list Double.t) :
  length (Double.sortAscending h) = length h.
Proof. apply sort_length. Qed.




(** *** The order of the sort

    The comparator [(a, b) => a - b] orders finite doubles by value: with
    gradual underflow a difference of two finite doubles rounds to zero
    only when they are equal, and rounding keeps its sign. *)

Section DoubleOrder.

Local Open Scope Z_scope.





















End DoubleOrder.

Lemma detectNetworkType64_unfold (h : list Double.t) :
  (10 <= length h)%nat ->
  let n := length h in
  let sorted := Double.sortAscending h in
  let median := nth (n / 2) sorted S754_nan in
  let iqr :=
    Double.sub (nth (3 * n / 4) sorted S754_nan) (nth (n / 4) sorted S754_nan) in
  let variance := NetworkIntelligence64.calculateVariance h in
  NetworkIntelligence64.detectNetworkType h
  = if Double.ltb median (Double.ofZ 500)
       && Double.ltb variance (Double.ofZ 50000)
       && Double.ltb iqr (Double.ofZ 200)
    then WiFi
    else if Double.gtb median (Double.ofZ 800)
            || Double.gtb variance (Double.ofZ 100000)
            || Double.gtb iqr (Double.ofZ 400)
    then Mobile else Unknown.
Proof.
  intros Hge n sorted median iqr variance.
  unfold NetworkIntelligence64.detectNetworkType.
  apply Nat.ltb_ge in Hge. rewrite Hge. cbv zeta. unfold Double.at_index.
  now rewrite sortAscending64_length, floor_half, floor_quarter,
    floor_three_quarters.
Qed.



(** X6.  On a history of at least 10 finite samples the WiFi condition
    (median < 500, variance < 50000, IQR < 200) and the Mobile condition
    (median > 800, variance > 100000 or IQR > 400), both on the doubles
    the code computes, never hold together, so the order in which
    [detectNetworkType] tests them does not matter: it returns Mobile
    exactly when the Mobile condition holds and WiFi exactly when the
    WiFi condition holds. *)
Theorem detectNetworkType_conditions_exclusive (h : list Double.t) :
  Forall finiteDouble h ->
  (10 <= length h)%nat ->
  let n := length h in
  let sorted := Double.sortAscending h in
  let median := nth (n / 2) sorted S754_nan in
  let iqr :=
    Double.sub (nth (3 * n / 4) sorted S754_nan) (nth (n / 4) sorted S754_nan) in
  let variance := NetworkIntelligence64.calculateVariance h in
  let wifi :=
    Double.ltb median (Double.ofZ 500) = true
    /\ Double.ltb variance (Double.ofZ 50000) = true
    /\ Double.ltb iqr (Double.ofZ 200) = true in
  let mobile :=
    Double.gtb median (Double.ofZ 800) = true
    \/ Double.gtb variance (Double.ofZ 100000) = true
    \/ Double.gtb iqr (Double.ofZ 400) = true in
  ~ (wifi /\ mobile)
  /\ (NetworkIntelligence64.detectNetworkType h = WiFi <-> wifi)
  /\ (NetworkIntelligence64.detectNetworkType h = Mobile <-> mobile)
  /\ (NetworkIntelligence64.detectNetworkType h = Unknown
      <-> ~ wifi /\ ~ mobile).
Proof.
  intros _ Hge n sorted median iqr variance wifi mobile.
  assert (Hexcl : ~ (wifi /\ mobile)).
  { intros [[Hm [Hv Hi]] [Hm' | [Hv' | Hi']]].
    - apply below_500_not_above_800 in Hm. congruence.
    - apply below_50000_not_above_100000 in Hv. congruence.
    - apply below_200_not_above_400 in Hi. congruence. }
  split; [exact Hexcl |].
  rewrite (detectNetworkType64_unfold h Hge). fold n sorted median iqr variance.
  assert (Hwifi :
    Double.ltb median (Double.ofZ 500)
    && Double.ltb variance (Double.ofZ 50000)
    && Double.ltb iqr (Double.ofZ 200) = true <-> wifi).
  { unfold wifi. rewrite !andb_true_iff. tauto. }
  assert (Hmobile :
    Double.gtb median (Double.ofZ 800)
    || Double.gtb variance (Double.ofZ 100000)
    || Double.gtb iqr (Double.ofZ 400) = true <-> mobile).
  { unfold mobile. rewrite !orb_true_iff. tauto. }
  destruct (Double.ltb median (Double.ofZ 500)
            && Double.ltb variance (Double.ofZ 50000)
            && Double.ltb iqr (Double.ofZ 200)).
  { assert (Hw : wifi) by now apply Hwifi.
    split; [tauto |]. split; split; try discriminate; tauto. }
  assert (Hnw : ~ wifi) by (intro Hw; apply Hwifi in Hw; discriminate).
  destruct (Double.gtb median (Double.ofZ 800)
            || Double.gtb variance (Double.ofZ 100000)
            || Double.gtb iqr (Double.ofZ 400)).
  - assert (Hm : mobile) by now apply Hmobile.
    split; [split; [discriminate | tauto] |].
    split; [tauto |]. split; [discriminate | tauto].
  - assert (Hnm : ~ mobile) by (intro Hm; apply Hmobile in Hm; discriminate).
    split; [split; [discriminate | tauto] |].
    split; split; try discriminate; tauto.
Qed.

Lemma detectNetworkType_conditions_exclusive_witness :
  Forall finiteDouble (ofIntegers (repeat 1000%Z 10))
  /\ (10 <= length (ofIntegers (repeat 1000%Z 10)))%nat
  /\ NetworkIntelligence64.detectNetworkType (ofIntegers (repeat 1000%Z 10))
     = Mobile.
Proof.
  assert (Hfin : Forall finiteDouble (ofIntegers (repeat 1000%Z 10)))
    by (repeat constructor).
  assert (Hlen : (10 <= length (ofIntegers (repeat 1000%Z 10)))%nat)
    by (vm_compute; lia).
  split; [exact Hfin |]. split; [exact Hlen |].
  apply (proj2 (proj1 (proj2 (proj2
    (@detectNetworkType_conditions_exclusive (ofIntegers (repeat 1000%Z 10))
       Hfin Hlen))))).
  left. reflexivity.
Defined.

(** X29.  The network type depends on the order of the samples: the mean
    and the variance are summed over the history as it arrives, and the
    last bits of the sums depend on the order.  The 25 samples of
    [spikesFirst] have a population variance of exactly 50000; with the
    three spikes first the computed variance is just below 50000 and the
    type is WiFi, with the spikes last it is 50000 and the type is
    Unknown. *)
Theorem detectNetworkType_order_dependent :
  Permutation spikesFirst spikesLast
  /\ populationVariance (map inject_Z spikesFirst) == 50000
  /\ Double.ltb (NetworkIntelligence64.calculateVariance (ofIntegers spikesFirst))
                (Double.ofZ 50000) = true
  /\ NetworkIntelligence64.calculateVariance (ofIntegers spikesLast)
     = Double.ofZ 50000
  /\ NetworkIntelligence64.detectNetworkType (ofIntegers spikesFirst) = WiFi
  /\ NetworkIntelligence64.detectNetworkType (ofIntegers spikesLast) = Unknown.
Proof.
  split; [apply Permutation_app_comm |].
  split; [vm_compute; reflexivity |].
  repeat split; vm_compute; reflexivity.
Qed.

(** ** Divisions by a mean *)





(** ** What the exact model leaves out *)

(** Ten samples of 2e307 add up to [Infinity]: the mean and the standard
    deviation are infinite, their quotient is NaN, and the clamp of
    [calculateConnectionStability] returns NaN.  The ranges of the scores
    are therefore stated for samples within the safe range. *)
Example calculateConnectionStability_overflow :
  NetworkIntelligence64.historyMean (repeat sample_2e307 10)
  = S754_infinity false
  /\ NetworkIntelligence64.calculateConnectionStability
       (repeat sample_2e307 10) = S754_nan.
Proof. split; vm_compute; reflexivity. Qed.

(** The computed variance of a constant history need not be 0: the mean
    of ten samples of 0.1 is not 0.1 in doubles. *)
Example calculateVariance_of_constant_history :
  Double.isZero
    (NetworkIntelligence64.calculateVariance (repeat sample_0_1 10)) = false
  /\ Double.ltb (Double.ofZ 0)
       (NetworkIntelligence64.calculateVariance (repeat sample_0_1 10)) = true.
Proof. split; vm_compute; reflexivity. Qed.
